(** * BKZ reduction driver of fplll (src/bkz.cpp, fplll/defs.h)

    A shallow embedding of the block-reduction driver: [BKZAutoAbort::testAbort],
    [getCurrentSlope], the constructor of [BKZReduction], [svpReduction],
    [bkzLoop], [bkz], [setStatus] and [dumpGSO].

    The driver is a coordinator: the Gram-Schmidt object [m], the LLL object
    [lllObj], the enumerator and the clock live in other translation units.
    They appear here as an interface ([Collaborators]) over an abstract
    world [W]; every call the driver makes is applied to the world and
    appended to a trace, so that statements can speak about which calls were
    made and in which order.

    - C++ [int] is [Z] with two's-complement wrap-around ([Int32]).
    - C++ [double] is a binary64 primitive float.
    - The template parameter [FT] is the interface [FloatLike].
    - [FPLLL_DEBUG_CHECK] follows defs.h: an [assert] when [DEBUG] is defined,
      nothing otherwise.
    - Loops without a static bound take fuel. *)

From Stdlib Require Import ZArith List Bool Lia String.
From Stdlib Require Import Floats.
Import ListNotations.
Local Open Scope Z_scope.

Set Implicit Arguments.
Set Warnings "-register-all".

(** ** Machine integers *)

Module Int32.

Definition min_signed : Z := -2147483648.
Definition max_signed : Z := 2147483647.
Definition modulus : Z := 4294967296.

Definition in_range (z : Z) : Prop := min_signed <= z <= max_signed.

Definition wrap (z : Z) : Z := (z - min_signed) mod modulus + min_signed.

Definition add (x y : Z) : Z := wrap (x + y).
Definition sub (x y : Z) : Z := wrap (x - y).
(** [x++] and [x--] *)
Definition incr (x : Z) : Z := add x 1.
Definition decr (x : Z) : Z := sub x 1.
(** [std::min] on [int] *)
Definition min (x y : Z) : Z := if y <? x then y else x.

Lemma wrap_in_range z : in_range z -> wrap z = z.
Proof.
  unfold in_range, wrap, min_signed, max_signed, modulus. intros H.
  rewrite Z.mod_small by lia. lia.
Qed.

Lemma wrap_range z : in_range (wrap z).
Proof.
  unfold in_range, wrap, min_signed, max_signed, modulus.
  pose proof (Z.mod_pos_bound (z - -2147483648) 4294967296 ltac:(lia)). lia.
Qed.

Lemma add_exact x y : in_range (x + y) -> add x y = x + y.
Proof. apply wrap_in_range. Qed.

Lemma sub_exact x y : in_range (x - y) -> sub x y = x - y.
Proof. apply wrap_in_range. Qed.

Lemma incr_exact x : min_signed <= x < max_signed -> incr x = x + 1.
Proof. intros H. apply add_exact. unfold in_range, min_signed, max_signed in *. lia. Qed.

Lemma min_spec x y : min x y = Z.min x y.
Proof. unfold min. destruct (Z.ltb_spec y x); lia. Qed.

End Int32.

Infix "+i" := Int32.add (at level 50, left associativity).
Infix "-i" := Int32.sub (at level 50, left associativity).

(** ** Doubles *)

(** [int] or [long] converted to [double]: exact up to 2^53 in absolute
    value, rounded to nearest above, for |z| < 2^63. *)
Definition Z2d (z : Z) : float :=
  if z <? 0 then PrimFloat.opp (PrimFloat.of_uint63 (Uint63.of_Z (- z)))
  else PrimFloat.of_uint63 (Uint63.of_Z z).

(** [x >= y] on doubles (false when either side is NaN). *)
Definition d_ge (x y : float) : bool := PrimFloat.leb y x.

(** [std::min(a, b)]: [b] when [b < a], else [a]. *)
Definition d_min (a b : float) : float := if PrimFloat.ltb b a then b else a.

(** The literal [0.001] and the value of [log(2.0)]. *)
Definition d_milli : float := 0x1.0624dd2f1a9fcp-10%float.
Definition d_ln2 : float := 0x1.62e42fefa39efp-1%float.
Definition d_half : float := 0x1p-1%float.

(** ** defs.h: status codes and flags *)

Inductive RedStatus : Set :=
  | RED_SUCCESS
  | RED_GSO_FAILURE
  | RED_BABAI_FAILURE
  | RED_LLL_FAILURE
  | RED_ENUM_FAILURE
  | RED_BKZ_FAILURE
  | RED_BKZ_TIME_LIMIT
  | RED_BKZ_LOOPS_LIMIT
  | RED_STATUS_MAX.

(** The enumerators' values; value 1 is skipped. *)
Definition RedStatus_int (r : RedStatus) : Z :=
  match r with
  | RED_SUCCESS => 0
  | RED_GSO_FAILURE => 2
  | RED_BABAI_FAILURE => 3
  | RED_LLL_FAILURE => 4
  | RED_ENUM_FAILURE => 5
  | RED_BKZ_FAILURE => 6
  | RED_BKZ_TIME_LIMIT => 7
  | RED_BKZ_LOOPS_LIMIT => 8
  | RED_STATUS_MAX => 9
  end.

Coercion RedStatus_int : RedStatus >-> Z.

Definition RED_STATUS_STR : list string :=
  [ "success"; EmptyString; "infinite number in GSO"; "infinite loop in babai";
    "infinite loop in LLL"; "error in SVP solver"; "error in BKZ";
    "time limit exceeded in BKZ"; "loops limit exceeded in BKZ" ]%string.

Definition BKZ_DEFAULT : Z := 0.
Definition BKZ_VERBOSE : Z := 1.
Definition BKZ_NO_LLL : Z := 2.
Definition BKZ_MAX_LOOPS : Z := 4.
Definition BKZ_MAX_TIME : Z := 8.
Definition BKZ_BOUNDED_LLL : Z := 0x10.
Definition BKZ_AUTO_ABORT : Z := 0x20.
Definition BKZ_DUMP_GSO : Z := 0x40.
Definition BKZ_GH_BND : Z := 0x80.
Definition BKZ_SD_VARIANT : Z := 0x100.
Definition BKZ_SLD_RED : Z := 0x200.

(** [flags & f] used as a condition. *)
Definition has_flag (flags f : Z) : bool := negb (Z.land flags f =? 0).

(** ** Parameters and the auto-abort object (bkz.h) *)

Module BKZParam.

(** Modelled from the spec: the parameter block [BKZParam] is declared in
    bkz.h, which is not part of the sources at hand; the fields are the
    ones bkz.cpp reads, with the types printParams and the comparisons
    give them. [preprocessing] is a nullable pointer to a nested block. *)
Inductive t : Type := Build {
  blockSize : Z;
  delta : float;
  flags : Z;
  maxLoops : Z;
  maxTime : float;
  autoAbort_scale : float;
  autoAbort_maxNoDec : Z;
  pruning : list float;
  preprocessing : option t;
  dumpGSOFilename : string
}.

End BKZParam.

Module BKZAutoAbort.

Record t : Type := Build {
  oldSlope : float;
  noDec : Z;
  numRows : Z;
  startRow : Z
}.

(** Modelled from the spec: the constructor of [BKZAutoAbort] is in bkz.h,
    which is not part of the sources at hand. The spec gives the fresh
    state: [oldSlope] is +infinity, [noDec] is the sentinel -1, and the
    range is [startRow, numRows) with [startRow] defaulting to 0. *)
Definition new (numRows startRow : Z) : t :=
  {| oldSlope := infinity; noDec := -1; numRows := numRows; startRow := startRow |}.

End BKZAutoAbort.

(** ** Outcomes *)

Inductive failure : Set :=
  | OutOfFuel          (* the model's fuel ran out *)
  | AssertionFailed    (* FPLLL_DEBUG_CHECK failed in a DEBUG build *)
  | OutOfBounds.       (* a vector was indexed or resized out of range *)

Inductive outcome (A : Type) : Type :=
  | Ok (a : A)
  | Stuck (why : failure).

Arguments Stuck {A} why.

(** ** Interfaces of the collaborators *)

(** Modelled from the spec: the number classes ([FP_NR], nr.h) are not part
    of the sources at hand. These are the capabilities bkz.cpp uses of the
    floating-point type [FT]; section 9 of the spec lists them as the
    interface of the float type. *)
Class FloatLike (FT : Type) : Type := {
  FT_of_d : float -> FT;          (* assignment from a double *)
  get_d : FT -> float;            (* get_d() *)
  is_zero : FT -> bool;           (* is_zero() *)
  FT_mul : FT -> FT -> FT;        (* z.mul(x, y) *)
  FT_ge : FT -> FT -> bool;       (* x >= y *)
  FT_log : FT -> FT               (* z.log(x, GMP_RNDU) *)
}.

(** Modelled from the spec: [MatGSO], [LLLReduction], [Enumeration] and
    [cputime] are not part of the sources at hand; sections 6.1 to 6.3 of
    the spec give their operations. These are the calls bkz.cpp makes on
    [m], [lllObj], the enumerator and the clock, as functions on the world.
    [enumerate] takes [maxDist] by reference and fills [evaluator.solCoord]:
    it returns the updated bound and the coordinates ("the returned squared
    norm" of section 4.3). [cputime] reads the clock in milliseconds. *)
Class Collaborators (W FT : Type) : Type := {
  m_d : W -> Z;
  m_b_is_zero : W -> Z -> bool;
  getRExp : Z -> Z -> W -> FT * Z;
  updateGSORow : Z -> W -> W;
  discoverAllRows : W -> W;
  createRow : W -> W;
  removeLastRow : W -> W;
  moveRow : Z -> Z -> W -> W;
  rowOpBegin : Z -> Z -> W -> W;
  rowOpEnd : Z -> Z -> W -> W;
  row_addmul : Z -> Z -> FT -> W -> W;
  lll : Z -> Z -> Z -> W -> bool * W;
  sizeReduction : Z -> Z -> W -> bool * W;
  lll_status : W -> Z;
  lll_nSwaps : W -> Z;
  enumerate : FT -> Z -> Z -> Z -> list float -> W -> (FT * list FT) * W;
  cputime : W -> Z * W
}.

(** Modelled from the spec: the code of MatGSO, LLLReduction and the
    enumerator is not part of the sources at hand. Section 6.1 of the spec
    gives [d] as the current row count, which grows and shrinks through
    [createRow] (one more row) and [removeLastRow] (one row less) only;
    section 6.2 gives [status] as the failure code of the LLL object, so a
    failed [lll] does not leave [RED_SUCCESS] there. *)
Class RowContract {W FT : Type} (CO : Collaborators W FT) : Prop := {
  rows_createRow : forall w, m_d (createRow w) = m_d w + 1;
  rows_removeLastRow : forall w, m_d (removeLastRow w) = m_d w - 1;
  rows_updateGSORow : forall i w, m_d (updateGSORow i w) = m_d w;
  rows_discoverAllRows : forall w, m_d (discoverAllRows w) = m_d w;
  rows_moveRow : forall i j w, m_d (moveRow i j w) = m_d w;
  rows_rowOpBegin : forall i j w, m_d (rowOpBegin i j w) = m_d w;
  rows_rowOpEnd : forall i j w, m_d (rowOpEnd i j w) = m_d w;
  rows_row_addmul : forall i j x w, m_d (row_addmul i j x w) = m_d w;
  rows_lll : forall a b c w, m_d (snd (lll a b c w)) = m_d w;
  rows_sizeReduction : forall a b w, m_d (snd (sizeReduction a b w)) = m_d w;
  rows_enumerate :
    forall r e a b p w, m_d (snd (enumerate r e a b p w)) = m_d w;
  rows_cputime : forall w, m_d (snd (cputime w)) = m_d w;
  lll_failure_status :
    forall a b c w, fst (lll a b c w) = false ->
                    lll_status (snd (lll a b c w)) <> RED_SUCCESS
}.

(** What the driver prints or dumps; the values, not the formatted text. *)
Inductive DumpPrefix : Type :=
  | DumpInput
  | DumpEndOfLoop (loop : Z) (seconds : float)
  | DumpOutput (seconds : float).

Inductive Message : Type :=
  | MsgEntering (par : BKZParam.t)
  | MsgBlockReduced (kappa1 blockSize : Z)
  | MsgEndOfLoop (loop : Z) (seconds : float) (minRow : Z) (r0 : float) (expo : Z)
  | MsgSlope (slope : float)
  | MsgEndSuccess
  | MsgEndFailure (reason : string).

Section Driver.

Context {W FT : Type} {FL : FloatLike FT} {CO : Collaborators W FT}.

(** Whether the build defines DEBUG. *)
Variable DEBUG : bool.

Inductive Call : Type :=
  | C_updateGSORow (i : Z)
  | C_discoverAllRows
  | C_createRow
  | C_removeLastRow
  | C_moveRow (src dst : Z)
  | C_rowOpBegin (first last : Z)
  | C_rowOpEnd (first last : Z)
  | C_row_addmul (dst src : Z) (c : FT)
  | C_lll (kappaMin kappaStart kappaEnd : Z)
  | C_sizeReduction (kappaMin kappaEnd : Z)
  | C_enumerate (first last : Z)
  | C_cputime
  | C_cerr (msg : Message)
  | C_dump (filename : string) (append : bool) (prefix : DumpPrefix) (profile : list float).

(** The members of [BKZReduction] that bkz.cpp reads and writes (the class
    itself is declared in bkz.h), the world behind its references, and the
    calls made so far (oldest first). *)
Record State : Type := mkState {
  status : Z;
  param : BKZParam.t;
  numRows : Z;
  delta : FT;
  maxDist : FT;
  deltaMaxDist : FT;
  cputimeStart : float;
  solCoord : list FT;         (* evaluator.solCoord *)
  world : W;
  trace : list Call
}.

Definition set_status v (s : State) : State :=
  mkState v (param s) (numRows s) (delta s) (maxDist s) (deltaMaxDist s)
          (cputimeStart s) (solCoord s) (world s) (trace s).
Definition set_maxDist v (s : State) : State :=
  mkState (status s) (param s) (numRows s) (delta s) v (deltaMaxDist s)
          (cputimeStart s) (solCoord s) (world s) (trace s).
Definition set_deltaMaxDist v (s : State) : State :=
  mkState (status s) (param s) (numRows s) (delta s) (maxDist s) v
          (cputimeStart s) (solCoord s) (world s) (trace s).
Definition set_cputimeStart v (s : State) : State :=
  mkState (status s) (param s) (numRows s) (delta s) (maxDist s) (deltaMaxDist s)
          v (solCoord s) (world s) (trace s).
Definition set_solCoord v (s : State) : State :=
  mkState (status s) (param s) (numRows s) (delta s) (maxDist s) (deltaMaxDist s)
          (cputimeStart s) v (world s) (trace s).

(** A collaborator call: the world moves on and the call is logged. *)
Definition step_world (c : Call) (w : W) (s : State) : State :=
  mkState (status s) (param s) (numRows s) (delta s) (maxDist s) (deltaMaxDist s)
          (cputimeStart s) (solCoord s) w (trace s ++ [c]).

(** *** The monad: state with abnormal termination *)

Definition M (A : Type) : Type := State -> outcome (A * State).

Definition ret {A} (a : A) : M A := fun s => Ok (a, s).

Definition bind {A B} (c : M A) (k : A -> M B) : M B :=
  fun s => match c s with
           | Ok (a, s') => k a s'
           | Stuck why => Stuck why
           end.

Definition stuck {A} (why : failure) : M A := fun _ => Stuck why.
Definition gets {A} (f : State -> A) : M A := fun s => Ok (f s, s).
Definition modify (f : State -> State) : M unit := fun s => Ok (tt, f s).

(** The returned value and the final state of a run, when it returns. *)
Definition value {A} (o : outcome (A * State)) : option A :=
  match o with Ok (a, _) => Some a | Stuck _ => None end.

Definition final {A} (o : outcome (A * State)) : option State :=
  match o with Ok (_, s) => Some s | Stuck _ => None end.

Local Notation "x <- c ;; k" := (bind c (fun x => k))
  (at level 61, c at next level, right associativity).
Local Notation "' p <- c ;; k" := (bind c (fun p => k))
  (at level 61, p pattern, c at next level, right associativity).
Local Notation "c ;; k" := (bind c (fun _ => k))
  (at level 61, right associativity).

(** A call that only changes the world, and one that also returns a value. *)
Definition call_w (c : Call) (f : W -> W) : M unit :=
  fun s => Ok (tt, step_world c (f (world s)) s).

Definition call_r {A} (c : Call) (f : W -> A * W) : M A :=
  fun s => let (a, w) := f (world s) in Ok (a, step_world c w s).

(** Output: logged, the world is untouched. *)
Definition emit (c : Call) : M unit :=
  fun s => Ok (tt, step_world c (world s) s).

Definition when (b : bool) (c : M unit) : M unit := if b then c else ret tt.

(** defs.h: [#define FPLLL_DEBUG_CHECK(x) assert(x);] under DEBUG, empty
    otherwise. *)
Definition FPLLL_DEBUG_CHECK (x : bool) : M unit :=
  if DEBUG then (if x then ret tt else stuck AssertionFailed) else ret tt.

(** [for (int i = lo; i < hi; i++) a = body(i, a);] for a body that neither
    breaks nor assigns [i] or [hi]: the body runs [hi - lo] times, and the
    increment cannot overflow because [i < hi] when it is made. *)
Fixpoint for_n {A} (n : nat) (i : Z) (body : Z -> A -> M A) (a : A) : M A :=
  match n with
  | O => ret a
  | S n' => a' <- body i a ;; for_n n' (i + 1) body a'
  end.

Definition for_range {A} (lo hi : Z) (body : Z -> A -> M A) (a : A) : M A :=
  for_n (Z.to_nat (hi - lo)) lo body a.

(** [std::vector] indexing. *)
Definition vec_get {A} (x : list A) (i : Z) : M A :=
  if i <? 0 then stuck OutOfBounds
  else match nth_error x (Z.to_nat i) with
       | Some v => ret v
       | None => stuck OutOfBounds
       end.

Fixpoint list_set {A} (x : list A) (n : nat) (v : A) : list A :=
  match x, n with
  | [], _ => []
  | _ :: t, O => v :: t
  | h :: t, S n' => h :: list_set t n' v
  end.

Definition vec_set {A} (x : list A) (i : Z) (v : A) : M (list A) :=
  if (i <? 0) || (Z.of_nat (List.length x) <=? i) then stuck OutOfBounds
  else ret (list_set x (Z.to_nat i) v).

(** *** getCurrentSlope (bkz.cpp 49-72) *)

Definition getCurrentSlope (startRow stopRow : Z) : M float :=
  if stopRow <? 0 then stuck OutOfBounds            (* x.resize(stopRow) *)
  else
    x <- for_range startRow stopRow (fun i x =>
           call_w (C_updateGSORow i) (updateGSORow i) ;;
           w <- gets world ;;
           let (f, expo) := getRExp i i w in
           let logF := FT_log f in
           vec_set x i (get_d logF + Z2d expo * d_ln2)%float)
         (repeat 0%float (Z.to_nat stopRow)) ;;
    let n := stopRow -i startRow in
    let iMean := (Z2d (n -i 1) * d_half)%float in
    xMean <- for_range startRow stopRow (fun i xMean =>
               xi <- vec_get x i ;; ret (xMean + xi)%float) 0%float ;;
    let xMean := (xMean / Z2d n)%float in
    ' (v1, v2) <- for_range startRow stopRow (fun i (v : float * float) =>
               xi <- vec_get x i ;;
               ret (fst v + (Z2d i - iMean) * (xi - xMean),
                    snd v + (Z2d i - iMean) * (Z2d i - iMean))%float)
             (0%float, 0%float) ;;
    ret (v1 / v2)%float.

(** *** BKZAutoAbort::testAbort (bkz.cpp 25-34) *)

Definition testAbort (scale : float) (maxNoDec : Z) (a : BKZAutoAbort.t)
  : M (bool * BKZAutoAbort.t) :=
  slope <- getCurrentSlope (BKZAutoAbort.startRow a) (BKZAutoAbort.numRows a) ;;
  let newSlope := (- slope)%float in
  let noDec :=
    if (BKZAutoAbort.noDec a =? -1)
       || PrimFloat.ltb newSlope (scale * BKZAutoAbort.oldSlope a)%float
    then 0
    else Int32.incr (BKZAutoAbort.noDec a) in
  let oldSlope := d_min (BKZAutoAbort.oldSlope a) newSlope in
  ret (maxNoDec <=? noDec,
       BKZAutoAbort.Build oldSlope noDec
         (BKZAutoAbort.numRows a) (BKZAutoAbort.startRow a)).

(** *** BKZReduction::setStatus (bkz.cpp 259-269) *)

Definition setStatus (newStatus : Z) : M bool :=
  modify (set_status newStatus) ;;
  st <- gets status ;;
  par <- gets param ;;
  when (has_flag (BKZParam.flags par) BKZ_VERBOSE)
       (if st =? RED_SUCCESS then emit (C_cerr MsgEndSuccess)
        else reason <- vec_get RED_STATUS_STR st ;;      (* RED_STATUS_STR[status] *)
             emit (C_cerr (MsgEndFailure reason))) ;;
  ret (st =? RED_SUCCESS).

(** *** BKZReduction::dumpGSO (bkz.cpp 271-289) *)

Definition dumpGSO (filename : string) (prefix : DumpPrefix) (append : bool) : M unit :=
  n <- gets numRows ;;
  profile <- for_range 0 n (fun i acc =>
               call_w (C_updateGSORow i) (updateGSORow i) ;;
               w <- gets world ;;
               let (f, expo) := getRExp i i w in
               let logF := FT_log f in
               ret (acc ++ [(get_d logF + Z2d expo * d_ln2)%float]))
             [] ;;
  emit (C_dump filename append prefix profile).

(** *** BKZReduction::svpReduction (bkz.cpp 75-160)

    The body is cut at its blank lines into the pre-LLL (79-86), the
    preprocessing loop (88-108), the enumeration (110-115) and the insertion
    decision (116-159). [bool& clean] is passed in and handed back. *)

(** Lines 121-128: the number of nonzero coordinates and the index of the
    first one equal to 1 or -1. *)
Definition classify (blockSize : Z) : M (Z * Z) :=
  for_range 0 blockSize (fun i (c : Z * Z) =>
      let (nzVectors, iVector) := c in
      sc <- gets solCoord ;;
      x <- vec_get sc i ;;
      if negb (is_zero x) then
        let nzVectors := Int32.incr nzVectors in
        if (iVector =? -1)
           && (PrimFloat.eqb (get_d x) 1 || PrimFloat.eqb (get_d x) (-1))
        then ret (nzVectors, i)
        else ret (nzVectors, iVector)
      else ret (nzVectors, iVector))
    (0, -1).

(** Lines 79-86. [inl b]: svpReduction has returned [b]; [inr clean]: it
    goes on, with this value of [clean]. *)
Definition svp_lll (kappa blockSize : Z) (par : BKZParam.t) (clean : bool)
  : M (bool + bool) :=
  let lllStart := if has_flag (BKZParam.flags par) BKZ_BOUNDED_LLL then kappa else 0 in
  ok <- call_r (C_lll lllStart kappa (kappa +i blockSize))
               (lll lllStart kappa (kappa +i blockSize)) ;;
  if negb ok then
    st <- gets (fun s => lll_status (world s)) ;;
    b <- setStatus st ;;
    ret (inl b)
  else
    nSwaps <- gets (fun s => lll_nSwaps (world s)) ;;
    ret (inr (if 0 <? nSwaps then false else clean)).

(** Lines 110-115. *)
Definition svp_enumerate (kappa blockSize : Z) (par : BKZParam.t) : M unit :=
  w <- gets world ;;
  let (r, maxDistExpo) := getRExp kappa kappa w in
  modify (set_maxDist r) ;;
  dl <- gets delta ;;
  modify (set_deltaMaxDist (FT_mul dl r)) ;;
  modify (set_solCoord []) ;;
  ' (maxDist', sol) <- call_r (C_enumerate kappa (kappa +i blockSize))
        (enumerate r maxDistExpo kappa (kappa +i blockSize) (BKZParam.pruning par)) ;;
  modify (set_maxDist maxDist') ;;
  modify (set_solCoord sol).

(** Lines 135-141: the vector is another row of the basis. *)
Definition svp_insert_row (kappa iVector : Z) (clean : bool) : M (bool * bool) :=
  FPLLL_DEBUG_CHECK (negb (iVector =? -1) && negb (iVector =? 0)) ;;
  call_w (C_moveRow (kappa +i iVector) kappa) (moveRow (kappa +i iVector) kappa) ;;
  ok <- call_r (C_sizeReduction kappa (kappa +i 1)) (sizeReduction kappa (kappa +i 1)) ;;
  if negb ok then
    st <- gets (fun s => lll_status (world s)) ;;
    b <- setStatus st ;;
    ret (b, clean)
  else ret (true, false).

(** Lines 142-157: the general case. *)
Definition svp_insert_general (kappa blockSize : Z) (clean : bool) : M (bool * bool) :=
  d <- gets (fun s => m_d (world s)) ;;
  call_w C_createRow createRow ;;
  call_w (C_rowOpBegin d (d +i 1)) (rowOpBegin d (d +i 1)) ;;
  for_range 0 blockSize (fun i (_ : unit) =>
      sc <- gets solCoord ;;
      x <- vec_get sc i ;;
      call_w (C_row_addmul d (kappa +i i) x) (row_addmul d (kappa +i i) x)) tt ;;
  call_w (C_rowOpEnd d (d +i 1)) (rowOpEnd d (d +i 1)) ;;
  call_w (C_moveRow d kappa) (moveRow d kappa) ;;
  ok <- call_r (C_lll kappa kappa (kappa +i blockSize +i 1))
               (lll kappa kappa (kappa +i blockSize +i 1)) ;;
  if negb ok then
    st <- gets (fun s => lll_status (world s)) ;;
    b <- setStatus st ;;
    ret (b, clean)
  else
    w <- gets world ;;
    FPLLL_DEBUG_CHECK (m_b_is_zero w (kappa +i blockSize)) ;;
    call_w (C_moveRow (kappa +i blockSize) d) (moveRow (kappa +i blockSize) d) ;;
    call_w C_removeLastRow removeLastRow ;;
    ret (true, false).

(** Lines 116-159. *)
Definition svp_insert (kappa blockSize : Z) (clean : bool) : M (bool * bool) :=
  sc <- gets solCoord ;;
  match sc with
  | [] => b <- setStatus RED_ENUM_FAILURE ;; ret (b, clean)
  | _ :: _ =>
    ' (nzVectors, iVector) <- classify blockSize ;;
    FPLLL_DEBUG_CHECK (0 <? nzVectors) ;;
    md <- gets maxDist ;;
    dmd <- gets deltaMaxDist ;;
    if FT_ge md dmd then ret (true, clean)          (* Do nothing *)
    else if nzVectors =? 1 then svp_insert_row kappa iVector clean
    else svp_insert_general kappa blockSize clean
  end.

(** The type of [svpReduction], for the loops that call it. *)
Definition block_fn : Type := Z -> Z -> BKZParam.t -> bool -> M (bool * bool).

(** *** BKZReduction::bkzLoop (bkz.cpp 162-193) *)

(** Lines 164-172, entered with the current [kappa]. *)
Fixpoint bkzLoop_sweep (svp : block_fn) (fuel : nat) (kappa kappaMax : Z)
    (par : BKZParam.t) (maxRow : Z) (clean : bool) : M (bool * Z * bool) :=
  match fuel with
  | O => stuck OutOfFuel
  | S fuel' =>
    if kappa <? maxRow -i 1 then
      let blockSize := Int32.min (BKZParam.blockSize par) (maxRow -i kappa) in
      ' (ok, clean) <- svp kappa blockSize par clean ;;
      if negb ok then ret (false, kappaMax, clean)
      else
        if has_flag (BKZParam.flags par) BKZ_VERBOSE && (kappaMax <? kappa) && clean
        then
          emit (C_cerr (MsgBlockReduced (kappa +i 1) (BKZParam.blockSize par))) ;;
          bkzLoop_sweep svp fuel' (Int32.incr kappa) kappa par maxRow clean
        else
          bkzLoop_sweep svp fuel' (Int32.incr kappa) kappaMax par maxRow clean
    else ret (true, kappaMax, clean)
  end.

(** Lines 174-192. *)
Definition bkzLoop_report (loop : Z) (par : BKZParam.t) (minRow maxRow : Z) : M unit :=
  when (has_flag (BKZParam.flags par) BKZ_VERBOSE)
    (w <- gets world ;;
     let (r0, expo) := getRExp minRow minRow w in
     t <- call_r C_cputime cputime ;;
     t0 <- gets cputimeStart ;;
     emit (C_cerr (MsgEndOfLoop loop ((Z2d t - t0) * d_milli)%float minRow (get_d r0) expo)) ;;
     sl <- getCurrentSlope minRow maxRow ;;
     emit (C_cerr (MsgSlope sl))) ;;
  when (has_flag (BKZParam.flags par) BKZ_DUMP_GSO)
    (t <- call_r C_cputime cputime ;;
     t0 <- gets cputimeStart ;;
     dumpGSO (BKZParam.dumpGSOFilename par)
             (DumpEndOfLoop loop ((Z2d t - t0) * d_milli)%float) true).

Definition bkzLoop_with (svp : block_fn) (fuel : nat) (loop kappaMax : Z)
    (par : BKZParam.t) (minRow maxRow : Z) (clean : bool) : M (bool * Z * bool) :=
  ' (ok, kappaMax, clean) <- bkzLoop_sweep svp fuel minRow kappaMax par maxRow clean ;;
  if negb ok then ret (false, kappaMax, clean)
  else
    bkzLoop_report loop par minRow maxRow ;;
    ret (true, kappaMax, clean).

(** Lines 95-97 of svpReduction: the three ways out of the preprocessing
    loop before a tour. [true]: [break]. *)
Definition svp_preproc_guards (i : Z) (par : BKZParam.t) (cputimeStart2 : float)
    (autoAbort : BKZAutoAbort.t) : M (bool * BKZAutoAbort.t) :=
  if has_flag (BKZParam.flags par) BKZ_MAX_LOOPS && (BKZParam.maxLoops par <=? i)
  then ret (true, autoAbort)
  else
    late <- (if has_flag (BKZParam.flags par) BKZ_MAX_TIME
             then t <- call_r C_cputime cputime ;;
                  ret (d_ge ((Z2d t - cputimeStart2) * d_milli)%float (BKZParam.maxTime par))
             else ret false) ;;
    if late then ret (true, autoAbort)
    else testAbort (BKZParam.autoAbort_scale par)
                   (BKZParam.autoAbort_maxNoDec par) autoAbort.

(** Lines 94-107 of svpReduction: [for (int i = 0; ; i++)]. [tour] is the
    call to [bkzLoop] of line 100. The result is [(false, clean)] when
    svpReduction returns false from inside the loop (line 101) and
    [(true, clean)] when the loop is left by a [break]. *)
Fixpoint svp_preproc_for (tour : Z -> Z -> bool -> M (bool * Z * bool))
    (fuel : nat) (i : Z) (par : BKZParam.t) (cputimeStart2 : float)
    (dummyKappaMax : Z) (autoAbort : BKZAutoAbort.t) (clean : bool)
  : M (bool * bool) :=
  match fuel with
  | O => stuck OutOfFuel
  | S fuel' =>
    ' (stop, autoAbort) <- svp_preproc_guards i par cputimeStart2 autoAbort ;;
    if stop then ret (true, clean)
    else
      let clean2 := true in
      ' (ok, dummyKappaMax, clean2) <- tour i dummyKappaMax clean2 ;;
      if negb ok then ret (false, clean)
      else if clean2 then ret (true, clean)
      else svp_preproc_for tour fuel' (Int32.incr i) par cputimeStart2
             dummyKappaMax autoAbort clean2
  end.

(** Lines 88-108. *)
Definition svp_preproc (tour : BKZParam.t -> Z -> Z -> bool -> M (bool * Z * bool))
    (fuel : nat) (kappa blockSize : Z) (par : BKZParam.t) (clean : bool)
  : M (bool * bool) :=
  match BKZParam.preprocessing par with
  | Some preproc =>
    if (BKZParam.blockSize preproc <? blockSize) && (2 <? BKZParam.blockSize preproc)
    then
      dummyKappaMax <- gets numRows ;;
      let autoAbort := BKZAutoAbort.new (kappa +i blockSize) kappa in
      t <- call_r C_cputime cputime ;;
      svp_preproc_for (tour preproc) fuel 0 par (Z2d t) dummyKappaMax autoAbort clean
    else ret (true, clean)
  | None => ret (true, clean)
  end.

Fixpoint svpReduction (fuel : nat) (kappa blockSize : Z) (par : BKZParam.t)
    (clean : bool) {struct fuel} : M (bool * bool) :=
  match fuel with
  | O => stuck OutOfFuel
  | S fuel' =>
    r <- svp_lll kappa blockSize par clean ;;
    match r with
    | inl b => ret (b, clean)
    | inr clean =>
      ' (go, clean) <- svp_preproc
            (fun preproc i kappaMax clean2 =>
               bkzLoop_with (svpReduction fuel') fuel' i kappaMax preproc
                            kappa (kappa +i blockSize) clean2)
            fuel' kappa blockSize par clean ;;
      if negb go then ret (false, clean)
      else
        svp_enumerate kappa blockSize par ;;
        svp_insert kappa blockSize clean
    end
  end.

Definition bkzLoop (fuel : nat) : Z -> Z -> BKZParam.t -> Z -> Z -> bool
                                  -> M (bool * Z * bool) :=
  bkzLoop_with (svpReduction fuel) fuel.

(** *** The tour as the spec words it

    "For kappa from minRow to maxRow - 2 inclusive: beta' = min(blockSize,
    maxRow - kappa); reduceBlock(kappa, beta', params, clean). On failure,
    propagate." The list of blocks is written down first, then reduced from
    left to right; this is what [bkzLoop_sweep] is compared with. *)

Fixpoint seqZ (n : nat) (lo : Z) : list Z :=
  match n with
  | O => []
  | S n' => lo :: seqZ n' (lo + 1)
  end.

Definition tour_blocks (par : BKZParam.t) (minRow maxRow : Z) : list (Z * Z) :=
  map (fun kappa => (kappa, Z.min (BKZParam.blockSize par) (maxRow - kappa)))
      (seqZ (Z.to_nat (maxRow - 1 - minRow)) minRow).

Fixpoint reduce_blocks (svp : block_fn) (blocks : list (Z * Z)) (kappaMax : Z)
    (par : BKZParam.t) (clean : bool) : M (bool * Z * bool) :=
  match blocks with
  | [] => ret (true, kappaMax, clean)
  | (kappa, blockSize) :: rest =>
    ' (ok, clean) <- svp kappa blockSize par clean ;;
    if negb ok then ret (false, kappaMax, clean)
    else
      if has_flag (BKZParam.flags par) BKZ_VERBOSE && (kappaMax <? kappa) && clean
      then
        emit (C_cerr (MsgBlockReduced (kappa + 1) (BKZParam.blockSize par))) ;;
        reduce_blocks svp rest kappa par clean
      else reduce_blocks svp rest kappaMax par clean
  end.

(** *** BKZReduction::bkz (bkz.cpp 195-243) *)

(** Lines 223-231: the three ways out of the main loop before a tour.
    [Some finalStatus]: [break], with this value of [finalStatus]. *)
Definition bkz_guards (iLoop : Z) (autoAbort : BKZAutoAbort.t)
  : M (option Z * BKZAutoAbort.t) :=
  par <- gets param ;;
  let flags := BKZParam.flags par in
  if has_flag flags BKZ_MAX_LOOPS && (BKZParam.maxLoops par <=? iLoop)
  then ret (Some (RED_BKZ_LOOPS_LIMIT : Z), autoAbort)
  else
    late <- (if has_flag flags BKZ_MAX_TIME
             then t <- call_r C_cputime cputime ;;
                  t0 <- gets cputimeStart ;;
                  ret (d_ge ((Z2d t - t0) * d_milli)%float (BKZParam.maxTime par))
             else ret false) ;;
    if late then ret (Some (RED_BKZ_TIME_LIMIT : Z), autoAbort)
    else
      if has_flag flags BKZ_AUTO_ABORT
      then
        ' (abort, autoAbort) <- testAbort (BKZParam.autoAbort_scale par)
                                  (BKZParam.autoAbort_maxNoDec par) autoAbort ;;
        ret (if abort then Some (RED_SUCCESS : Z) else None, autoAbort)
      else ret (None, autoAbort).

(** Lines 222-235, entered with the current [iLoop]. [None]: bkz returns
    false (line 233); [Some finalStatus]: the loop was left by a [break]. *)
Fixpoint bkz_for (fuel : nat) (iLoop kappaMax : Z) (autoAbort : BKZAutoAbort.t)
  : M (option Z) :=
  match fuel with
  | O => stuck OutOfFuel
  | S fuel' =>
    ' (stop, autoAbort) <- bkz_guards iLoop autoAbort ;;
    match stop with
    | Some finalStatus => ret (Some finalStatus)
    | None =>
      par <- gets param ;;
      n <- gets numRows ;;
      ' (ok, kappaMax, clean) <- bkzLoop fuel' iLoop kappaMax par 0 n true ;;
      if negb ok then ret None
      else if clean || (n <=? BKZParam.blockSize par) then ret (Some (RED_SUCCESS : Z))
      else bkz_for fuel' (Int32.incr iLoop) kappaMax autoAbort
    end
  end.

(** Lines 209-220. *)
Definition bkz_prelude : M BKZAutoAbort.t :=
  par <- gets param ;;
  n <- gets numRows ;;
  let autoAbort := BKZAutoAbort.new n 0 in
  when (has_flag (BKZParam.flags par) BKZ_VERBOSE) (emit (C_cerr (MsgEntering par))) ;;
  t <- call_r C_cputime cputime ;;
  modify (set_cputimeStart (Z2d t)) ;;
  call_w C_discoverAllRows discoverAllRows ;;
  ret autoAbort.

(** Lines 236-242. *)
Definition bkz_epilogue (finalStatus : Z) : M bool :=
  par <- gets param ;;
  when (has_flag (BKZParam.flags par) BKZ_DUMP_GSO)
       (t <- call_r C_cputime cputime ;;
        t0 <- gets cputimeStart ;;
        dumpGSO (BKZParam.dumpGSOFilename par)
                (DumpOutput ((Z2d t - t0) * d_milli)%float) true) ;;
  setStatus finalStatus.

Definition bkz (fuel : nat) : M bool :=
  par <- gets param ;;
  when (has_flag (BKZParam.flags par) BKZ_DUMP_GSO)
       (dumpGSO (BKZParam.dumpGSOFilename par) DumpInput false) ;;
  if BKZParam.blockSize par <? 2 then setStatus RED_SUCCESS
  else
    autoAbort <- bkz_prelude ;;
    r <- bkz_for fuel 0 0 autoAbort ;;
    match r with
    | None => ret false
    | Some finalStatus => bkz_epilogue finalStatus
    end.

(** *** The constructor (bkz.cpp 36-43) *)

(** Line 41: drop the trailing zero rows. *)
Fixpoint scan_numRows (n : nat) (w : W) (numRows : Z) : Z :=
  match n with
  | O => numRows
  | S n' =>
    if (0 <? numRows) && m_b_is_zero w (numRows -i 1)
    then scan_numRows n' w (Int32.decr numRows)
    else numRows
  end.

(** The temporaries [maxDist], [deltaMaxDist] and [cputimeStart] are
    assigned before they are read; they start at zero here. *)
Definition BKZReduction (w : W) (par : BKZParam.t) : State :=
  {| status := RED_SUCCESS;
     param := par;
     numRows := scan_numRows (Z.to_nat (m_d w)) w (m_d w);
     delta := FT_of_d (BKZParam.delta par);
     maxDist := FT_of_d 0;
     deltaMaxDist := FT_of_d 0;
     cputimeStart := 0;
     solCoord := [];
     world := w;
     trace := [] |}.

End Driver.

(** ** An instance to run the driver on

    [FT = double], and collaborators that follow a script: each call to the
    LLL object, the enumerator or the clock consumes the next scripted
    answer. The Gram-Schmidt object keeps the row count and the diagonal
    [r_{i,i}] as (mantissa, exponent) pairs. *)

Module Scripted.

(** A logarithm for doubles: [log (m * 2^e) = e * ln 2 + 2 * atanh ((m-1)/(m+1))]
    with [m] in [1/2, 1), the series cut after twenty terms. *)
Fixpoint atanh_series (n : nat) (k : Z) (t2 : float) : float :=
  match n with
  | O => 0%float
  | S n' => (1 / Z2d k + t2 * atanh_series n' (k + 2) t2)%float
  end.

Definition d_log (x : float) : float :=
  if PrimFloat.ltb x 0 then nan
  else if PrimFloat.eqb x 0 then neg_infinity
  else if PrimFloat.eqb x infinity then infinity
  else
    let (m, e) := PrimFloat.frshiftexp x in
    let t := ((m - 1) / (m + 1))%float in
    (Z2d (Uint63.to_Z e - FloatOps.shift) * d_ln2
     + 2 * t * atanh_series 20 1 (t * t))%float.

#[export] Instance FloatLike_double : FloatLike float := {
  FT_of_d x := x;
  get_d x := x;
  is_zero x := PrimFloat.eqb x 0;
  FT_mul := PrimFloat.mul;
  FT_ge x y := PrimFloat.leb y x;
  FT_log := d_log
}.

(** One scripted answer of the LLL object: the returned flag, and the
    [nSwaps] and [status] it leaves behind. *)
Record LLLAnswer : Type := Answer {
  ans_ok : bool;
  ans_nSwaps : Z;
  ans_status : Z
}.

Record World : Type := mkWorld {
  w_d : Z;                                  (* m.d *)
  w_zero : list bool;                       (* m.b[i].is_zero() *)
  w_r : list (float * Z);                   (* r_{i,i} *)
  w_lll : list LLLAnswer;                   (* answers to lll / sizeReduction *)
  w_status : Z;                             (* lllObj.status *)
  w_nSwaps : Z;                             (* lllObj.nSwaps *)
  w_enum : list (option float * list float);  (* answers to enumerate *)
  w_clock : list Z                          (* answers to cputime, in ms *)
}.

Definition with_d (d : Z) (w : World) : World :=
  mkWorld d (w_zero w) (w_r w) (w_lll w) (w_status w) (w_nSwaps w) (w_enum w) (w_clock w).

(** The status a scripted answer leaves: a failed call leaves a failure
    code, the scripted one unless that is [RED_SUCCESS]. *)
Definition answer_status (a : LLLAnswer) : Z :=
  if ans_ok a then ans_status a
  else if ans_status a =? RED_SUCCESS then RED_LLL_FAILURE else ans_status a.

Definition run_lll (w : World) : bool * World :=
  match w_lll w with
  | [] => (true, mkWorld (w_d w) (w_zero w) (w_r w) [] (w_status w) 0 (w_enum w) (w_clock w))
  | a :: rest =>
    (ans_ok a,
     mkWorld (w_d w) (w_zero w) (w_r w) rest (answer_status a) (ans_nSwaps a)
             (w_enum w) (w_clock w))
  end.

(** No scripted answer left: no solution, the bound is left as it was. *)
Definition run_enumerate (maxDist : float) (w : World) : (float * list float) * World :=
  match w_enum w with
  | [] => ((maxDist, []), w)
  | (nd, sol) :: rest =>
    ((match nd with Some x => x | None => maxDist end, sol),
     mkWorld (w_d w) (w_zero w) (w_r w) (w_lll w) (w_status w) (w_nSwaps w)
             rest (w_clock w))
  end.

Definition run_cputime (w : World) : Z * World :=
  match w_clock w with
  | [] => (0, w)
  | t :: rest =>
    (t, mkWorld (w_d w) (w_zero w) (w_r w) (w_lll w) (w_status w) (w_nSwaps w)
                (w_enum w) rest)
  end.

#[export] Instance Collaborators_scripted : Collaborators World float := {
  m_d := w_d;
  m_b_is_zero w i := nth (Z.to_nat i) (w_zero w) false;
  getRExp i _ w := nth (Z.to_nat i) (w_r w) (1%float, 0);
  updateGSORow _ w := w;
  discoverAllRows w := w;
  createRow w := with_d (w_d w + 1) w;
  removeLastRow w := with_d (w_d w - 1) w;
  moveRow _ _ w := w;
  rowOpBegin _ _ w := w;
  rowOpEnd _ _ w := w;
  row_addmul _ _ _ w := w;
  lll _ _ _ := run_lll;
  sizeReduction _ _ := run_lll;
  lll_status := w_status;
  lll_nSwaps := w_nSwaps;
  enumerate maxDist _ _ _ _ := run_enumerate maxDist;
  cputime := run_cputime
}.

(** A quiet world of [d] rows with [r_{i,i} = 1]. *)
Definition quiet (d : Z) : World :=
  mkWorld d [] [] [] 0 0 [] [].

Definition default_param (blockSize flags : Z) : BKZParam.t :=
  BKZParam.Build blockSize 0x1.fae147ae147aep-1%float flags 0 0%float 1%float 5 [] None
    EmptyString.

End Scripted.

(** ** Facts about the driver *)

Unset Implicit Arguments.

Section DriverFacts.

Context {W FT : Type} {FL : FloatLike FT} {CO : Collaborators W FT}.
Variable DEBUG : bool.

Local Abbreviation M := (@M W FT).
Local Abbreviation State := (@State W FT).

(** *** The monad *)

Lemma bind_ok {A B} {c : M A} (k : A -> M B) {s a s'} :
  c s = Ok (a, s') -> bind c k s = k a s'.
Proof. unfold bind. intros ->. reflexivity. Qed.

Lemma bind_stuck {A B} {c : M A} (k : A -> M B) {s why} :
  c s = Stuck why -> bind c k s = Stuck why.
Proof. unfold bind. intros ->. reflexivity. Qed.

Lemma bind_gets {A B} (f : State -> A) (k : A -> M B) s :
  bind (gets f) k s = k (f s) s.
Proof. reflexivity. Qed.

Lemma bind_assoc {A B C} (c : M A) (k : A -> M B) (h : B -> M C) s :
  bind (bind c k) h s = bind c (fun a => bind (k a) h) s.
Proof. unfold bind. destruct (c s) as [[a s1]|]; reflexivity. Qed.

(** Partial correctness: whenever the run returns, [Q] holds of the value
    and the final state. *)
Definition wlp {A} (c : M A) (s : State) (Q : A -> State -> Prop) : Prop :=
  match c s with
  | Ok (a, s') => Q a s'
  | Stuck _ => True
  end.

Lemma wlp_ret {A} (a : A) s (Q : A -> State -> Prop) : Q a s -> wlp (ret a) s Q.
Proof. auto. Qed.

Lemma wlp_bind {A B} (c : M A) (k : A -> M B) s (Q : B -> State -> Prop) :
  wlp c s (fun a s' => wlp (k a) s' Q) -> wlp (bind c k) s Q.
Proof. unfold wlp, bind. destruct (c s) as [[a s1]|]; auto. Qed.

Lemma wlp_weaken {A} (c : M A) s (P Q : A -> State -> Prop) :
  wlp c s P -> (forall a s', P a s' -> Q a s') -> wlp c s Q.
Proof. unfold wlp. destruct (c s) as [[a s1]|]; auto. Qed.

Lemma wlp_elim {A} (c : M A) s (Q : A -> State -> Prop) a s' :
  wlp c s Q -> c s = Ok (a, s') -> Q a s'.
Proof. unfold wlp. intros H E. rewrite E in H. exact H. Qed.

(** *** Counted loops *)

Lemma for_n_total {A} (I : A -> Prop) (body : Z -> A -> M A) n :
  forall i a s,
    I a ->
    (forall j a s, i <= j < i + Z.of_nat n -> I a ->
                   exists a' s', body j a s = Ok (a', s') /\ I a') ->
    exists a' s', for_n n i body a s = Ok (a', s') /\ I a'.
Proof.
  induction n as [|n IH]; intros i a s Ha Hbody.
  - exists a, s. split; [reflexivity | assumption].
  - destruct (Hbody i a s ltac:(lia) Ha) as (a1 & s1 & E1 & H1).
    cbn [for_n]. rewrite (bind_ok _ E1).
    apply IH; [assumption|].
    intros j a2 s2 Hj. apply Hbody. lia.
Qed.

Lemma length_list_set {A} (x : list A) n v : List.length (list_set x n v) = List.length x.
Proof.
  revert n. induction x as [|h t IH]; intros [|n]; cbn; auto.
Qed.

Lemma vec_get_ok {A} (x : list A) i (s : State) :
  0 <= i < Z.of_nat (List.length x) -> exists v, vec_get x i s = Ok (v, s).
Proof.
  intros H. unfold vec_get.
  destruct (Z.ltb_spec i 0); [lia|].
  destruct (nth_error x (Z.to_nat i)) as [v|] eqn:E.
  - exists v. reflexivity.
  - apply nth_error_None in E. lia.
Qed.

(** *** getCurrentSlope returns on a range of valid row indices *)

Lemma getCurrentSlope_ok startRow stopRow (s : State) :
  0 <= startRow -> 0 <= stopRow ->
  exists v s', getCurrentSlope startRow stopRow s = Ok (v, s').
Proof.
  intros Hlo Hhi. unfold getCurrentSlope.
  destruct (Z.ltb_spec stopRow 0); [lia|].
  set (body1 := fun (i : Z) (x : list float) => _).
  destruct (@for_n_total _ (fun x => List.length x = Z.to_nat stopRow) body1
              (Z.to_nat (stopRow - startRow)) startRow
              (repeat 0%float (Z.to_nat stopRow)) s)
    as (x & s1 & E1 & Hx).
  { apply repeat_length. }
  { intros j a s0 Hj Ha. unfold body1, bind, call_w, gets.
    destruct (getRExp j j _) as [f expo]. unfold vec_set.
    destruct (Z.ltb_spec j 0); [lia|].
    destruct (Z.leb_spec (Z.of_nat (List.length a)) j); [lia|].
    cbn. eexists _, _. split; [reflexivity|].
    rewrite length_list_set. assumption. }
  unfold for_range at 1. rewrite (bind_ok _ E1).
  set (body2 := fun (i : Z) (xMean : float) => _).
  destruct (@for_n_total _ (fun _ => True) body2
              (Z.to_nat (stopRow - startRow)) startRow 0%float s1 I)
    as (xm & s2 & E2 & _).
  { intros j a s0 Hj _. unfold body2.
    destruct (@vec_get_ok _ x j s0 ltac:(lia)) as (v & Ev).
    rewrite (bind_ok _ Ev). eexists _, _. split; [reflexivity | exact I]. }
  unfold for_range at 1. rewrite (bind_ok _ E2).
  set (body3 := fun (i : Z) (v : float * float) => _).
  destruct (@for_n_total _ (fun _ => True) body3
              (Z.to_nat (stopRow - startRow)) startRow (0%float, 0%float) s2 I)
    as ([v1 v2] & s3 & E3 & _).
  { intros j a s0 Hj _. unfold body3.
    destruct (@vec_get_ok _ x j s0 ltac:(lia)) as (v & Ev).
    rewrite (bind_ok _ Ev). eexists _, _. split; [reflexivity | exact I]. }
  unfold for_range. rewrite (bind_ok _ E3).
  eexists _, _. reflexivity.
Qed.

(** *** Frames: what a computation leaves alone

    [respects R c]: whenever [c] returns, the final state is related to the
    initial one by the preorder [R]. *)

Class Preorder (R : State -> State -> Prop) : Prop := {
  pre_refl : forall s, R s s;
  pre_trans : forall s1 s2 s3, R s1 s2 -> R s2 s3 -> R s1 s3
}.

Definition respects (R : State -> State -> Prop) {A} (c : M A) : Prop :=
  forall s, wlp c s (fun _ s' => R s s').

Section Respects.

Variable R : State -> State -> Prop.
Context {HR : Preorder R}.

Lemma respects_ret {A} (a : A) : respects R (ret a).
Proof. intros s. apply wlp_ret. apply pre_refl. Qed.

Lemma respects_stuck {A} why : respects R (@stuck W FT A why).
Proof. intros s. exact I. Qed.

Lemma respects_gets {A} (f : State -> A) : respects R (gets f).
Proof. intros s. unfold wlp, gets. apply pre_refl. Qed.

Lemma respects_bind {A B} (c : M A) (k : A -> M B) :
  respects R c -> (forall a, respects R (k a)) -> respects R (bind c k).
Proof.
  intros Hc Hk s. apply wlp_bind.
  eapply wlp_weaken; [apply Hc|]. intros a s1 H1. cbn beta.
  eapply wlp_weaken; [apply Hk|]. intros b s2 H2. cbn beta in *.
  exact (pre_trans _ _ _ H1 H2).
Qed.

Lemma respects_when b (c : M unit) : respects R c -> respects R (when b c).
Proof. intros H. destruct b; [exact H | apply respects_ret]. Qed.

Lemma respects_for_n {A} (body : Z -> A -> M A) :
  (forall i a, respects R (body i a)) ->
  forall n i a, respects R (for_n n i body a).
Proof.
  intros Hbody n. induction n as [|n IH]; intros i a; cbn [for_n].
  - apply respects_ret.
  - apply respects_bind; [apply Hbody | intros a'; apply IH].
Qed.

Lemma respects_for_range {A} lo hi (body : Z -> A -> M A) a :
  (forall i a, respects R (body i a)) -> respects R (for_range lo hi body a).
Proof. intros H. apply respects_for_n. exact H. Qed.

Lemma respects_vec_get {A} (x : list A) i : respects R (vec_get x i).
Proof.
  unfold vec_get. destruct (i <? 0); [apply respects_stuck|].
  destruct (nth_error x (Z.to_nat i)); [apply respects_ret | apply respects_stuck].
Qed.

Lemma respects_vec_set {A} (x : list A) i v : respects R (vec_set x i v).
Proof.
  unfold vec_set. destruct (_ || _); [apply respects_stuck | apply respects_ret].
Qed.

Lemma respects_debug_check b : respects R (FPLLL_DEBUG_CHECK DEBUG b).
Proof.
  unfold FPLLL_DEBUG_CHECK. destruct DEBUG; [|apply respects_ret].
  destruct b; [apply respects_ret | apply respects_stuck].
Qed.

Lemma respects_call_w c f :
  (forall s, R s (step_world c (f (world s)) s)) -> respects R (call_w c f).
Proof. intros H s. unfold wlp, call_w. apply H. Qed.

Lemma respects_call_r {A} c (f : W -> A * W) :
  (forall s, R s (step_world c (snd (f (world s))) s)) -> respects R (call_r c f).
Proof.
  intros H s. unfold wlp, call_r. specialize (H s).
  destruct (f (world s)). exact H.
Qed.

Lemma respects_emit c :
  (forall s, R s (step_world c (world s) s)) -> respects R (emit c).
Proof. intros H s. unfold wlp, emit. apply H. Qed.

Lemma respects_modify f : (forall s, R s (f s)) -> respects R (modify f).
Proof. intros H s. unfold wlp, modify. apply H. Qed.

End Respects.

(** Takes a computation apart along its binds and branches; the steps that
    touch the state are left to [side]. *)
Create HintDb frames.

Ltac respects_with side :=
  repeat first
    [ solve [ auto 1 with frames nocore ]
    | solve [ apply respects_ret; exact _ ]
    | solve [ apply respects_stuck; exact _ ]
    | solve [ apply respects_gets; exact _ ]
    | solve [ apply respects_vec_get; exact _ ]
    | solve [ apply respects_vec_set; exact _ ]
    | solve [ apply respects_debug_check; exact _ ]
    | apply respects_bind; try exact _; [ | intros ? ]
    | apply respects_when; try exact _
    | apply respects_for_range; try exact _; intros ? ?
    | apply respects_call_w; intros ?; side
    | apply respects_call_r; intros ?; side
    | apply respects_emit; intros ?; side
    | apply respects_modify; intros ?; side
    | match goal with
      | |- respects _ (if ?b then _ else _) => destruct b
      | |- respects _ (match ?x with _ => _ end) => destruct x
      end ].

(** The three frames used below. *)
Definition same_status (s s' : State) : Prop := status s' = status s.
Definition trace_extends (s s' : State) : Prop := exists l, trace s' = trace s ++ l.
Definition same_rows (s s' : State) : Prop := m_d (world s') = m_d (world s).

#[local] Instance same_status_pre : Preorder same_status.
Proof. split; unfold same_status; intros; congruence. Qed.

#[local] Instance trace_extends_pre : Preorder trace_extends.
Proof.
  split; unfold trace_extends.
  - intros s. exists []. symmetry. apply app_nil_r.
  - intros s1 s2 s3 [l1 H1] [l2 H2]. exists (l1 ++ l2).
    rewrite H2, H1. symmetry. apply app_assoc.
Qed.

#[local] Instance same_rows_pre : Preorder same_rows.
Proof. split; unfold same_rows; intros; congruence. Qed.

Ltac side_status := reflexivity.
Ltac side_trace := first [ eexists; reflexivity | exists []; symmetry; apply app_nil_r ].

Lemma getCurrentSlope_same_status a b : respects same_status (getCurrentSlope a b).
Proof. unfold getCurrentSlope. respects_with side_status. Qed.

Lemma getCurrentSlope_trace a b : respects trace_extends (getCurrentSlope a b).
Proof. unfold getCurrentSlope. respects_with side_trace. Qed.

#[local] Hint Resolve getCurrentSlope_same_status getCurrentSlope_trace : frames.

Lemma testAbort_same_status sc mx a : respects same_status (testAbort sc mx a).
Proof.
  unfold testAbort. apply respects_bind; try exact _.
  - apply getCurrentSlope_same_status.
  - intros. apply respects_ret. exact _.
Qed.

Lemma testAbort_trace sc mx a : respects trace_extends (testAbort sc mx a).
Proof.
  unfold testAbort. apply respects_bind; try exact _.
  - apply getCurrentSlope_trace.
  - intros. apply respects_ret. exact _.
Qed.

Lemma dumpGSO_same_status f p a : respects same_status (dumpGSO f p a).
Proof. unfold dumpGSO. respects_with side_status. Qed.

Lemma dumpGSO_trace f p a : respects trace_extends (dumpGSO f p a).
Proof. unfold dumpGSO. respects_with side_trace. Qed.

Lemma setStatus_trace st : respects trace_extends (setStatus st).
Proof. unfold setStatus. respects_with side_trace. Qed.

#[local] Hint Resolve testAbort_same_status testAbort_trace dumpGSO_same_status
  dumpGSO_trace setStatus_trace : frames.

(** *** testAbort *)

(** testAbort is [getCurrentSlope] followed by a pure update. *)
Lemma testAbort_unfold scale maxNoDec (a : BKZAutoAbort.t) (s : State) slope s1 :
  getCurrentSlope (BKZAutoAbort.startRow a) (BKZAutoAbort.numRows a) s = Ok (slope, s1) ->
  testAbort scale maxNoDec a s =
  Ok ((maxNoDec <=?
         (if (BKZAutoAbort.noDec a =? -1)
             || PrimFloat.ltb (- slope) (scale * BKZAutoAbort.oldSlope a)
          then 0 else Int32.incr (BKZAutoAbort.noDec a)),
       BKZAutoAbort.Build
         (d_min (BKZAutoAbort.oldSlope a) (- slope))
         (if (BKZAutoAbort.noDec a =? -1)
             || PrimFloat.ltb (- slope) (scale * BKZAutoAbort.oldSlope a)
          then 0 else Int32.incr (BKZAutoAbort.noDec a))
         (BKZAutoAbort.numRows a) (BKZAutoAbort.startRow a)), s1).
Proof. intros E. unfold testAbort. rewrite (bind_ok _ E). reflexivity. Qed.

(** C5. A call to testAbort with newSlope = -slope(M, startRow, numRows):
    noDec is reset to 0 when it is the sentinel -1 or newSlope is below
    scale * oldSlope, and incremented by one otherwise (the counter being
    below INT_MAX); oldSlope becomes min(oldSlope, newSlope), that is
    newSlope when newSlope < oldSlope and oldSlope otherwise; the call
    returns true exactly when the updated noDec is at least maxNoDec. *)
Theorem testAbort_behaviour scale maxNoDec (a : BKZAutoAbort.t) (s : State) slope s1 :
  Int32.min_signed <= BKZAutoAbort.noDec a < Int32.max_signed ->
  getCurrentSlope (BKZAutoAbort.startRow a) (BKZAutoAbort.numRows a) s = Ok (slope, s1) ->
  exists b a',
    testAbort scale maxNoDec a s = Ok ((b, a'), s1)
    /\ (BKZAutoAbort.noDec a = -1
        \/ PrimFloat.ltb (- slope) (scale * BKZAutoAbort.oldSlope a) = true ->
        BKZAutoAbort.noDec a' = 0)
    /\ (BKZAutoAbort.noDec a <> -1
        /\ PrimFloat.ltb (- slope) (scale * BKZAutoAbort.oldSlope a) = false ->
        BKZAutoAbort.noDec a' = BKZAutoAbort.noDec a + 1)
    /\ (PrimFloat.ltb (- slope) (BKZAutoAbort.oldSlope a) = true ->
        BKZAutoAbort.oldSlope a' = (- slope)%float)
    /\ (PrimFloat.ltb (- slope) (BKZAutoAbort.oldSlope a) = false ->
        BKZAutoAbort.oldSlope a' = BKZAutoAbort.oldSlope a)
    /\ (b = true <-> maxNoDec <= BKZAutoAbort.noDec a')
    /\ BKZAutoAbort.numRows a' = BKZAutoAbort.numRows a
    /\ BKZAutoAbort.startRow a' = BKZAutoAbort.startRow a.
Proof.
  intros Hrange E. eexists _, _. split; [apply (testAbort_unfold _ _ _ _ _ _ E)|].
  cbn [BKZAutoAbort.noDec BKZAutoAbort.oldSlope BKZAutoAbort.numRows BKZAutoAbort.startRow].
  repeat split.
  - intros [H|H].
    + rewrite H. reflexivity.
    + rewrite H, orb_true_r. reflexivity.
  - intros [Hn Hlt]. rewrite Hlt, orb_false_r.
    destruct (Z.eqb_spec (BKZAutoAbort.noDec a) (-1)); [contradiction|].
    apply Int32.incr_exact. assumption.
  - intros H. unfold d_min. rewrite H. reflexivity.
  - intros H. unfold d_min. rewrite H. reflexivity.
  - intros H. apply Z.leb_le. exact H.
  - intros H. apply Z.leb_le. exact H.
Qed.

(** C2, amended. On a BKZAutoAbort that has never been evaluated (noDec
    is the sentinel -1, as in a fresh object), for every scale: the first
    call to testAbort resets noDec to 0 and returns whether
    0 >= maxNoDec. For every maxNoDec >= 1 it does not return true, and
    on a range of valid rows it returns false; for every maxNoDec <= 0,
    and so for maxNoDec = 0, it does not return false, and on a range of
    valid rows it returns true. *)
Theorem testAbort_first_call scale maxNoDec (a : BKZAutoAbort.t) (s : State) :
  BKZAutoAbort.noDec a = -1 ->
  (1 <= maxNoDec ->
   (forall b a' s', testAbort scale maxNoDec a s = Ok ((b, a'), s') -> b = false)
   /\ (0 <= BKZAutoAbort.startRow a -> 0 <= BKZAutoAbort.numRows a ->
       exists a' s',
         testAbort scale maxNoDec a s = Ok ((false, a'), s')
         /\ BKZAutoAbort.noDec a' = 0))
  /\ (maxNoDec <= 0 ->
      (forall b a' s', testAbort scale maxNoDec a s = Ok ((b, a'), s') -> b = true)
      /\ (0 <= BKZAutoAbort.startRow a -> 0 <= BKZAutoAbort.numRows a ->
          exists a' s',
            testAbort scale maxNoDec a s = Ok ((true, a'), s')
            /\ BKZAutoAbort.noDec a' = 0)).
Proof.
  intros Hfresh.
  assert (Hrun : forall slope s1,
             getCurrentSlope (BKZAutoAbort.startRow a) (BKZAutoAbort.numRows a) s
             = Ok (slope, s1) ->
             exists a', testAbort scale maxNoDec a s = Ok ((maxNoDec <=? 0, a'), s1)
                        /\ BKZAutoAbort.noDec a' = 0).
  { intros slope s1 E.
    rewrite (testAbort_unfold scale maxNoDec a s slope s1 E), Hfresh.
    cbn [orb Z.eqb Pos.eqb]. eexists. split; reflexivity. }
  assert (Hall : forall b a' s',
             testAbort scale maxNoDec a s = Ok ((b, a'), s') -> b = (maxNoDec <=? 0)).
  { intros b a' s' E.
    destruct (getCurrentSlope (BKZAutoAbort.startRow a) (BKZAutoAbort.numRows a) s)
      as [[slope s1]|why] eqn:Eg.
    - destruct (Hrun slope s1 eq_refl) as (a1 & E1 & _). congruence.
    - unfold testAbort in E. rewrite (bind_stuck _ Eg) in E. discriminate. }
  assert (Hsome : 0 <= BKZAutoAbort.startRow a -> 0 <= BKZAutoAbort.numRows a ->
                  exists a' s',
                    testAbort scale maxNoDec a s = Ok ((maxNoDec <=? 0, a'), s')
                    /\ BKZAutoAbort.noDec a' = 0).
  { intros Hlo Hhi.
    destruct (getCurrentSlope_ok _ _ s Hlo Hhi) as (slope & s1 & E).
    destruct (Hrun slope s1 E) as (a' & E1 & H0).
    exists a', s1. auto. }
  split; intros Hmax.
  - assert (Hb : (maxNoDec <=? 0) = false) by (apply Z.leb_gt; lia).
    rewrite Hb in Hall, Hsome. split; assumption.
  - assert (Hb : (maxNoDec <=? 0) = true) by (apply Z.leb_le; lia).
    rewrite Hb in Hall, Hsome. split; assumption.
Qed.

(** *** setStatus *)

(** The state setStatus leaves behind, when it returns. *)
Definition setStatus_state (st : Z) (s : State) : State :=
  if has_flag (BKZParam.flags (param s)) BKZ_VERBOSE
  then step_world (C_cerr (if st =? RED_SUCCESS then MsgEndSuccess
                           else MsgEndFailure (nth (Z.to_nat st) RED_STATUS_STR
                                                   EmptyString)))
                  (world s) (set_status st s)
  else set_status st s.

(** setStatus reads [RED_STATUS_STR[status]] for the failure line of
    BKZ_VERBOSE: it returns when nothing is printed or the status is an
    index of the table. *)
Definition status_printable (st : Z) (s : State) : Prop :=
  has_flag (BKZParam.flags (param s)) BKZ_VERBOSE = false
  \/ 0 <= st < RED_STATUS_MAX.

Lemma RED_STATUS_STR_get st (s : State) :
  0 <= st < RED_STATUS_MAX ->
  vec_get RED_STATUS_STR st s = Ok (nth (Z.to_nat st) RED_STATUS_STR EmptyString, s).
Proof.
  intros H. unfold vec_get. destruct (Z.ltb_spec st 0); [lia|].
  destruct (nth_error RED_STATUS_STR (Z.to_nat st)) as [v|] eqn:E.
  - rewrite (nth_error_nth _ _ _ E). reflexivity.
  - apply nth_error_None in E. cbn in E, H. lia.
Qed.

Lemma RED_STATUS_STR_miss st (s : State) :
  ~ 0 <= st < RED_STATUS_MAX ->
  vec_get RED_STATUS_STR st s = @Stuck (string * State) OutOfBounds.
Proof.
  intros H. unfold vec_get. destruct (Z.ltb_spec st 0); [reflexivity|].
  destruct (nth_error RED_STATUS_STR (Z.to_nat st)) as [v|] eqn:E; [|reflexivity].
  exfalso. apply H. assert (Hn : nth_error RED_STATUS_STR (Z.to_nat st) <> None)
    by congruence.
  apply nth_error_Some in Hn. cbn in Hn |- *. lia.
Qed.

Lemma setStatus_eq st (s : State) :
  status_printable st s ->
  setStatus st s = Ok (st =? RED_SUCCESS, setStatus_state st s).
Proof.
  intros H. unfold status_printable in H.
  unfold setStatus, setStatus_state, bind, modify, gets, when.
  cbn [param set_status status].
  destruct (has_flag _ _) eqn:Ev; [|reflexivity].
  destruct (Z.eqb_spec st RED_SUCCESS) as [E|E]; [reflexivity|].
  destruct H as [H|H]; [discriminate|].
  rewrite (RED_STATUS_STR_get st _ H). reflexivity.
Qed.

(** Under BKZ_VERBOSE a status that is no index of the table is read out
    of range. *)
Lemma setStatus_out_of_table st (s : State) :
  has_flag (BKZParam.flags (param s)) BKZ_VERBOSE = true ->
  ~ 0 <= st < RED_STATUS_MAX ->
  setStatus st s = Stuck OutOfBounds.
Proof.
  intros Hv H. unfold setStatus, bind, modify, gets, when.
  cbn [param set_status status]. rewrite Hv.
  destruct (Z.eqb_spec st RED_SUCCESS) as [E|E]; [exfalso; apply H; rewrite E; cbn; lia|].
  rewrite (RED_STATUS_STR_miss st _ H). reflexivity.
Qed.

Lemma setStatus_cases st (s : State) :
  setStatus st s = Ok (st =? RED_SUCCESS, setStatus_state st s)
  \/ (setStatus st s = Stuck OutOfBounds
      /\ has_flag (BKZParam.flags (param s)) BKZ_VERBOSE = true
      /\ ~ 0 <= st < RED_STATUS_MAX).
Proof.
  destruct (has_flag (BKZParam.flags (param s)) BKZ_VERBOSE) eqn:Ev.
  - destruct (Z_le_dec 0 st) as [H0|H0]; [destruct (Z_lt_dec st RED_STATUS_MAX) as [H1|H1]|].
    + left. apply setStatus_eq. right. lia.
    + right. split; [apply setStatus_out_of_table; [exact Ev | lia]|]. split; [reflexivity | lia].
    + right. split; [apply setStatus_out_of_table; [exact Ev | lia]|]. split; [reflexivity | lia].
  - left. apply setStatus_eq. left. exact Ev.
Qed.

Lemma printable_table st (s : State) : 0 <= st < RED_STATUS_MAX -> status_printable st s.
Proof. intros H. right. exact H. Qed.

Lemma success_in_table : 0 <= RED_SUCCESS < RED_STATUS_MAX.
Proof. cbn. lia. Qed.

Lemma setStatus_success (s : State) :
  setStatus RED_SUCCESS s = Ok (true, setStatus_state RED_SUCCESS s).
Proof. apply (setStatus_eq RED_SUCCESS). right. cbn. lia. Qed.

Lemma status_setStatus_state st (s : State) : status (setStatus_state st s) = st.
Proof. unfold setStatus_state. destruct (has_flag _ _); reflexivity. Qed.

Lemma world_setStatus_state st (s : State) : world (setStatus_state st s) = world s.
Proof. unfold setStatus_state. destruct (has_flag _ _); reflexivity. Qed.

Lemma trace_setStatus_state st (s : State) :
  exists out,
    trace (setStatus_state st s) = trace s ++ out
    /\ (forall x, In x out -> exists m, x = C_cerr m).
Proof.
  unfold setStatus_state. destruct (has_flag _ _).
  - eexists (cons (C_cerr _) nil).
    split; [reflexivity|].
    intros x [<-|[]]. eexists. reflexivity.
  - exists []. split; [symmetry; apply app_nil_r | intros x []].
Qed.

(** *** The returned flag and the status (towards C10) *)

(** The flag a driver operation returns says whether [status] is
    [RED_SUCCESS]. *)
Definition flag_is_status (b : bool) (s : State) : Prop :=
  b = (status s =? RED_SUCCESS).

Lemma flag_is_status_true (s : State) : status s = RED_SUCCESS -> flag_is_status true s.
Proof. unfold flag_is_status. intros ->. reflexivity. Qed.

Lemma flag_is_status_true_inv (s : State) : flag_is_status true s -> status s = RED_SUCCESS.
Proof. unfold flag_is_status. intros H. symmetry in H. apply Z.eqb_eq in H. exact H. Qed.

Lemma wlp_setStatus st (s : State) (Q : bool -> State -> Prop) :
  Q (st =? RED_SUCCESS) (setStatus_state st s) -> wlp (setStatus st) s Q.
Proof.
  intros H. unfold wlp.
  destruct (setStatus_cases st s) as [E|[E _]]; rewrite E; [exact H | exact I].
Qed.

Lemma setStatus_flag st (s : State) : wlp (setStatus st) s flag_is_status.
Proof.
  apply wlp_setStatus. unfold flag_is_status.
  rewrite status_setStatus_state. reflexivity.
Qed.

(** A step that leaves the status alone, followed by a continuation. *)
Lemma wlp_bind_status {A B} (c : M A) (k : A -> M B) (s : State) Q :
  respects same_status c ->
  (forall a s', status s' = status s -> wlp (k a) s' Q) ->
  wlp (bind c k) s Q.
Proof.
  intros Hc Hk. apply wlp_bind. eapply wlp_weaken; [apply Hc|].
  intros a s' H. apply Hk. exact H.
Qed.

Lemma classify_same_status bs : respects same_status (classify bs).
Proof. unfold classify. respects_with side_status. Qed.

Lemma svp_enumerate_same_status kappa bs par :
  respects same_status (svp_enumerate kappa bs par).
Proof. unfold svp_enumerate. respects_with side_status. Qed.

Lemma bkzLoop_report_same_status loop par minRow maxRow :
  respects same_status (bkzLoop_report loop par minRow maxRow).
Proof.
  unfold bkzLoop_report. respects_with side_status.
Qed.

#[local] Hint Resolve classify_same_status svp_enumerate_same_status
  bkzLoop_report_same_status : frames.

Lemma svp_lll_status kappa bs par clean (s : State) :
  wlp (svp_lll kappa bs par clean) s
      (fun r s' => match r with
                   | inl b => flag_is_status b s'
                   | inr _ => status s' = status s
                   end).
Proof.
  unfold svp_lll. apply wlp_bind_status.
  { respects_with side_status. }
  intros [|] s1 H1; cbn [negb].
  - apply wlp_bind_status; [respects_with side_status|].
    intros nSwaps s2 H2. apply wlp_ret. congruence.
  - apply wlp_bind_status; [respects_with side_status|].
    intros st s2 H2. apply wlp_bind.
    eapply wlp_weaken; [apply setStatus_flag|].
    intros b s3 H3. apply wlp_ret. exact H3.
Qed.

Lemma svp_insert_row_status kappa iVector clean (s : State) :
  status s = RED_SUCCESS ->
  wlp (svp_insert_row DEBUG kappa iVector clean) s (fun r s' => flag_is_status (fst r) s').
Proof.
  intros H0. unfold svp_insert_row.
  apply wlp_bind_status; [respects_with side_status|]. intros _ s1 H1.
  apply wlp_bind_status; [respects_with side_status|]. intros _ s2 H2.
  apply wlp_bind_status; [respects_with side_status|]. intros [|] s3 H3; cbn [negb].
  - apply wlp_ret. apply flag_is_status_true. congruence.
  - apply wlp_bind_status; [respects_with side_status|]. intros st s4 H4.
    apply wlp_bind. eapply wlp_weaken; [apply setStatus_flag|].
    intros b s5 H5. apply wlp_ret. exact H5.
Qed.

Lemma svp_insert_general_status kappa bs clean (s : State) :
  status s = RED_SUCCESS ->
  wlp (svp_insert_general DEBUG kappa bs clean) s (fun r s' => flag_is_status (fst r) s').
Proof.
  intros H0. unfold svp_insert_general.
  do 6 (apply wlp_bind_status; [respects_with side_status|]; intros ? ? ?).
  apply wlp_bind_status; [respects_with side_status|]. intros [|] s7 H7; cbn [negb].
  - do 4 (apply wlp_bind_status; [respects_with side_status|]; intros ? ? ?).
    apply wlp_ret. apply flag_is_status_true. congruence.
  - apply wlp_bind_status; [respects_with side_status|]. intros st s8 H8.
    apply wlp_bind. eapply wlp_weaken; [apply setStatus_flag|].
    intros b s9 H9. apply wlp_ret. exact H9.
Qed.

Lemma svp_insert_status kappa bs clean (s : State) :
  status s = RED_SUCCESS ->
  wlp (svp_insert DEBUG kappa bs clean) s (fun r s' => flag_is_status (fst r) s').
Proof.
  intros H0. unfold svp_insert.
  apply wlp_bind_status; [respects_with side_status|]. intros [|x sc] s1 H1.
  - apply wlp_bind. eapply wlp_weaken; [apply setStatus_flag|].
    intros b s2 H2. apply wlp_ret. exact H2.
  - apply wlp_bind_status; [apply classify_same_status|]. intros [nz iV] s2 H2.
    apply wlp_bind_status; [respects_with side_status|]. intros _ s3 H3.
    apply wlp_bind_status; [respects_with side_status|]. intros md s4 H4.
    apply wlp_bind_status; [respects_with side_status|]. intros dmd s5 H5.
    destruct (FT_ge md dmd).
    + apply wlp_ret. apply flag_is_status_true. congruence.
    + destruct (nz =? 1).
      * apply svp_insert_row_status. congruence.
      * apply svp_insert_general_status. congruence.
Qed.

(** A block reducer keeps the discipline: entered with status
    [RED_SUCCESS], it returns the flag that says whether the status is
    still [RED_SUCCESS]. *)
Definition block_flag (svp : block_fn) : Prop :=
  forall kappa bs par clean (s : State),
    status s = RED_SUCCESS ->
    wlp (svp kappa bs par clean) s (fun r s' => flag_is_status (fst r) s').

Definition tour_flag (tour : Z -> Z -> bool -> M (bool * Z * bool)) : Prop :=
  forall i kM clean (s : State),
    status s = RED_SUCCESS ->
    wlp (tour i kM clean) s (fun r s' => flag_is_status (fst (fst r)) s').

Lemma bkzLoop_sweep_flag svp :
  block_flag svp ->
  forall fuel kappa kM par maxRow clean (s : State),
    status s = RED_SUCCESS ->
    wlp (bkzLoop_sweep svp fuel kappa kM par maxRow clean) s
        (fun r s' => flag_is_status (fst (fst r)) s').
Proof.
  intros Hsvp fuel. induction fuel as [|fuel IH]; intros kappa kM par maxRow clean s H0.
  - exact I.
  - cbn [bkzLoop_sweep]. destruct (kappa <? maxRow -i 1).
    + apply wlp_bind. eapply wlp_weaken; [apply Hsvp; exact H0|].
      intros [ok clean'] s1 H1. cbn [fst] in H1. destruct ok; cbn [negb].
      * apply flag_is_status_true_inv in H1.
        destruct (_ && _).
        -- apply wlp_bind_status; [respects_with side_status|].
           intros _ s2 H2. apply IH. congruence.
        -- apply IH. exact H1.
      * apply wlp_ret. exact H1.
    + apply wlp_ret. apply flag_is_status_true. exact H0.
Qed.

Lemma bkzLoop_with_flag svp :
  block_flag svp ->
  forall fuel loop kM par minRow maxRow clean (s : State),
    status s = RED_SUCCESS ->
    wlp (bkzLoop_with svp fuel loop kM par minRow maxRow clean) s
        (fun r s' => flag_is_status (fst (fst r)) s').
Proof.
  intros Hsvp fuel loop kM par minRow maxRow clean s H0. unfold bkzLoop_with.
  apply wlp_bind. eapply wlp_weaken; [apply bkzLoop_sweep_flag; assumption|].
  intros [[ok kM'] clean'] s1 H1. cbn [fst] in H1. destruct ok; cbn [negb].
  - apply flag_is_status_true_inv in H1.
    apply wlp_bind_status; [respects_with side_status|].
    intros _ s2 H2. apply wlp_ret. apply flag_is_status_true. congruence.
  - apply wlp_ret. exact H1.
Qed.

Lemma svp_preproc_guards_same_status i par t0 aa :
  respects same_status (svp_preproc_guards i par t0 aa).
Proof. unfold svp_preproc_guards. respects_with side_status. Qed.

Lemma bkz_guards_same_status iLoop aa : respects same_status (bkz_guards iLoop aa).
Proof. unfold bkz_guards. respects_with side_status. Qed.

#[local] Hint Resolve svp_preproc_guards_same_status bkz_guards_same_status : frames.

Lemma svp_preproc_for_flag tour :
  tour_flag tour ->
  forall fuel i par t0 kM aa clean (s : State),
    status s = RED_SUCCESS ->
    wlp (svp_preproc_for tour fuel i par t0 kM aa clean) s
        (fun r s' => flag_is_status (fst r) s').
Proof.
  intros Htour fuel. induction fuel as [|fuel IH]; intros i par t0 kM aa clean s H0.
  - exact I.
  - cbn [svp_preproc_for].
    apply wlp_bind_status; [respects_with side_status|].
    intros [stop aa'] s1 H1. destruct stop.
    + apply wlp_ret. apply flag_is_status_true. congruence.
    + apply wlp_bind. eapply wlp_weaken; [apply Htour; congruence|].
      intros [[ok kM'] clean2] s2 H2. cbn [fst] in H2. destruct ok; cbn [negb].
      * apply flag_is_status_true_inv in H2. destruct clean2.
        -- apply wlp_ret. apply flag_is_status_true. exact H2.
        -- apply IH. exact H2.
      * apply wlp_ret. exact H2.
Qed.

Lemma svp_preproc_flag tour :
  (forall preproc, tour_flag (tour preproc)) ->
  forall fuel kappa bs par clean (s : State),
    status s = RED_SUCCESS ->
    wlp (svp_preproc tour fuel kappa bs par clean) s
        (fun r s' => flag_is_status (fst r) s').
Proof.
  intros Htour fuel kappa bs par clean s H0. unfold svp_preproc.
  destruct (BKZParam.preprocessing par) as [preproc|].
  - destruct (_ && _).
    + apply wlp_bind_status; [respects_with side_status|]. intros kM s1 H1.
      apply wlp_bind_status; [respects_with side_status|]. intros t s2 H2.
      apply svp_preproc_for_flag; [apply Htour | congruence].
    + apply wlp_ret. apply flag_is_status_true. exact H0.
  - apply wlp_ret. apply flag_is_status_true. exact H0.
Qed.

Lemma svpReduction_flag fuel : block_flag (svpReduction DEBUG fuel).
Proof.
  induction fuel as [|fuel IH]; intros kappa bs par clean s H0.
  - exact I.
  - cbn [svpReduction]. apply wlp_bind.
    eapply wlp_weaken; [apply svp_lll_status|].
    intros [b|clean1] s1 H1.
    + apply wlp_ret. exact H1.
    + apply wlp_bind. eapply wlp_weaken.
      { apply svp_preproc_flag; [|congruence].
        intros preproc i kM c2 s' Hs'. apply bkzLoop_with_flag; assumption. }
      intros [go clean2] s2 H2. cbn [fst] in H2. destruct go; cbn [negb].
      * apply flag_is_status_true_inv in H2.
        apply wlp_bind_status; [respects_with side_status|]. intros _ s3 H3.
        apply svp_insert_status. congruence.
      * apply wlp_ret. exact H2.
Qed.

Lemma bkzLoop_flag fuel loop kM par minRow maxRow clean (s : State) :
  status s = RED_SUCCESS ->
  wlp (bkzLoop DEBUG fuel loop kM par minRow maxRow clean) s
      (fun r s' => flag_is_status (fst (fst r)) s').
Proof. apply bkzLoop_with_flag. apply svpReduction_flag. Qed.

Lemma bkz_for_flag fuel :
  forall iLoop kM aa (s : State),
    status s = RED_SUCCESS ->
    wlp (bkz_for DEBUG fuel iLoop kM aa) s
        (fun r s' => match r with
                     | None => flag_is_status false s'
                     | Some _ => status s' = RED_SUCCESS
                     end).
Proof.
  induction fuel as [|fuel IH]; intros iLoop kM aa s H0.
  - exact I.
  - cbn [bkz_for].
    apply wlp_bind_status; [respects_with side_status|].
    intros [[st|] aa'] s1 H1.
    + apply wlp_ret. congruence.
    + apply wlp_bind_status; [respects_with side_status|]. intros par s2 H2.
      apply wlp_bind_status; [respects_with side_status|]. intros n s3 H3.
      apply wlp_bind. eapply wlp_weaken; [apply bkzLoop_flag; congruence|].
      intros [[ok kM'] clean] s4 H4. cbn [fst] in H4. destruct ok; cbn [negb].
      * apply flag_is_status_true_inv in H4. destruct (_ || _).
        -- apply wlp_ret. exact H4.
        -- apply IH. exact H4.
      * apply wlp_ret. exact H4.
Qed.

Lemma bkz_prelude_same_status : respects same_status bkz_prelude.
Proof. unfold bkz_prelude. respects_with side_status. Qed.

Lemma bkz_epilogue_flag st (s : State) : wlp (bkz_epilogue st) s flag_is_status.
Proof.
  unfold bkz_epilogue.
  apply wlp_bind_status; [respects_with side_status|]. intros par s1 H1.
  apply wlp_bind_status; [respects_with side_status|]. intros _ s2 H2.
  apply setStatus_flag.
Qed.

Lemma bkz_flag fuel (s : State) :
  status s = RED_SUCCESS -> wlp (bkz DEBUG fuel) s flag_is_status.
Proof.
  intros H0. unfold bkz.
  apply wlp_bind_status; [respects_with side_status|]. intros par s1 H1.
  apply wlp_bind_status; [respects_with side_status|]. intros _ s2 H2.
  destruct (BKZParam.blockSize par <? 2); [apply setStatus_flag|].
  apply wlp_bind_status; [apply bkz_prelude_same_status|]. intros aa s3 H3.
  apply wlp_bind. eapply wlp_weaken; [apply bkz_for_flag; congruence|].
  intros [st|] s4 H4.
  - apply bkz_epilogue_flag.
  - apply wlp_ret. exact H4.
Qed.

(** C10. The constructor sets status to RED_SUCCESS; entered with that
    status, bkz, bkzLoop and svpReduction each return a flag equal to
    (status == RED_SUCCESS) at the moment of return, so that a returned
    false always comes with a non-success status. *)
Theorem returned_flag_is_status fuel (s : State) :
  status s = RED_SUCCESS ->
  (forall w par, status (BKZReduction (FT := FT) w par) = RED_SUCCESS)
  /\ (forall b s',
        bkz DEBUG fuel s = Ok (b, s') ->
        b = (status s' =? RED_SUCCESS) /\ (b = false -> status s' <> RED_SUCCESS))
  /\ (forall loop kappaMax par minRow maxRow clean b kappaMax' clean' s',
        bkzLoop DEBUG fuel loop kappaMax par minRow maxRow clean s
        = Ok ((b, kappaMax', clean'), s') ->
        b = (status s' =? RED_SUCCESS) /\ (b = false -> status s' <> RED_SUCCESS))
  /\ (forall kappa blockSize par clean b clean' s',
        svpReduction DEBUG fuel kappa blockSize par clean s = Ok ((b, clean'), s') ->
        b = (status s' =? RED_SUCCESS) /\ (b = false -> status s' <> RED_SUCCESS)).
Proof.
  intros H0.
  assert (Hneq : forall b (s' : State),
             flag_is_status b s' ->
             b = (status s' =? RED_SUCCESS) /\ (b = false -> status s' <> RED_SUCCESS)).
  { unfold flag_is_status. intros b s' Hb. split; [exact Hb|].
    intros -> E. rewrite E in Hb. discriminate. }
  split; [reflexivity|]. split; [|split].
  - intros b s' E. apply Hneq. exact (wlp_elim _ _ _ _ _ (bkz_flag fuel s H0) E).
  - intros loop kM par minRow maxRow clean b kM' clean' s' E. apply Hneq.
    exact (wlp_elim _ _ _ _ _ (bkzLoop_flag fuel loop kM par minRow maxRow clean s H0) E).
  - intros kappa bs par clean b clean' s' E. apply Hneq.
    exact (wlp_elim _ _ _ _ _ (svpReduction_flag fuel kappa bs par clean s H0) E).
Qed.

(** *** The row count (towards C4) *)

Lemma wlp_bind_respects R {A B} (c : M A) (k : A -> M B) (s : State) Q :
  respects R c ->
  (forall a s', R s s' -> wlp (k a) s' Q) ->
  wlp (bind c k) s Q.
Proof.
  intros Hc Hk. apply wlp_bind. eapply wlp_weaken; [apply Hc|].
  intros a s' H. apply Hk. exact H.
Qed.

Lemma wlp_call_w {B} c f (k : unit -> M B) (s : State) Q :
  wlp (k tt) (step_world c (f (world s)) s) Q -> wlp (bind (call_w c f) k) s Q.
Proof. intros H. apply wlp_bind. exact H. Qed.

Lemma wlp_call_r {A B} c (f : W -> A * W) (k : A -> M B) (s : State) Q :
  wlp (k (fst (f (world s)))) (step_world c (snd (f (world s))) s) Q ->
  wlp (bind (call_r c f) k) s Q.
Proof.
  intros H. apply wlp_bind. unfold wlp at 1, call_r.
  destruct (f (world s)). exact H.
Qed.

Lemma wlp_gets {A B} (f : State -> A) (k : A -> M B) (s : State) Q :
  wlp (k (f s)) s Q -> wlp (bind (gets f) k) s Q.
Proof. intros H. apply wlp_bind. exact H. Qed.

Section Rows.

Context {HC : RowContract CO}.

Ltac side_rows :=
  unfold same_rows;
  cbn [world step_world set_status set_maxDist set_deltaMaxDist set_cputimeStart
       set_solCoord];
  first [ reflexivity
        | apply rows_updateGSORow | apply rows_discoverAllRows | apply rows_moveRow
        | apply rows_rowOpBegin | apply rows_rowOpEnd | apply rows_row_addmul
        | apply rows_lll | apply rows_sizeReduction | apply rows_enumerate
        | apply rows_cputime ].

Lemma getCurrentSlope_rows a b : respects same_rows (getCurrentSlope a b).
Proof. unfold getCurrentSlope. respects_with side_rows. Qed.

#[local] Hint Resolve getCurrentSlope_rows : frames.

Lemma testAbort_rows sc mx a : respects same_rows (testAbort sc mx a).
Proof. unfold testAbort. respects_with side_rows. Qed.

Lemma dumpGSO_rows f p a : respects same_rows (dumpGSO f p a).
Proof. unfold dumpGSO. respects_with side_rows. Qed.

Lemma setStatus_rows st : respects same_rows (setStatus st).
Proof. unfold setStatus. respects_with side_rows. Qed.

#[local] Hint Resolve testAbort_rows dumpGSO_rows setStatus_rows : frames.

Lemma classify_rows bs : respects same_rows (classify bs).
Proof. unfold classify. respects_with side_rows. Qed.

Lemma svp_enumerate_rows kappa bs par : respects same_rows (svp_enumerate kappa bs par).
Proof. unfold svp_enumerate. respects_with side_rows. Qed.

Lemma svp_lll_rows kappa bs par clean : respects same_rows (svp_lll kappa bs par clean).
Proof. unfold svp_lll. respects_with side_rows. Qed.

Lemma svp_insert_row_rows kappa iV clean :
  respects same_rows (svp_insert_row DEBUG kappa iV clean).
Proof. unfold svp_insert_row. respects_with side_rows. Qed.

Lemma bkzLoop_report_rows loop par minRow maxRow :
  respects same_rows (bkzLoop_report loop par minRow maxRow).
Proof. unfold bkzLoop_report. respects_with side_rows. Qed.

Lemma svp_preproc_guards_rows i par t0 aa :
  respects same_rows (svp_preproc_guards i par t0 aa).
Proof. unfold svp_preproc_guards. respects_with side_rows. Qed.

Lemma bkz_guards_rows iLoop aa : respects same_rows (bkz_guards iLoop aa).
Proof. unfold bkz_guards. respects_with side_rows. Qed.

Lemma bkz_prelude_rows : respects same_rows bkz_prelude.
Proof. unfold bkz_prelude. respects_with side_rows. Qed.

Lemma bkz_epilogue_rows st : respects same_rows (bkz_epilogue st).
Proof. unfold bkz_epilogue. respects_with side_rows. Qed.

#[local] Hint Resolve classify_rows svp_enumerate_rows svp_lll_rows svp_insert_row_rows
  bkzLoop_report_rows svp_preproc_guards_rows bkz_guards_rows bkz_prelude_rows
  bkz_epilogue_rows : frames.

(** What a driver operation does to the row count: nothing, or, when it
    returns false with the status of the LLL object, one row more. *)
Definition rows_kept (b : bool) (s s' : State) : Prop :=
  m_d (world s') = m_d (world s)
  \/ (b = false
      /\ m_d (world s') = m_d (world s) + 1
      /\ status s' = lll_status (world s')
      /\ status s' <> RED_SUCCESS).

Lemma rows_kept_true (s s' : State) : rows_kept true s s' -> same_rows s s'.
Proof. intros [H|[H _]]; [exact H | discriminate]. Qed.

Lemma rows_kept_trans b (s1 s2 s3 : State) :
  same_rows s1 s2 -> rows_kept b s2 s3 -> rows_kept b s1 s3.
Proof.
  unfold same_rows, rows_kept. intros H12 [H|(Hb & H & Hst)].
  - left. congruence.
  - right. split; [exact Hb|]. split; [congruence | exact Hst].
Qed.

Lemma svp_insert_general_rows kappa bs clean (s : State) :
  wlp (svp_insert_general DEBUG kappa bs clean) s (fun r s' => rows_kept (fst r) s s').
Proof.
  unfold svp_insert_general.
  apply wlp_gets. apply wlp_call_w.
  set (d := m_d (world s)).
  set (s1 := step_world C_createRow (createRow (world s)) s).
  assert (H1 : m_d (world s1) = d + 1) by (apply rows_createRow).
  apply (wlp_bind_respects same_rows); [respects_with side_rows|]. intros _ s2 H2.
  apply (wlp_bind_respects same_rows); [respects_with side_rows|]. intros _ s3 H3.
  apply (wlp_bind_respects same_rows); [respects_with side_rows|]. intros _ s4 H4.
  apply (wlp_bind_respects same_rows); [respects_with side_rows|]. intros _ s5 H5.
  unfold same_rows in H2, H3, H4, H5.
  apply wlp_call_r.
  set (r := lll kappa kappa (kappa +i bs +i 1) (world s5)).
  set (s6 := step_world _ (snd r) s5).
  assert (H6 : m_d (world s6) = d + 1).
  { unfold s6, r. cbn [world step_world]. rewrite rows_lll. congruence. }
  destruct (fst r) eqn:Eok; cbn [negb].
  - apply wlp_gets.
    apply (wlp_bind_respects same_rows); [respects_with side_rows|]. intros _ s7 H7.
    apply (wlp_bind_respects same_rows); [respects_with side_rows|]. intros _ s8 H8.
    apply wlp_call_w. apply wlp_ret. left.
    unfold same_rows in H7, H8. cbn [world step_world].
    rewrite rows_removeLastRow. fold d. lia.
  - apply wlp_gets. apply wlp_bind. apply wlp_setStatus. apply wlp_ret.
    cbn [fst]. right.
    assert (Hst : lll_status (world s6) <> RED_SUCCESS).
    { unfold s6, r. cbn [world step_world]. apply lll_failure_status. exact Eok. }
    rewrite status_setStatus_state, world_setStatus_state.
    repeat split; try assumption.
    apply Z.eqb_neq. exact Hst.
Qed.

Lemma svp_insert_rows kappa bs clean (s : State) :
  wlp (svp_insert DEBUG kappa bs clean) s (fun r s' => rows_kept (fst r) s s').
Proof.
  unfold svp_insert. apply wlp_gets. destruct (solCoord s).
  - eapply wlp_weaken.
    + apply (respects_bind same_rows); [apply setStatus_rows|].
      intros b. apply respects_ret. exact _.
    + intros r s' H. left. exact H.
  - apply (wlp_bind_respects same_rows); [apply classify_rows|]. intros [nz iV] s1 H1.
    apply (wlp_bind_respects same_rows); [respects_with side_rows|]. intros _ s2 H2.
    apply wlp_gets. apply wlp_gets.
    assert (H12 : same_rows s s2) by (unfold same_rows in *; congruence).
    destruct (FT_ge _ _).
    + apply wlp_ret. left. exact H12.
    + destruct (nz =? 1).
      * eapply wlp_weaken; [apply svp_insert_row_rows|].
        intros r s' H. left. unfold same_rows in *. congruence.
      * eapply wlp_weaken; [apply svp_insert_general_rows|].
        intros r s' H. eapply rows_kept_trans; eassumption.
Qed.

Definition block_rows (svp : block_fn) : Prop :=
  forall kappa bs par clean (s : State),
    wlp (svp kappa bs par clean) s (fun r s' => rows_kept (fst r) s s').

Definition tour_rows (tour : Z -> Z -> bool -> M (bool * Z * bool)) : Prop :=
  forall i kM clean (s : State),
    wlp (tour i kM clean) s (fun r s' => rows_kept (fst (fst r)) s s').

Lemma bkzLoop_sweep_rows svp :
  block_rows svp ->
  forall fuel kappa kM par maxRow clean (s : State),
    wlp (bkzLoop_sweep svp fuel kappa kM par maxRow clean) s
        (fun r s' => rows_kept (fst (fst r)) s s').
Proof.
  intros Hsvp fuel. induction fuel as [|fuel IH]; intros kappa kM par maxRow clean s.
  - exact I.
  - cbn [bkzLoop_sweep]. destruct (kappa <? maxRow -i 1).
    + apply wlp_bind. eapply wlp_weaken; [apply Hsvp|].
      intros [ok clean'] s1 H1. cbn [fst] in H1. destruct ok; cbn [negb].
      * apply rows_kept_true in H1. destruct (_ && _).
        -- apply (wlp_bind_respects same_rows); [respects_with side_rows|].
           intros _ s2 H2. eapply wlp_weaken; [apply IH|].
           intros r s3 H3. cbn beta in H3.
           eapply rows_kept_trans; [|exact H3].
           unfold same_rows in *. congruence.
        -- eapply wlp_weaken; [apply IH|].
           intros r s3 H3. eapply rows_kept_trans; eassumption.
      * apply wlp_ret. exact H1.
    + apply wlp_ret. left. reflexivity.
Qed.

Lemma bkzLoop_with_rows svp :
  block_rows svp ->
  forall fuel loop kM par minRow maxRow clean (s : State),
    wlp (bkzLoop_with svp fuel loop kM par minRow maxRow clean) s
        (fun r s' => rows_kept (fst (fst r)) s s').
Proof.
  intros Hsvp fuel loop kM par minRow maxRow clean s. unfold bkzLoop_with.
  apply wlp_bind. eapply wlp_weaken; [apply bkzLoop_sweep_rows; assumption|].
  intros [[ok kM'] clean'] s1 H1. cbn [fst] in H1. destruct ok; cbn [negb].
  - apply rows_kept_true in H1.
    apply (wlp_bind_respects same_rows); [respects_with side_rows|].
    intros _ s2 H2. apply wlp_ret. left. unfold same_rows in *. congruence.
  - apply wlp_ret. exact H1.
Qed.

Lemma svp_preproc_for_rows tour :
  tour_rows tour ->
  forall fuel i par t0 kM aa clean (s : State),
    wlp (svp_preproc_for tour fuel i par t0 kM aa clean) s
        (fun r s' => rows_kept (fst r) s s').
Proof.
  intros Htour fuel. induction fuel as [|fuel IH]; intros i par t0 kM aa clean s.
  - exact I.
  - cbn [svp_preproc_for].
    apply (wlp_bind_respects same_rows); [respects_with side_rows|].
    intros [stop aa'] s1 H1. destruct stop.
    + apply wlp_ret. left. exact H1.
    + apply wlp_bind. eapply wlp_weaken; [apply Htour|].
      intros [[ok kM'] clean2] s2 H2. cbn [fst] in H2. destruct ok; cbn [negb].
      * apply rows_kept_true in H2.
        assert (H12 : same_rows s s2) by (unfold same_rows in *; congruence).
        destruct clean2.
        -- apply wlp_ret. left. exact H12.
        -- eapply wlp_weaken; [apply IH|].
           intros r s3 H3. eapply rows_kept_trans; eassumption.
      * apply wlp_ret. eapply rows_kept_trans; eassumption.
Qed.

Lemma svp_preproc_rows tour :
  (forall preproc, tour_rows (tour preproc)) ->
  forall fuel kappa bs par clean (s : State),
    wlp (svp_preproc tour fuel kappa bs par clean) s
        (fun r s' => rows_kept (fst r) s s').
Proof.
  intros Htour fuel kappa bs par clean s. unfold svp_preproc.
  destruct (BKZParam.preprocessing par) as [preproc|].
  - destruct (_ && _).
    + apply wlp_gets.
      apply (wlp_bind_respects same_rows); [respects_with side_rows|]. intros t s2 H2.
      eapply wlp_weaken; [apply svp_preproc_for_rows; apply Htour|].
      intros r s3 H3. eapply rows_kept_trans; eassumption.
    + apply wlp_ret. left. reflexivity.
  - apply wlp_ret. left. reflexivity.
Qed.

Lemma svpReduction_rows fuel : block_rows (svpReduction DEBUG fuel).
Proof.
  induction fuel as [|fuel IH]; intros kappa bs par clean s.
  - exact I.
  - cbn [svpReduction].
    apply (wlp_bind_respects same_rows); [apply svp_lll_rows|].
    intros [b|clean1] s1 H1.
    + apply wlp_ret. left. exact H1.
    + apply wlp_bind. eapply wlp_weaken.
      { apply svp_preproc_rows. intros preproc i kM c2 s'.
        apply bkzLoop_with_rows. exact IH. }
      intros [go clean2] s2 H2. cbn [fst] in H2. destruct go; cbn [negb].
      * apply rows_kept_true in H2.
        assert (H02 : same_rows s s2) by (unfold same_rows in *; congruence).
        apply (wlp_bind_respects same_rows); [apply svp_enumerate_rows|].
        intros _ s3 H3. eapply wlp_weaken; [apply svp_insert_rows|].
        intros r s4 H4. cbn beta in H4.
        eapply rows_kept_trans; [|exact H4]. unfold same_rows in *. congruence.
      * apply wlp_ret. eapply rows_kept_trans; eassumption.
Qed.

Lemma bkz_for_rows fuel :
  forall iLoop kM aa (s : State),
    wlp (bkz_for DEBUG fuel iLoop kM aa) s
        (fun r s' => match r with
                     | None => rows_kept false s s'
                     | Some _ => same_rows s s'
                     end).
Proof.
  induction fuel as [|fuel IH]; intros iLoop kM aa s.
  - exact I.
  - cbn [bkz_for].
    apply (wlp_bind_respects same_rows); [apply bkz_guards_rows|].
    intros [[st|] aa'] s1 H1.
    + apply wlp_ret. exact H1.
    + apply wlp_gets. apply wlp_gets. apply wlp_bind. eapply wlp_weaken.
      { unfold bkzLoop. apply bkzLoop_with_rows. apply svpReduction_rows. }
      intros [[ok kM'] clean] s2 H2. cbn [fst] in H2. destruct ok; cbn [negb].
      * apply rows_kept_true in H2.
        assert (H02 : same_rows s s2) by (unfold same_rows in *; congruence).
        destruct (_ || _).
        -- apply wlp_ret. exact H02.
        -- eapply wlp_weaken; [apply IH|].
           intros [st|] s3 H3.
           ++ unfold same_rows in *. congruence.
           ++ eapply rows_kept_trans; eassumption.
      * apply wlp_ret. eapply rows_kept_trans; eassumption.
Qed.

Lemma bkz_rows fuel (s : State) :
  wlp (bkz DEBUG fuel) s (fun b s' => rows_kept b s s').
Proof.
  unfold bkz. apply wlp_gets.
  apply (wlp_bind_respects same_rows); [respects_with side_rows|]. intros _ s1 H1.
  destruct (BKZParam.blockSize (param s) <? 2).
  - eapply wlp_weaken; [apply setStatus_rows|].
    intros b s2 H2. left. unfold same_rows in *. congruence.
  - apply (wlp_bind_respects same_rows); [apply bkz_prelude_rows|]. intros aa s2 H2.
    apply wlp_bind. eapply wlp_weaken; [apply bkz_for_rows|].
    assert (H02 : same_rows s s2) by (unfold same_rows in *; congruence).
    intros [st|] s3 H3.
    + eapply wlp_weaken; [apply bkz_epilogue_rows|].
      intros b s4 H4. left. unfold same_rows in *. congruence.
    + apply wlp_ret. eapply rows_kept_trans; eassumption.
Qed.

(** C4, amended. Under the row-count contract of the collaborators,
    svpReduction and bkz leave m.d as it was on every exit but one: when the
    LLL call that follows the insertion of the new row fails, the call
    returns false with the status of the LLL object and the extra row is
    still there (m.d is one more than on entry). In particular m.d is
    unchanged whenever true is returned. *)
Theorem row_count_on_exit fuel (s : State) :
  (forall kappa blockSize par clean b clean' s',
      svpReduction DEBUG fuel kappa blockSize par clean s = Ok ((b, clean'), s') ->
      (b = true -> m_d (world s') = m_d (world s))
      /\ (m_d (world s') = m_d (world s)
          \/ (b = false /\ m_d (world s') = m_d (world s) + 1
              /\ status s' = lll_status (world s') /\ status s' <> RED_SUCCESS)))
  /\ (forall b s',
      bkz DEBUG fuel s = Ok (b, s') ->
      (b = true -> m_d (world s') = m_d (world s))
      /\ (m_d (world s') = m_d (world s)
          \/ (b = false /\ m_d (world s') = m_d (world s) + 1
              /\ status s' = lll_status (world s') /\ status s' <> RED_SUCCESS))).
Proof.
  split.
  - intros kappa bs par clean b clean' s' E.
    pose proof (wlp_elim _ _ _ _ _ (svpReduction_rows fuel kappa bs par clean s) E) as H.
    cbn [fst] in H. split; [|exact H].
    intros ->. apply rows_kept_true in H. exact H.
  - intros b s' E.
    pose proof (wlp_elim _ _ _ _ _ (bkz_rows fuel s) E) as H.
    cbn beta in H. split; [|exact H].
    intros ->. apply rows_kept_true in H. exact H.
Qed.

End Rows.

(** *** The sweep of a tour (towards C8) *)

Lemma In_seqZ n : forall lo k, In k (seqZ n lo) <-> lo <= k < lo + Z.of_nat n.
Proof.
  induction n as [|n IH]; intros lo k; cbn [seqZ In].
  - lia.
  - rewrite IH. lia.
Qed.

Lemma bkzLoop_sweep_seq svp par maxRow :
  Int32.min_signed < maxRow <= Int32.max_signed ->
  forall n fuel kappa kM clean (s : State),
    0 <= kappa ->
    Z.to_nat (maxRow - 1 - kappa) = n ->
    (n < fuel)%nat ->
    bkzLoop_sweep svp fuel kappa kM par maxRow clean s =
    reduce_blocks svp
      (map (fun kappa => (kappa, Z.min (BKZParam.blockSize par) (maxRow - kappa)))
           (seqZ n kappa))
      kM par clean s.
Proof.
  intros HmaxRow.
  assert (Hsub : maxRow -i 1 = maxRow - 1).
  { apply Int32.sub_exact. unfold Int32.in_range, Int32.min_signed, Int32.max_signed in *.
    lia. }
  induction n as [|n IH]; intros fuel kappa kM clean s Hk Hn Hfuel;
    (destruct fuel as [|fuel]; [lia|]); cbn [bkzLoop_sweep seqZ map reduce_blocks];
    rewrite Hsub.
  - destruct (Z.ltb_spec kappa (maxRow - 1)); [lia | reflexivity].
  - destruct (Z.ltb_spec kappa (maxRow - 1)); [|lia].
    assert (Hbs : maxRow -i kappa = maxRow - kappa).
    { apply Int32.sub_exact.
      unfold Int32.in_range, Int32.min_signed, Int32.max_signed in *. lia. }
    assert (Hinc : Int32.incr kappa = kappa + 1).
    { apply Int32.incr_exact. unfold Int32.min_signed, Int32.max_signed in *. lia. }
    assert (Hadd : kappa +i 1 = kappa + 1) by exact Hinc.
    rewrite Hbs, Int32.min_spec, Hinc, Hadd.
    unfold bind at 1 3.
    destruct (svp kappa _ par clean s) as [[[ok clean'] s1]|why]; [|reflexivity].
    destruct ok; cbn [negb]; [|reflexivity].
    destruct (_ && _).
    + unfold bind, emit. apply IH; lia.
    + apply IH; lia.
Qed.

(** C8. One tour reduces exactly the blocks that start at kappa =
    minRow, ..., maxRow - 2, in this order, the block at kappa having size
    min(blockSize, maxRow - kappa); it stops at the first block that fails
    and returns false then; no block starts at maxRow - 1. *)
Theorem bkzLoop_blocks fuel loop kappaMax par minRow maxRow clean (s : State) :
  0 <= minRow ->
  Int32.min_signed < maxRow <= Int32.max_signed ->
  (Z.to_nat (maxRow - 1 - minRow) < fuel)%nat ->
  bkzLoop DEBUG fuel loop kappaMax par minRow maxRow clean s =
  bind (reduce_blocks (svpReduction DEBUG fuel) (tour_blocks par minRow maxRow)
                      kappaMax par clean)
       (fun r => if negb (fst (fst r)) then ret (false, snd (fst r), snd r)
                 else bind (bkzLoop_report loop par minRow maxRow)
                           (fun _ => ret (true, snd (fst r), snd r))) s
  /\ (forall kappa blockSize,
        In (kappa, blockSize) (tour_blocks par minRow maxRow) <->
        minRow <= kappa <= maxRow - 2
        /\ blockSize = Z.min (BKZParam.blockSize par) (maxRow - kappa))
  /\ (forall blockSize, ~ In (maxRow - 1, blockSize) (tour_blocks par minRow maxRow))
  /\ (forall kappa blockSize rest kM c c' (s1 s2 : State),
        svpReduction DEBUG fuel kappa blockSize par c s1 = Ok ((false, c'), s2) ->
        reduce_blocks (svpReduction DEBUG fuel) ((kappa, blockSize) :: rest) kM par c s1
        = Ok ((false, kM, c'), s2)).
Proof.
  intros Hmin Hmax Hfuel.
  assert (Hin : forall kappa blockSize,
             In (kappa, blockSize) (tour_blocks par minRow maxRow) <->
             minRow <= kappa <= maxRow - 2
             /\ blockSize = Z.min (BKZParam.blockSize par) (maxRow - kappa)).
  { intros kappa bs. unfold tour_blocks. rewrite in_map_iff. split.
    - intros (k & E & Hk). apply In_seqZ in Hk. inversion E; subst. lia.
    - intros (Hk & ->). exists kappa. split; [reflexivity|]. apply In_seqZ. lia. }
  split; [|split; [exact Hin|split]].
  - unfold bkzLoop, bkzLoop_with, bind at 1 3.
    rewrite (bkzLoop_sweep_seq _ par maxRow Hmax _ fuel minRow kappaMax clean s Hmin
               eq_refl Hfuel).
    fold (tour_blocks par minRow maxRow).
    destruct (reduce_blocks _ _ _ _ _ s) as [[[[ok kM] c] s1]|why]; reflexivity.
  - intros bs H. apply Hin in H. lia.
  - intros kappa bs rest kM c c' s1 s2 E. cbn [reduce_blocks]. unfold bind.
    rewrite E. reflexivity.
Qed.

(** *** Runs that return *)

Definition total {A} (c : M A) (s : State) : Prop :=
  exists a s', c s = Ok (a, s').

Lemma total_ret {A} (a : A) (s : State) : total (ret a) s.
Proof. exists a, s. reflexivity. Qed.

Lemma total_bind {A B} (c : M A) (k : A -> M B) (s : State) (P : A -> State -> Prop) :
  total c s -> wlp c s P -> (forall a s', P a s' -> total (k a) s') ->
  total (bind c k) s.
Proof.
  intros (a & s1 & E) Hw Hk. unfold total. rewrite (bind_ok _ E).
  apply Hk. exact (wlp_elim _ _ _ _ _ Hw E).
Qed.

Lemma total_call_w c f (s : State) : total (call_w c f) s.
Proof. eexists _, _. reflexivity. Qed.

Lemma total_call_r {A} c (f : W -> A * W) (s : State) : total (call_r c f) s.
Proof. unfold total, call_r. destruct (f (world s)). eexists _, _. reflexivity. Qed.

Lemma total_emit c (s : State) : total (emit c) s.
Proof. eexists _, _. reflexivity. Qed.

Lemma total_gets {A} (f : State -> A) (s : State) : total (gets f) s.
Proof. eexists _, _. reflexivity. Qed.

Lemma total_modify f (s : State) : total (modify f) s.
Proof. eexists _, _. reflexivity. Qed.

Lemma total_for_n {A} (I : State -> Prop) (body : Z -> A -> M A) n :
  forall i a (s : State),
    I s ->
    (forall j a s, i <= j < i + Z.of_nat n -> I s ->
                   total (body j a) s /\ wlp (body j a) s (fun _ s' => I s')) ->
    total (for_n n i body a) s /\ wlp (for_n n i body a) s (fun _ s' => I s').
Proof.
  induction n as [|n IH]; intros i a s Hs Hbody.
  - split; [apply total_ret | exact Hs].
  - destruct (Hbody i a s ltac:(lia) Hs) as [(a1 & s1 & E1) Hw].
    pose proof (wlp_elim _ _ _ _ _ Hw E1) as H1. cbn beta in H1.
    destruct (IH (i + 1) a1 s1 H1) as [Ht Hw'].
    { intros j a2 s2 Hj. apply Hbody. lia. }
    cbn [for_n]. split.
    + unfold total. rewrite (bind_ok _ E1). exact Ht.
    + unfold wlp. rewrite (bind_ok _ E1). exact Hw'.
Qed.

(** *** The coordinates of the solution (lines 121-128) *)

(** The number of nonzero coordinates, and the index of the first nonzero
    coordinate whose value is 1 or -1 (-1 when there is none), as functions
    of the list of coordinates. *)
Definition is_unit (x : FT) : bool :=
  negb (is_zero x) && (PrimFloat.eqb (get_d x) 1 || PrimFloat.eqb (get_d x) (-1)).

Definition nonzero_count (l : list FT) : Z :=
  Z.of_nat (List.length (filter (fun x => negb (is_zero x)) l)).

Fixpoint first_unit_from (i : Z) (l : list FT) : Z :=
  match l with
  | [] => -1
  | x :: t => if is_unit x then i else first_unit_from (i + 1) t
  end.

(** The coordinates the loop looks at: the first [blockSize] ones. *)
Definition block_coords (blockSize : Z) (sc : list FT) : list FT :=
  firstn (Z.to_nat blockSize) sc.

Lemma nonzero_count_bounds l : 0 <= nonzero_count l <= Z.of_nat (List.length l).
Proof.
  unfold nonzero_count. pose proof (filter_length_le (fun x => negb (is_zero x)) l). lia.
Qed.

Lemma nonzero_count_cons x l :
  nonzero_count (x :: l) = (if is_zero x then 0 else 1) + nonzero_count l.
Proof.
  unfold nonzero_count. cbn [filter]. destruct (is_zero x); cbn [negb List.length]; lia.
Qed.

Lemma classify_loop (s : State) :
  forall l pre post nz iV,
    solCoord s = pre ++ l ++ post ->
    0 <= nz -> nz + Z.of_nat (List.length l) <= Int32.max_signed ->
    for_n (List.length l) (Z.of_nat (List.length pre))
      (fun i (c : Z * Z) =>
         let (nzVectors, iVector) := c in
         bind (gets solCoord) (fun sc =>
         bind (vec_get sc i) (fun x =>
         if negb (is_zero x) then
           if (iVector =? -1)
              && (PrimFloat.eqb (get_d x) 1 || PrimFloat.eqb (get_d x) (-1))
           then ret (Int32.incr nzVectors, i)
           else ret (Int32.incr nzVectors, iVector)
         else ret (nzVectors, iVector))))
      (nz, iV) s
    = Ok ((nz + nonzero_count l,
           if iV =? -1 then first_unit_from (Z.of_nat (List.length pre)) l else iV), s).
Proof.
  induction l as [|x t IH]; intros pre post nz iV Hsc Hnz Hmax.
  - cbn [for_n List.length first_unit_from]. unfold ret, nonzero_count. cbn.
    rewrite Z.add_0_r. destruct (iV =? -1) eqn:E; [|reflexivity].
    apply Z.eqb_eq in E. subst. reflexivity.
  - cbn [List.length for_n]. unfold bind at 1, gets at 1. unfold bind at 1.
    assert (Hget : vec_get (solCoord s) (Z.of_nat (List.length pre)) s = Ok (x, s)).
    { unfold vec_get. destruct (Z.ltb_spec (Z.of_nat (List.length pre)) 0); [lia|].
      rewrite Nat2Z.id, Hsc, nth_error_app2 by lia.
      rewrite Nat.sub_diag. reflexivity. }
    rewrite (bind_ok _ Hget).
    assert (Hsc' : solCoord s = (pre ++ [x]) ++ t ++ post).
    { rewrite Hsc, <- app_assoc. reflexivity. }
    assert (Hlen : Z.of_nat (List.length pre) + 1 = Z.of_nat (List.length (pre ++ [x]))).
    { rewrite length_app. cbn [List.length]. lia. }
    cbn [List.length] in Hmax.
    assert (Hinc : Int32.incr nz = nz + 1).
    { apply Int32.incr_exact. unfold Int32.min_signed, Int32.max_signed in *. lia. }
    rewrite nonzero_count_cons. cbn [first_unit_from]. unfold is_unit.
    pose proof (nonzero_count_bounds t) as Hb.
    destruct (is_zero x); cbn [negb andb].
    + unfold ret at 1. rewrite Hlen.
      rewrite (IH (pre ++ [x]) post nz iV Hsc' Hnz) by lia.
      rewrite Z.add_0_l. reflexivity.
    + rewrite Hinc.
      destruct (iV =? -1) eqn:EiV; cbn [andb].
      * destruct (_ || _); unfold ret at 1; rewrite Hlen.
        -- rewrite (IH (pre ++ [x]) post (nz + 1) _ Hsc') by lia.
           destruct (Z.eqb_spec (Z.of_nat (List.length pre)) (-1)); [lia|].
           f_equal. f_equal. f_equal. lia.
        -- rewrite (IH (pre ++ [x]) post (nz + 1) iV Hsc') by lia.
           rewrite EiV. f_equal. f_equal. f_equal. lia.
      * unfold ret at 1. rewrite Hlen.
        rewrite (IH (pre ++ [x]) post (nz + 1) iV Hsc') by lia.
        rewrite EiV. f_equal. f_equal. f_equal. lia.
Qed.

(** The loop of lines 121-128 computes these two numbers. *)
Lemma call_r_eq {A} c (f : W -> A * W) (s : State) :
  call_r c f s = Ok (fst (f (world s)), step_world c (snd (f (world s))) s).
Proof. unfold call_r. destruct (f (world s)); reflexivity. Qed.

Lemma classify_eq bs (s : State) :
  bs <= Z.of_nat (List.length (solCoord s)) ->
  bs <= Int32.max_signed ->
  classify bs s =
  Ok ((nonzero_count (block_coords bs (solCoord s)),
       first_unit_from 0 (block_coords bs (solCoord s))), s).
Proof.
  intros Hlen Hmax. unfold classify, for_range, block_coords.
  rewrite Z.sub_0_r.
  set (l := firstn (Z.to_nat bs) (solCoord s)).
  assert (Hl : List.length l = Z.to_nat bs).
  { unfold l. rewrite length_firstn. lia. }
  rewrite <- Hl.
  pose proof (classify_loop s l [] (skipn (Z.to_nat bs) (solCoord s)) 0 (-1)) as H.
  cbn [List.length app Z.of_nat] in H. rewrite H.
  - reflexivity.
  - unfold l. symmetry. apply firstn_skipn.
  - lia.
  - rewrite Hl. unfold Int32.max_signed in *. lia.
Qed.

(** *** Getting to the insertion decision *)

(** The state svp_enumerate leaves behind: [maxDist] and [solCoord] are what
    the enumerator returned, [deltaMaxDist] is [delta] times the [r_{kappa,
    kappa}] read before the call. *)
Definition svp_enumerate_state (kappa bs : Z) (par : BKZParam.t) (s : State) : State :=
  let r := getRExp kappa kappa (world s) in
  let res := enumerate (fst r) (snd r) kappa (kappa +i bs) (BKZParam.pruning par)
                       (world s) in
  mkState (status s) (param s) (numRows s) (delta s)
          (fst (fst res)) (FT_mul (delta s) (fst r)) (cputimeStart s)
          (snd (fst res)) (snd res)
          (trace s ++ [C_enumerate kappa (kappa +i bs)]).

Lemma svp_enumerate_eq kappa bs par (s : State) :
  svp_enumerate kappa bs par s = Ok (tt, svp_enumerate_state kappa bs par s).
Proof.
  unfold svp_enumerate, svp_enumerate_state, bind, gets, modify, call_r.
  destruct (getRExp kappa kappa (world s)) as [r e]. cbn.
  destruct (enumerate r e kappa (kappa +i bs) (BKZParam.pruning par) (world s))
    as [[md sol] w']. reflexivity.
Qed.

(** The call [svpReduction(kappa, bs, par, clean)] entered in state [s] has
    passed the LLL of lines 79-86 and the preprocessing of lines 88-108 and
    stands before line 110 in state [s2], [clean] being [c]. *)
Definition before_enumerate (fuel : nat) (kappa bs : Z) (par : BKZParam.t)
    (clean : bool) (s : State) (c : bool) (s2 : State) : Prop :=
  exists c1 s1,
    svp_lll kappa bs par clean s = Ok (inr c1, s1)
    /\ svp_preproc
         (fun preproc i kappaMax clean2 =>
            bkzLoop_with (svpReduction DEBUG fuel) fuel i kappaMax preproc
                         kappa (kappa +i bs) clean2)
         fuel kappa bs par c1 s1
       = Ok ((true, c), s2).

Lemma svpReduction_insert fuel kappa bs par clean (s : State) c s2 :
  before_enumerate fuel kappa bs par clean s c s2 ->
  svpReduction DEBUG (S fuel) kappa bs par clean s
  = svp_insert DEBUG kappa bs c (svp_enumerate_state kappa bs par s2).
Proof.
  intros (c1 & s1 & E1 & E2). cbn [svpReduction].
  rewrite (bind_ok _ E1). rewrite (bind_ok _ E2). cbn [negb].
  rewrite (bind_ok _ (svp_enumerate_eq kappa bs par s2)). reflexivity.
Qed.

Lemma before_enumerate_plain fuel kappa bs par clean (s : State) c s1 :
  BKZParam.preprocessing par = None ->
  svp_lll kappa bs par clean s = Ok (inr c, s1) ->
  before_enumerate fuel kappa bs par clean s c s1.
Proof.
  intros Hp E. exists c, s1. split; [exact E|].
  unfold svp_preproc. rewrite Hp. reflexivity.
Qed.

Lemma debug_check_release b (s : State) :
  DEBUG = false -> FPLLL_DEBUG_CHECK DEBUG b s = Ok (tt, s).
Proof. intros H. unfold FPLLL_DEBUG_CHECK. rewrite H. reflexivity. Qed.

Lemma debug_check_true (s : State) : FPLLL_DEBUG_CHECK DEBUG true s = Ok (tt, s).
Proof. unfold FPLLL_DEBUG_CHECK. destruct DEBUG; reflexivity. Qed.

(** The insertion decision up to the delta test, for coordinates that the
    loop can read. *)
Lemma svp_insert_decide kappa bs clean (s : State) :
  solCoord s <> [] ->
  bs <= Z.of_nat (List.length (solCoord s)) ->
  bs <= Int32.max_signed ->
  DEBUG = false \/ 0 < nonzero_count (block_coords bs (solCoord s)) ->
  svp_insert DEBUG kappa bs clean s =
  if FT_ge (maxDist s) (deltaMaxDist s) then Ok ((true, clean), s)
  else if nonzero_count (block_coords bs (solCoord s)) =? 1
       then svp_insert_row DEBUG kappa
              (first_unit_from 0 (block_coords bs (solCoord s))) clean s
       else svp_insert_general DEBUG kappa bs clean s.
Proof.
  intros Hne Hlen Hmax Hdbg. unfold svp_insert. unfold bind at 1, gets at 1.
  destruct (solCoord s) as [|x sc] eqn:Esc; [contradiction|]. rewrite <- Esc in *.
  rewrite (bind_ok _ (classify_eq bs s Hlen Hmax)).
  assert (Hchk : FPLLL_DEBUG_CHECK DEBUG
                   (0 <? nonzero_count (block_coords bs (solCoord s))) s = Ok (tt, s)).
  { destruct Hdbg as [H|H].
    - apply debug_check_release. exact H.
    - apply Z.ltb_lt in H. rewrite H. apply debug_check_true. }
  rewrite (bind_ok _ Hchk). unfold bind, ret, gets.
  destruct (FT_ge _ _); [reflexivity|]. destruct (_ =? 1); reflexivity.
Qed.

(** C6. When svpReduction has got past the enumeration with a solution and
    the squared norm the enumerator returned is at least deltaMaxDist
    (delta times the r_{kappa,kappa} read just before the call), it returns
    true in the very state the enumeration left: no call follows the
    enumeration, the world is untouched, and clean has the value it had
    before the insertion step. *)
Theorem delta_test_keeps_basis fuel kappa blockSize par clean (s : State) c s2 :
  before_enumerate fuel kappa blockSize par clean s c s2 ->
  solCoord (svp_enumerate_state kappa blockSize par s2) <> [] ->
  blockSize <= Z.of_nat (List.length (solCoord (svp_enumerate_state kappa blockSize par s2))) ->
  blockSize <= Int32.max_signed ->
  DEBUG = false
  \/ 0 < nonzero_count
           (block_coords blockSize (solCoord (svp_enumerate_state kappa blockSize par s2))) ->
  FT_ge (maxDist (svp_enumerate_state kappa blockSize par s2))
        (deltaMaxDist (svp_enumerate_state kappa blockSize par s2)) = true ->
  svpReduction DEBUG (S fuel) kappa blockSize par clean s
  = Ok ((true, c), svp_enumerate_state kappa blockSize par s2)
  /\ deltaMaxDist (svp_enumerate_state kappa blockSize par s2)
     = FT_mul (delta s2) (fst (getRExp kappa kappa (world s2)))
  /\ maxDist (svp_enumerate_state kappa blockSize par s2)
     = fst (fst (enumerate (fst (getRExp kappa kappa (world s2)))
                           (snd (getRExp kappa kappa (world s2)))
                           kappa (kappa +i blockSize) (BKZParam.pruning par) (world s2)))
  /\ trace (svp_enumerate_state kappa blockSize par s2)
     = trace s2 ++ [C_enumerate kappa (kappa +i blockSize)].
Proof.
  intros Hpath Hne Hlen Hmax Hdbg Hge.
  rewrite (svpReduction_insert _ _ _ _ _ _ _ _ Hpath).
  rewrite (svp_insert_decide _ _ _ _ Hne Hlen Hmax Hdbg), Hge.
  repeat split.
Qed.

(** *** A failed block ends the tour and the run (towards C7) *)

Lemma bkzLoop_sweep_fails svp n kappa kM par maxRow clean (s : State) c' s' :
  kappa < maxRow -i 1 ->
  svp kappa (Int32.min (BKZParam.blockSize par) (maxRow -i kappa)) par clean s
  = Ok ((false, c'), s') ->
  bkzLoop_sweep svp (S n) kappa kM par maxRow clean s = Ok ((false, kM, c'), s').
Proof.
  intros Hk E. cbn [bkzLoop_sweep]. apply Z.ltb_lt in Hk. rewrite Hk.
  rewrite (bind_ok _ E). reflexivity.
Qed.

Lemma bkzLoop_with_fails svp fuel loop kM par minRow maxRow clean (s : State) kM' c' s' :
  bkzLoop_sweep svp fuel minRow kM par maxRow clean s = Ok ((false, kM', c'), s') ->
  bkzLoop_with svp fuel loop kM par minRow maxRow clean s = Ok ((false, kM', c'), s').
Proof. intros E. unfold bkzLoop_with. rewrite (bind_ok _ E). reflexivity. Qed.

Lemma bkz_for_fails fuel iLoop kM aa (s : State) aa' s1 kM' c' s' :
  bkz_guards iLoop aa s = Ok ((None, aa'), s1) ->
  bkzLoop DEBUG fuel iLoop kM (param s1) 0 (numRows s1) true s1
  = Ok ((false, kM', c'), s') ->
  bkz_for DEBUG (S fuel) iLoop kM aa s = Ok (None, s').
Proof.
  intros Eg Et. cbn [bkz_for]. rewrite (bind_ok _ Eg), !bind_gets.
  rewrite (bind_ok _ Et). reflexivity.
Qed.

(** Lines 197-220 of bkz when the block size is at least 2: the input dump
    and the set-up of the main loop. *)
Definition bkz_enter : M BKZAutoAbort.t :=
  bind (gets param) (fun par =>
  bind (when (has_flag (BKZParam.flags par) BKZ_DUMP_GSO)
             (dumpGSO (BKZParam.dumpGSOFilename par) DumpInput false)) (fun _ =>
  bkz_prelude)).

Lemma bkz_unfold fuel (s : State) :
  2 <= BKZParam.blockSize (param s) ->
  bkz DEBUG fuel s =
  bind bkz_enter (fun autoAbort =>
  bind (bkz_for DEBUG fuel 0 0 autoAbort) (fun r =>
  match r with
  | None => ret false
  | Some finalStatus => bkz_epilogue finalStatus
  end)) s.
Proof.
  intros H. unfold bkz, bkz_enter. rewrite bind_assoc, !bind_gets, bind_assoc.
  destruct (when (has_flag (BKZParam.flags (param s)) BKZ_DUMP_GSO)
                 (dumpGSO (BKZParam.dumpGSOFilename (param s)) DumpInput false) s)
    as [[[] s1]|why] eqn:E.
  - rewrite !(bind_ok _ E).
    destruct (Z.ltb_spec (BKZParam.blockSize (param s)) 2); [lia|]. reflexivity.
  - rewrite !(bind_stuck _ E). reflexivity.
Qed.

Lemma bkz_fails fuel (s : State) aa s1 s' :
  2 <= BKZParam.blockSize (param s) ->
  bkz_enter s = Ok (aa, s1) ->
  bkz_for DEBUG fuel 0 0 aa s1 = Ok (None, s') ->
  bkz DEBUG fuel s = Ok (false, s').
Proof.
  intros H Ee Ef. rewrite (bkz_unfold _ _ H).
  rewrite (bind_ok _ Ee). rewrite (bind_ok _ Ef). reflexivity.
Qed.

(** *** Where an enumeration can come back empty (C7)

    A block whose enumeration comes back empty can be any block of any
    tour: a block of a tour of the main loop, after blocks and tours that
    went well, or a block of a tour that the preprocessing of another
    block runs, at any depth. The relations below follow the loops of
    bkz.cpp down to such a block; [sf] is the state in which its
    [setStatus(RED_ENUM_FAILURE)] returns. Their premises are the runs
    that come before that enumeration (the guards of the loops, the
    blocks and the tours that returned true); nothing is assumed of what
    the code does after it. *)

(** Lines 168-171: [kappaMax] and the state after a block that returned
    true. *)
Definition after_block (par : BKZParam.t) (kappa kappaMax : Z) (clean : bool) (s : State)
  : Z * State :=
  if has_flag (BKZParam.flags par) BKZ_VERBOSE && (kappaMax <? kappa) && clean
  then (kappa,
        step_world (C_cerr (MsgBlockReduced (kappa +i 1) (BKZParam.blockSize par)))
                   (world s) s)
  else (kappaMax, s).

Section Paths.

Variable svp : block_fn (W:=W) (FT:=FT).
Variable svp_fails : Z -> Z -> BKZParam.t -> bool -> State -> State -> Prop.

(** The sweep of lines 164-172 entered at [kappa]: this block is the one,
    or it returns true and a later block is. *)
Inductive sweep_fails
  : nat -> Z -> Z -> BKZParam.t -> Z -> bool -> State -> State -> Prop :=
  | sweep_fails_here fuel kappa kappaMax par maxRow clean s sf :
      kappa < maxRow -i 1 ->
      svp_fails kappa (Int32.min (BKZParam.blockSize par) (maxRow -i kappa)) par clean
                s sf ->
      sweep_fails (S fuel) kappa kappaMax par maxRow clean s sf
  | sweep_fails_later fuel kappa kappaMax par maxRow clean s clean1 s1 sf :
      kappa < maxRow -i 1 ->
      svp kappa (Int32.min (BKZParam.blockSize par) (maxRow -i kappa)) par clean s
      = Ok ((true, clean1), s1) ->
      sweep_fails fuel (Int32.incr kappa)
                  (fst (after_block par kappa kappaMax clean1 s1)) par maxRow clean1
                  (snd (after_block par kappa kappaMax clean1 s1)) sf ->
      sweep_fails (S fuel) kappa kappaMax par maxRow clean s sf.

Variable tour : Z -> Z -> bool -> M (bool * Z * bool).
Variable tour_fails : Z -> Z -> bool -> State -> State -> Prop.

(** The preprocessing loop of lines 94-107 entered at [i]: the tour of
    this iteration is the one, or it returns true without being clean and
    a later tour is. *)
Inductive preproc_fails
  : nat -> Z -> BKZParam.t -> float -> Z -> BKZAutoAbort.t -> bool -> State -> State
    -> Prop :=
  | preproc_fails_here fuel i par t0 kappaMax autoAbort clean s autoAbort' s1 sf :
      svp_preproc_guards i par t0 autoAbort s = Ok ((false, autoAbort'), s1) ->
      tour_fails i kappaMax true s1 sf ->
      preproc_fails (S fuel) i par t0 kappaMax autoAbort clean s sf
  | preproc_fails_later fuel i par t0 kappaMax autoAbort clean s autoAbort' s1
                        kappaMax' s2 sf :
      svp_preproc_guards i par t0 autoAbort s = Ok ((false, autoAbort'), s1) ->
      tour i kappaMax true s1 = Ok ((true, kappaMax', false), s2) ->
      preproc_fails fuel (Int32.incr i) par t0 kappaMax' autoAbort' false s2 sf ->
      preproc_fails (S fuel) i par t0 kappaMax autoAbort clean s sf.

Lemma sweep_fails_sound :
  (forall kappa bs par clean s sf,
      svp_fails kappa bs par clean s sf ->
      exists clean', svp kappa bs par clean s = Ok ((false, clean'), sf)) ->
  forall fuel kappa kappaMax par maxRow clean s sf,
    sweep_fails fuel kappa kappaMax par maxRow clean s sf ->
    exists kappaMax' clean',
      bkzLoop_sweep svp fuel kappa kappaMax par maxRow clean s
      = Ok ((false, kappaMax', clean'), sf).
Proof.
  intros Hsvp fuel kappa kM par maxRow clean s sf H.
  induction H as [fuel kappa kM par maxRow clean s sf Hk Hf
                 |fuel kappa kM par maxRow clean s c1 s1 sf Hk E _ IH].
  - destruct (Hsvp _ _ _ _ _ _ Hf) as (c' & E). exists kM, c'.
    apply bkzLoop_sweep_fails; assumption.
  - destruct IH as (kM' & c' & IH). exists kM', c'.
    cbn [bkzLoop_sweep]. apply Z.ltb_lt in Hk. rewrite Hk, (bind_ok _ E). cbn [negb].
    unfold after_block in IH. destruct (_ && _); exact IH.
Qed.

Lemma preproc_fails_sound :
  (forall i kappaMax clean s sf,
      tour_fails i kappaMax clean s sf ->
      exists kappaMax' clean', tour i kappaMax clean s = Ok ((false, kappaMax', clean'), sf)) ->
  forall fuel i par t0 kappaMax autoAbort clean s sf,
    preproc_fails fuel i par t0 kappaMax autoAbort clean s sf ->
    exists clean',
      svp_preproc_for tour fuel i par t0 kappaMax autoAbort clean s
      = Ok ((false, clean'), sf).
Proof.
  intros Htour fuel i par t0 kM aa clean s sf H.
  induction H as [fuel i par t0 kM aa clean s aa' s1 sf Eg Hf
                 |fuel i par t0 kM aa clean s aa' s1 kM' s2 sf Eg Et _ IH].
  - destruct (Htour _ _ _ _ _ Hf) as (kM' & c' & Et). exists clean.
    cbn [svp_preproc_for]. rewrite (bind_ok _ Eg), (bind_ok _ Et). reflexivity.
  - destruct IH as (c' & IH). exists c'.
    cbn [svp_preproc_for]. rewrite (bind_ok _ Eg), (bind_ok _ Et). exact IH.
Qed.

(** What holds of the final state holds whichever block it was. *)
Lemma sweep_fails_final (P : State -> Prop) :
  (forall kappa bs par clean s sf, svp_fails kappa bs par clean s sf -> P sf) ->
  forall fuel kappa kappaMax par maxRow clean s sf,
    sweep_fails fuel kappa kappaMax par maxRow clean s sf -> P sf.
Proof.
  intros Hsvp fuel kappa kM par maxRow clean s sf H.
  induction H; [eapply Hsvp; eassumption | assumption].
Qed.

Lemma preproc_fails_final (P : State -> Prop) :
  (forall i kappaMax clean s sf, tour_fails i kappaMax clean s sf -> P sf) ->
  forall fuel i par t0 kappaMax autoAbort clean s sf,
    preproc_fails fuel i par t0 kappaMax autoAbort clean s sf -> P sf.
Proof.
  intros Htour fuel i par t0 kM aa clean s sf H.
  induction H; [eapply Htour; eassumption | assumption].
Qed.

End Paths.

(** svpReduction (lines 75-160): the enumeration of this very block comes
    back empty (lines 110-118), or a block of a tour of its preprocessing
    (lines 88-108) is the one. *)
Fixpoint svp_fails (fuel : nat) (kappa blockSize : Z) (par : BKZParam.t) (clean : bool)
    (s sf : State) {struct fuel} : Prop :=
  match fuel with
  | O => False
  | S fuel' =>
    (exists c s2,
        before_enumerate fuel' kappa blockSize par clean s c s2
        /\ solCoord (svp_enumerate_state kappa blockSize par s2) = []
        /\ sf = setStatus_state RED_ENUM_FAILURE
                                (svp_enumerate_state kappa blockSize par s2))
    \/ (exists clean1 s1 preproc,
        svp_lll kappa blockSize par clean s = Ok (inr clean1, s1)
        /\ BKZParam.preprocessing par = Some preproc
        /\ (BKZParam.blockSize preproc <? blockSize) && (2 <? BKZParam.blockSize preproc)
           = true
        /\ preproc_fails
             (fun i kappaMax clean2 =>
                bkzLoop_with (svpReduction DEBUG fuel') fuel' i kappaMax preproc
                             kappa (kappa +i blockSize) clean2)
             (fun i kappaMax clean2 s sf =>
                sweep_fails (svpReduction DEBUG fuel') (svp_fails fuel') fuel' kappa
                            kappaMax preproc (kappa +i blockSize) clean2 s sf)
             fuel' 0 par (Z2d (fst (cputime (world s1)))) (numRows s1)
             (BKZAutoAbort.new (kappa +i blockSize) kappa) clean1
             (step_world C_cputime (snd (cputime (world s1))) s1) sf)
  end.

(** A tour of [bkzLoop]: one of its blocks is the one. *)
Definition tour_fails (fuel : nat) (kappaMax : Z) (par : BKZParam.t) (minRow maxRow : Z)
    (clean : bool) (s sf : State) : Prop :=
  sweep_fails (svpReduction DEBUG fuel) (svp_fails fuel) fuel minRow kappaMax par maxRow
              clean s sf.

(** The main loop of bkz (lines 222-235) entered at [iLoop]: the tour of
    this iteration is the one, or it returns true without ending the loop
    and a later tour is. *)
Inductive main_fails : nat -> Z -> Z -> BKZAutoAbort.t -> State -> State -> Prop :=
  | main_fails_here fuel iLoop kappaMax autoAbort s autoAbort' s1 sf :
      bkz_guards iLoop autoAbort s = Ok ((None, autoAbort'), s1) ->
      tour_fails fuel kappaMax (param s1) 0 (numRows s1) true s1 sf ->
      main_fails (S fuel) iLoop kappaMax autoAbort s sf
  | main_fails_later fuel iLoop kappaMax autoAbort s autoAbort' s1 kappaMax' s2 sf :
      bkz_guards iLoop autoAbort s = Ok ((None, autoAbort'), s1) ->
      bkzLoop DEBUG fuel iLoop kappaMax (param s1) 0 (numRows s1) true s1
      = Ok ((true, kappaMax', false), s2) ->
      (numRows s1 <=? BKZParam.blockSize (param s1)) = false ->
      main_fails fuel (Int32.incr iLoop) kappaMax' autoAbort' s2 sf ->
      main_fails (S fuel) iLoop kappaMax autoAbort s sf.

(** The state in which the failure was recorded: the enumeration of some
    block had just come back empty. *)
Definition enum_failed (sf : State) : Prop :=
  exists kappa blockSize par s2,
    solCoord (svp_enumerate_state kappa blockSize par s2) = []
    /\ sf = setStatus_state RED_ENUM_FAILURE (svp_enumerate_state kappa blockSize par s2).

Lemma enum_failure_printable (s : State) : status_printable RED_ENUM_FAILURE s.
Proof. right. cbn. lia. Qed.

Lemma svp_fails_direct fuel kappa bs par clean (s : State) c s2 :
  before_enumerate fuel kappa bs par clean s c s2 ->
  solCoord (svp_enumerate_state kappa bs par s2) = [] ->
  svpReduction DEBUG (S fuel) kappa bs par clean s
  = Ok ((false, c),
        setStatus_state RED_ENUM_FAILURE (svp_enumerate_state kappa bs par s2)).
Proof.
  intros Hpath Hsc. rewrite (svpReduction_insert _ _ _ _ _ _ _ _ Hpath).
  unfold svp_insert. rewrite bind_gets, Hsc.
  rewrite (bind_ok _ (setStatus_eq _ _ (enum_failure_printable _))). reflexivity.
Qed.

Lemma svp_fails_sound fuel :
  forall kappa bs par clean (s sf : State),
    svp_fails fuel kappa bs par clean s sf ->
    exists clean', svpReduction DEBUG fuel kappa bs par clean s = Ok ((false, clean'), sf).
Proof.
  induction fuel as [|fuel IH]; intros kappa bs par clean s sf H; [destruct H|].
  destruct H as [(c & s2 & Hpath & Hsc & ->)|(c1 & s1 & pre & E1 & Hpre & Hg & Hloop)].
  - exists c. apply svp_fails_direct; assumption.
  - destruct (preproc_fails_sound _ _
                (fun i kM c0 s0 sf0 Hs =>
                   match sweep_fails_sound _ _ IH _ _ _ _ _ _ _ _ Hs with
                   | ex_intro _ kM' (ex_intro _ c' E) =>
                     ex_intro _ kM' (ex_intro _ c'
                       (bkzLoop_with_fails _ _ _ _ _ _ _ _ _ _ _ _ E))
                   end)
                _ _ _ _ _ _ _ _ _ Hloop) as (c' & Eloop).
    exists c'. cbn [svpReduction]. rewrite (bind_ok _ E1).
    assert (Epre : svp_preproc
                     (fun preproc i kappaMax clean2 =>
                        bkzLoop_with (svpReduction DEBUG fuel) fuel i kappaMax preproc
                                     kappa (kappa +i bs) clean2)
                     fuel kappa bs par c1 s1 = Ok ((false, c'), sf)).
    { unfold svp_preproc. rewrite Hpre, Hg, bind_gets.
      rewrite (bind_ok _ (call_r_eq _ _ _)). exact Eloop. }
    rewrite (bind_ok _ Epre). reflexivity.
Qed.

Lemma svp_fails_final fuel :
  forall kappa bs par clean (s sf : State),
    svp_fails fuel kappa bs par clean s sf -> enum_failed sf.
Proof.
  induction fuel as [|fuel IH]; intros kappa bs par clean s sf H; [destruct H|].
  destruct H as [(c & s2 & Hpath & Hsc & ->)|(c1 & s1 & pre & E1 & Hpre & Hg & Hloop)].
  - exists kappa, bs, par, s2. split; [exact Hsc | reflexivity].
  - refine (preproc_fails_final _ _ enum_failed _ _ _ _ _ _ _ _ _ _ Hloop).
    intros i kM c0 s0 sf0 Hs.
    exact (sweep_fails_final _ _ enum_failed IH _ _ _ _ _ _ _ _ Hs).
Qed.

Lemma tour_fails_sound fuel loop kappaMax par minRow maxRow clean (s sf : State) :
  tour_fails fuel kappaMax par minRow maxRow clean s sf ->
  exists kappaMax' clean',
    bkzLoop DEBUG fuel loop kappaMax par minRow maxRow clean s
    = Ok ((false, kappaMax', clean'), sf).
Proof.
  intros H.
  destruct (sweep_fails_sound _ _ (svp_fails_sound fuel) _ _ _ _ _ _ _ _ H)
    as (kM' & c' & E).
  exists kM', c'. unfold bkzLoop. apply bkzLoop_with_fails. exact E.
Qed.

Lemma main_fails_sound fuel iLoop kappaMax autoAbort (s sf : State) :
  main_fails fuel iLoop kappaMax autoAbort s sf ->
  bkz_for DEBUG fuel iLoop kappaMax autoAbort s = Ok (None, sf).
Proof.
  intros H.
  induction H as [fuel iLoop kM aa s aa' s1 sf Eg Hf
                 |fuel iLoop kM aa s aa' s1 kM' s2 sf Eg Et Hn _ IH].
  - destruct (tour_fails_sound fuel iLoop _ _ _ _ _ _ _ Hf) as (kM' & c' & Et).
    eapply bkz_for_fails; eassumption.
  - cbn [bkz_for]. rewrite (bind_ok _ Eg), !bind_gets, (bind_ok _ Et).
    cbn [negb orb]. rewrite Hn. exact IH.
Qed.

Lemma main_fails_final fuel iLoop kappaMax autoAbort (s sf : State) :
  main_fails fuel iLoop kappaMax autoAbort s sf -> enum_failed sf.
Proof.
  intros H. induction H as [fuel iLoop kM aa s aa' s1 sf Eg Hf|]; [|assumption].
  exact (sweep_fails_final _ _ enum_failed (svp_fails_final fuel) _ _ _ _ _ _ _ _ Hf).
Qed.

(** What can be seen of it: the status, the empty solCoord, and a trace
    in which only messages follow the enumeration. *)
Definition failed_at_enumeration (sf : State) : Prop :=
  status sf = RED_ENUM_FAILURE
  /\ solCoord sf = []
  /\ exists before kappa last out,
      trace sf = before ++ C_enumerate kappa last :: out
      /\ (forall x, In x out -> exists m, x = C_cerr m).

Lemma enum_failed_state (sf : State) : enum_failed sf -> failed_at_enumeration sf.
Proof.
  intros (kappa & bs & par & s2 & Hsc & ->).
  split; [apply status_setStatus_state|]. split.
  - unfold setStatus_state. destruct (has_flag _ _); exact Hsc.
  - destruct (trace_setStatus_state RED_ENUM_FAILURE (svp_enumerate_state kappa bs par s2))
      as (out & Hout & Hcerr).
    exists (trace s2), kappa, (kappa +i bs), out. split; [|exact Hcerr].
    rewrite Hout. cbn [trace svp_enumerate_state]. rewrite <- app_assoc. reflexivity.
Qed.

(** C7. Whichever block it is, of a tour of the main loop or of a tour
    run by the preprocessing of another block, at any depth and after any
    number of blocks and tours that went well: when its enumeration comes
    back with solCoord empty, svpReduction sets the status to
    RED_ENUM_FAILURE and returns false, and so do the sweep and the tour
    it is in, the preprocessing loop and the svpReduction that run that
    tour, and in the end the main loop and bkz. All of them return in the
    state setStatus left: the status is RED_ENUM_FAILURE, no other block
    is started and no call follows that enumeration. *)
Theorem enum_failure_propagates :
  (forall fuel kappa blockSize par clean (s : State) c s2,
      before_enumerate fuel kappa blockSize par clean s c s2 ->
      solCoord (svp_enumerate_state kappa blockSize par s2) = [] ->
      svpReduction DEBUG (S fuel) kappa blockSize par clean s
      = Ok ((false, c),
            setStatus_state RED_ENUM_FAILURE (svp_enumerate_state kappa blockSize par s2))
      /\ failed_at_enumeration
           (setStatus_state RED_ENUM_FAILURE (svp_enumerate_state kappa blockSize par s2)))
  /\ (forall fuel kappa blockSize par clean (s sf : State),
      svp_fails fuel kappa blockSize par clean s sf ->
      (exists clean',
          svpReduction DEBUG fuel kappa blockSize par clean s = Ok ((false, clean'), sf))
      /\ failed_at_enumeration sf)
  /\ (forall fuel loop kappaMax par minRow maxRow clean (s sf : State),
      tour_fails fuel kappaMax par minRow maxRow clean s sf ->
      (exists kappaMax' clean',
          bkzLoop DEBUG fuel loop kappaMax par minRow maxRow clean s
          = Ok ((false, kappaMax', clean'), sf))
      /\ failed_at_enumeration sf)
  /\ (forall fuel autoAbort (s s1 sf : State),
      2 <= BKZParam.blockSize (param s) ->
      bkz_enter s = Ok (autoAbort, s1) ->
      main_fails fuel 0 0 autoAbort s1 sf ->
      bkz DEBUG fuel s = Ok (false, sf)
      /\ failed_at_enumeration sf).
Proof.
  split; [|split; [|split]].
  - intros fuel kappa bs par clean s c s2 Hpath Hsc.
    split; [apply svp_fails_direct; assumption|].
    apply enum_failed_state. exists kappa, bs, par, s2. split; [exact Hsc | reflexivity].
  - intros fuel kappa bs par clean s sf Hf.
    split; [apply svp_fails_sound; exact Hf|].
    apply enum_failed_state. exact (svp_fails_final _ _ _ _ _ _ _ Hf).
  - intros fuel loop kM par minRow maxRow clean s sf Hf.
    split; [apply tour_fails_sound; exact Hf|].
    apply enum_failed_state.
    exact (sweep_fails_final _ _ enum_failed (svp_fails_final fuel) _ _ _ _ _ _ _ _ Hf).
  - intros fuel aa s s1 sf Hbs Ee Hf. split.
    + exact (bkz_fails _ _ _ _ _ Hbs Ee (main_fails_sound _ _ _ _ _ _ Hf)).
    + apply enum_failed_state. exact (main_fails_final _ _ _ _ _ _ Hf).
Qed.

(** *** The two ways of inserting (towards C3 and C9) *)

(** The state after moving row [kappa + iVector] to [kappa] and
    size-reducing row [kappa]. *)
Definition row_moved (kappa iVector : Z) (s : State) : State :=
  let w1 := moveRow (kappa +i iVector) kappa (world s) in
  step_world (C_sizeReduction kappa (kappa +i 1))
             (snd (sizeReduction kappa (kappa +i 1) w1))
             (step_world (C_moveRow (kappa +i iVector) kappa) w1 s).

Lemma trace_row_moved kappa iV (s : State) :
  trace (row_moved kappa iV s)
  = trace s ++ [C_moveRow (kappa +i iV) kappa; C_sizeReduction kappa (kappa +i 1)].
Proof. unfold row_moved. cbn [trace step_world]. rewrite <- app_assoc. reflexivity. Qed.


(** *** The general case of the insertion, call by call *)

(** The state after [m.row_addmul(d, kappa + i, x)] for the pairs [(i, x)]
    of [l], in order. *)
Definition add_rows (d kappa : Z) (l : list (Z * FT)) (s : State) : State :=
  fold_left (fun s p => step_world (C_row_addmul d (kappa +i fst p) (snd p))
                                   (row_addmul d (kappa +i fst p) (snd p) (world s)) s)
            l s.

(** Lines 144-151: the new vector has been built in a fresh last row and
    moved to position [kappa]. *)
Definition general_combined (kappa bs : Z) (s : State) : State :=
  let d := m_d (world s) in
  let s1 := step_world C_createRow (createRow (world s)) s in
  let s2 := step_world (C_rowOpBegin d (d +i 1)) (rowOpBegin d (d +i 1) (world s1)) s1 in
  let s3 := add_rows d kappa (combine (seqZ (Z.to_nat bs) 0) (solCoord s)) s2 in
  let s4 := step_world (C_rowOpEnd d (d +i 1)) (rowOpEnd d (d +i 1) (world s3)) s3 in
  step_world (C_moveRow d kappa) (moveRow d kappa (world s4)) s4.

Lemma trace_add_rows d kappa l : forall s : State,
  trace (add_rows d kappa l s)
  = trace s ++ map (fun p => C_row_addmul d (kappa +i fst p) (snd p)) l.
Proof.
  unfold add_rows. induction l as [|p l IH]; intros s; cbn [fold_left map].
  - symmetry. apply app_nil_r.
  - rewrite IH. cbn [trace step_world]. rewrite <- app_assoc. reflexivity.
Qed.

Lemma solCoord_add_rows d kappa l : forall s : State,
  solCoord (add_rows d kappa l s) = solCoord s.
Proof.
  unfold add_rows. induction l as [|p l IH]; intros s; cbn [fold_left]; [reflexivity|].
  rewrite IH. reflexivity.
Qed.

Lemma skipn_nth_error {A} (l : list A) : forall n x,
  nth_error l n = Some x -> skipn n l = x :: skipn (S n) l.
Proof.
  induction l as [|h t IH]; intros [|n] x E; cbn in *; try discriminate.
  - inversion E. reflexivity.
  - apply IH. exact E.
Qed.

Lemma addmul_loop d kappa (sc : list FT) n :
  forall i (s : State),
    solCoord s = sc ->
    0 <= i ->
    i + Z.of_nat n <= Z.of_nat (List.length sc) ->
    for_n n i
      (fun i (_ : unit) =>
         bind (gets solCoord) (fun sc =>
         bind (vec_get sc i) (fun x =>
         call_w (C_row_addmul d (kappa +i i) x) (row_addmul d (kappa +i i) x))))
      tt s
    = Ok (tt, add_rows d kappa (combine (seqZ n i) (skipn (Z.to_nat i) sc)) s).
Proof.
  induction n as [|n IH]; intros i s Hsc Hi Hlen.
  - reflexivity.
  - cbn [for_n seqZ]. rewrite bind_assoc, bind_gets, Hsc, bind_assoc.
    destruct (nth_error sc (Z.to_nat i)) as [x|] eqn:Ex.
    2:{ apply nth_error_None in Ex. lia. }
    assert (Ev : vec_get sc i s = Ok (x, s)).
    { unfold vec_get. destruct (Z.ltb_spec i 0); [lia|]. rewrite Ex. reflexivity. }
    rewrite (bind_ok _ Ev). unfold bind at 1, call_w at 1.
    rewrite (skipn_nth_error _ _ _ Ex).
    rewrite IH; [|exact Hsc|lia|lia].
    replace (Z.to_nat (i + 1)) with (S (Z.to_nat i)) by lia. reflexivity.
Qed.

(** Lines 134-140, once the assertion of line 136 is passed: the outcome
    of the row case. *)
Definition row_case_run (kappa iVector : Z) (clean : bool) (s : State)
  : outcome (bool * bool * State) :=
  let r := sizeReduction kappa (kappa +i 1) (moveRow (kappa +i iVector) kappa (world s)) in
  if fst r then Ok ((true, false), row_moved kappa iVector s)
  else bind (setStatus (lll_status (snd r))) (fun b => ret (b, clean))
            (row_moved kappa iVector s).

Lemma svp_insert_row_run kappa iV clean (s : State) :
  DEBUG = false \/ (iV <> -1 /\ iV <> 0) ->
  svp_insert_row DEBUG kappa iV clean s = row_case_run kappa iV clean s.
Proof.
  intros Hd. unfold svp_insert_row.
  assert (Hchk : FPLLL_DEBUG_CHECK DEBUG (negb (iV =? -1) && negb (iV =? 0)) s = Ok (tt, s)).
  { destruct Hd as [Hd|[H1 H0]].
    - apply debug_check_release. exact Hd.
    - apply Z.eqb_neq in H1, H0. rewrite H1, H0. apply debug_check_true. }
  rewrite (bind_ok _ Hchk).
  unfold bind at 1, call_w at 1. rewrite (bind_ok _ (call_r_eq _ _ _)).
  cbn [world step_world]. unfold row_case_run. fold (row_moved kappa iV s).
  destruct (fst (sizeReduction kappa (kappa +i 1) (moveRow (kappa +i iV) kappa (world s))));
    cbn [negb]; [reflexivity|].
  rewrite bind_gets. reflexivity.
Qed.

Lemma svp_insert_row_debug kappa iV clean (s : State) :
  DEBUG = true -> iV = -1 \/ iV = 0 ->
  svp_insert_row DEBUG kappa iV clean s = Stuck AssertionFailed.
Proof.
  intros Hd HiV. unfold svp_insert_row, FPLLL_DEBUG_CHECK. rewrite Hd.
  destruct HiV as [-> | ->]; reflexivity.
Qed.

Lemma first_unit_none l :
  (forall x, In x l -> is_unit x = false) -> forall i, first_unit_from i l = -1.
Proof.
  induction l as [|x t IH]; intros H i; cbn [first_unit_from]; [reflexivity|].
  rewrite (H x (or_introl eq_refl)). apply IH. intros y Hy. apply H. right. exact Hy.
Qed.

(** What the row case leaves in the trace and the world. When the
    size-reduction fails, [setStatus] follows, and its verbose message is
    read from [RED_STATUS_STR]. *)
Lemma row_case_calls kappa iV clean (s : State) :
  (exists b c' s' out,
      row_case_run kappa iV clean s = Ok ((b, c'), s')
      /\ trace s' = trace s ++ [C_moveRow (kappa +i iV) kappa;
                                C_sizeReduction kappa (kappa +i 1)] ++ out
      /\ (forall x, In x out -> exists m, x = C_cerr m)
      /\ world s' = snd (sizeReduction kappa (kappa +i 1)
                                       (moveRow (kappa +i iV) kappa (world s))))
  \/ (exists s',
      trace s' = trace s ++ [C_moveRow (kappa +i iV) kappa;
                             C_sizeReduction kappa (kappa +i 1)]
      /\ world s' = snd (sizeReduction kappa (kappa +i 1)
                                       (moveRow (kappa +i iV) kappa (world s)))
      /\ fst (sizeReduction kappa (kappa +i 1) (moveRow (kappa +i iV) kappa (world s)))
         = false
      /\ has_flag (BKZParam.flags (param s')) BKZ_VERBOSE = true
      /\ ~ 0 <= lll_status (world s') < RED_STATUS_MAX
      /\ setStatus (lll_status (world s')) s' = Stuck OutOfBounds
      /\ row_case_run kappa iV clean s = Stuck OutOfBounds).
Proof.
  unfold row_case_run.
  destruct (fst (sizeReduction kappa (kappa +i 1) (moveRow (kappa +i iV) kappa (world s))))
    eqn:Eok.
  - left. exists true, false, (row_moved kappa iV s), [].
    split; [reflexivity|]. split; [apply trace_row_moved|].
    split; [intros x []|reflexivity].
  - destruct (setStatus_cases
                (lll_status (snd (sizeReduction kappa (kappa +i 1)
                                    (moveRow (kappa +i iV) kappa (world s)))))
                (row_moved kappa iV s)) as [E|(E & Hv & Hout)].
    + left.
      destruct (trace_setStatus_state
                  (lll_status (snd (sizeReduction kappa (kappa +i 1)
                                      (moveRow (kappa +i iV) kappa (world s)))))
                  (row_moved kappa iV s)) as (out & Hout & Hcerr).
      eexists _, _, _, out. split; [rewrite (bind_ok _ E); reflexivity|].
      split; [|split; [exact Hcerr|]].
      * rewrite Hout, trace_row_moved, <- app_assoc. reflexivity.
      * rewrite world_setStatus_state. reflexivity.
    + right. exists (row_moved kappa iV s).
      split; [apply trace_row_moved|]. split; [reflexivity|]. split; [reflexivity|].
      split; [exact Hv|]. split; [exact Hout|]. split; [exact E|].
      apply bind_stuck. exact E.
Qed.

(** Lines 142-157: the outcome of the general case, from the state in
    which the new vector stands at [kappa]. *)
Definition general_case_run (kappa blockSize : Z) (clean : bool) (s : State)
  : outcome (bool * bool * State) :=
  let d := m_d (world s) in
  let s5 := general_combined kappa blockSize s in
  let r := lll kappa kappa (kappa +i blockSize +i 1) (world s5) in
  let s6 := step_world (C_lll kappa kappa (kappa +i blockSize +i 1)) (snd r) s5 in
  if fst r then
    if DEBUG && negb (m_b_is_zero (snd r) (kappa +i blockSize))
    then Stuck AssertionFailed
    else Ok ((true, false),
             step_world C_removeLastRow
               (removeLastRow (moveRow (kappa +i blockSize) d (snd r)))
               (step_world (C_moveRow (kappa +i blockSize) d)
                           (moveRow (kappa +i blockSize) d (snd r)) s6))
  else bind (setStatus (lll_status (snd r))) (fun b => ret (b, clean)) s6.

Lemma svp_insert_general_run kappa bs clean (s : State) :
  bs <= Z.of_nat (List.length (solCoord s)) ->
  svp_insert_general DEBUG kappa bs clean s = general_case_run kappa bs clean s.
Proof.
  intros Hlen. unfold svp_insert_general, general_case_run. cbv zeta.
  rewrite bind_gets.
  unfold bind at 1, call_w at 1. unfold bind at 1, call_w at 1.
  unfold for_range. rewrite Z.sub_0_r.
  match goal with
  | |- bind (for_n _ _ _ _) _ ?s2 = _ =>
    rewrite (bind_ok _ (addmul_loop (m_d (world s)) kappa (solCoord s) (Z.to_nat bs) 0 s2
                          eq_refl (Z.le_refl 0) ltac:(lia)))
  end.
  unfold bind at 1, call_w at 1. unfold bind at 1, call_w at 1.
  rewrite (bind_ok _ (call_r_eq _ _ _)).
  unfold general_combined. cbv zeta. change (Z.to_nat 0) with O. cbn [skipn].
  destruct (fst (lll kappa kappa (kappa +i bs +i 1) _)); cbn [negb].
  - rewrite bind_gets. cbn [world step_world]. unfold FPLLL_DEBUG_CHECK.
    destruct DEBUG; cbn [andb]; [|reflexivity].
    destruct (m_b_is_zero _ _); reflexivity.
  - rewrite bind_gets. reflexivity.
Qed.

Lemma param_add_rows d kappa l : forall s : State,
  param (add_rows d kappa l s) = param s.
Proof.
  unfold add_rows. induction l as [|p l IH]; intros s; cbn [fold_left]; [reflexivity|].
  rewrite IH. reflexivity.
Qed.

Lemma param_general_combined kappa bs (s : State) c w :
  param (step_world c w (general_combined kappa bs s)) = param s.
Proof.
  unfold general_combined. cbn [param step_world]. rewrite param_add_rows. reflexivity.
Qed.

Lemma trace_general_combined kappa bs (s : State) :
  trace (general_combined kappa bs s)
  = trace s
    ++ [C_createRow; C_rowOpBegin (m_d (world s)) (m_d (world s) +i 1)]
    ++ map (fun p => C_row_addmul (m_d (world s)) (kappa +i fst p) (snd p))
           (combine (seqZ (Z.to_nat bs) 0) (solCoord s))
    ++ [C_rowOpEnd (m_d (world s)) (m_d (world s) +i 1);
        C_moveRow (m_d (world s)) kappa].
Proof.
  unfold general_combined. cbn [trace step_world]. rewrite trace_add_rows.
  cbn [trace step_world]. rewrite <- !app_assoc. reflexivity.
Qed.


(** C9. When the solution has passed the delta test and its single nonzero
    coordinate is neither 1 nor -1, iVector is still -1 and a release build
    calls m.moveRow(kappa - 1, kappa), then sizeReduction(kappa, kappa + 1):
    the row before the block is addressed, index -1 when kappa = 0. Only
    the assertion of a DEBUG build stops this. The release build returns
    after these two calls and the messages of setStatus, but for one case:
    the size-reduction fails, BKZ_VERBOSE is set and lllObj.status is not
    an index of RED_STATUS_STR, which setStatus then reads out of range. *)
Theorem lone_coordinate_not_unit fuel kappa blockSize par clean (s : State) c s2 s3 :
  before_enumerate fuel kappa blockSize par clean s c s2 ->
  s3 = svp_enumerate_state kappa blockSize par s2 ->
  Int32.min_signed < kappa <= Int32.max_signed ->
  blockSize <= Z.of_nat (List.length (solCoord s3)) ->
  blockSize <= Int32.max_signed ->
  FT_ge (maxDist s3) (deltaMaxDist s3) = false ->
  nonzero_count (block_coords blockSize (solCoord s3)) = 1 ->
  (forall x, In x (block_coords blockSize (solCoord s3)) ->
             is_zero x = false ->
             PrimFloat.eqb (get_d x) 1 = false /\ PrimFloat.eqb (get_d x) (-1) = false) ->
  (DEBUG = false ->
   (exists b c' s4 out,
     svpReduction DEBUG (S fuel) kappa blockSize par clean s = Ok ((b, c'), s4)
     /\ trace s4 = trace s3 ++ [C_moveRow (kappa - 1) kappa;
                                C_sizeReduction kappa (kappa +i 1)] ++ out
     /\ (forall x, In x out -> exists m, x = C_cerr m)
     /\ world s4 = snd (sizeReduction kappa (kappa +i 1)
                                      (moveRow (kappa - 1) kappa (world s3))))
   \/ (exists s4,
       trace s4 = trace s3 ++ [C_moveRow (kappa - 1) kappa;
                               C_sizeReduction kappa (kappa +i 1)]
       /\ world s4 = snd (sizeReduction kappa (kappa +i 1)
                                        (moveRow (kappa - 1) kappa (world s3)))
       /\ fst (sizeReduction kappa (kappa +i 1) (moveRow (kappa - 1) kappa (world s3)))
          = false
       /\ has_flag (BKZParam.flags (param s4)) BKZ_VERBOSE = true
       /\ ~ 0 <= lll_status (world s4) < RED_STATUS_MAX
       /\ setStatus (lll_status (world s4)) s4 = Stuck OutOfBounds
       /\ svpReduction DEBUG (S fuel) kappa blockSize par clean s = Stuck OutOfBounds))
  /\ (DEBUG = true ->
      svpReduction DEBUG (S fuel) kappa blockSize par clean s = Stuck AssertionFailed).
Proof.
  intros Hpath Hs3 Hk Hlen Hmax Hge Hnz Hunit.
  assert (HiV : first_unit_from 0 (block_coords blockSize (solCoord s3)) = -1).
  { apply first_unit_none. intros x Hx. unfold is_unit.
    destruct (is_zero x) eqn:Ez; [reflexivity|].
    destruct (Hunit x Hx Ez) as [-> ->]. reflexivity. }
  assert (Hne : solCoord s3 <> []).
  { intros E. rewrite E in Hnz. unfold block_coords in Hnz.
    rewrite firstn_nil in Hnz. discriminate. }
  assert (Hpos : 0 < nonzero_count (block_coords blockSize (solCoord s3))) by lia.
  assert (Hkm : kappa +i -1 = kappa - 1).
  { apply Int32.add_exact. unfold Int32.in_range, Int32.min_signed, Int32.max_signed in *.
    lia. }
  rewrite (svpReduction_insert _ _ _ _ _ _ _ _ Hpath), <- Hs3.
  rewrite (svp_insert_decide _ _ _ _ Hne Hlen Hmax (or_intror Hpos)), Hge, Hnz, HiV.
  cbn [Z.eqb Pos.eqb]. split.
  - intros Hd. rewrite (svp_insert_row_run _ _ _ _ (or_introl Hd)).
    rewrite <- Hkm. apply row_case_calls.
  - intros Hd. apply svp_insert_row_debug; [exact Hd | left; reflexivity].
Qed.

(** *** The budget caps (towards C1) *)

(** The calls that reduce: on the LLL object, the enumerator, and the rows
    of the basis. *)
Definition is_reduction_call (c : @Call FT) : bool :=
  match c with
  | C_createRow | C_removeLastRow | C_moveRow _ _ | C_rowOpBegin _ _
  | C_rowOpEnd _ _ | C_row_addmul _ _ _ | C_lll _ _ _ | C_sizeReduction _ _
  | C_enumerate _ _ => true
  | _ => false
  end.

Definition reduction_calls (l : list (@Call FT)) : list (@Call FT) :=
  filter is_reduction_call l.

Definition no_reduction (s s' : State) : Prop :=
  reduction_calls (trace s') = reduction_calls (trace s).

Definition same_param (s s' : State) : Prop := param s' = param s.

#[local] Instance no_reduction_pre : Preorder no_reduction.
Proof. split; unfold no_reduction; intros; congruence. Qed.

#[local] Instance same_param_pre : Preorder same_param.
Proof. split; unfold same_param; intros; congruence. Qed.

Ltac side_no_reduction :=
  unfold no_reduction, reduction_calls;
  cbn [trace step_world set_status set_maxDist set_deltaMaxDist set_cputimeStart
       set_solCoord];
  first [ reflexivity
        | rewrite filter_app; cbn [filter is_reduction_call]; apply app_nil_r ].

Lemma dumpGSO_no_reduction f p a : respects no_reduction (dumpGSO f p a).
Proof. unfold dumpGSO. respects_with side_no_reduction. Qed.

Lemma setStatus_no_reduction st : respects no_reduction (setStatus st).
Proof. unfold setStatus. respects_with side_no_reduction. Qed.

#[local] Hint Resolve dumpGSO_no_reduction setStatus_no_reduction : frames.

Lemma bkz_enter_no_reduction : respects no_reduction bkz_enter.
Proof. unfold bkz_enter, bkz_prelude. respects_with side_no_reduction. Qed.

Lemma bkz_epilogue_no_reduction st : respects no_reduction (bkz_epilogue st).
Proof. unfold bkz_epilogue. respects_with side_no_reduction. Qed.

Lemma dumpGSO_same_param f p a : respects same_param (dumpGSO f p a).
Proof. unfold dumpGSO. respects_with ltac:(reflexivity). Qed.

#[local] Hint Resolve dumpGSO_same_param : frames.

Lemma bkz_enter_same_param : respects same_param bkz_enter.
Proof. unfold bkz_enter, bkz_prelude. respects_with ltac:(reflexivity). Qed.

Lemma total_bind_all {A B} (c : M A) (k : A -> M B) (s : State) :
  total c s -> (forall a s', total (k a) s') -> total (bind c k) s.
Proof. intros Hc Hk. apply (total_bind c k s (fun _ _ => True)); auto.
       unfold wlp. destruct (c s) as [[a s1]|]; exact I. Qed.

Lemma total_when b (c : M unit) (s : State) : total c s -> total (when b c) s.
Proof. intros H. destruct b; [exact H | apply total_ret]. Qed.

Lemma total_dumpGSO f p a (s : State) : total (dumpGSO f p a) s.
Proof.
  unfold dumpGSO. apply total_bind_all; [apply total_gets|]. intros n s1.
  apply total_bind_all; [|intros; apply total_emit].
  unfold for_range.
  apply (@total_for_n _ (fun _ => True)); [exact I|].
  intros j acc s2 _ _. split.
  - apply total_bind_all; [apply total_call_w|]. intros _ s3.
    apply total_bind_all; [apply total_gets|]. intros w s4.
    destruct (getRExp j j w). apply total_ret.
  - unfold wlp. destruct (bind _ _ s2) as [[? ?]|]; exact I.
Qed.

Lemma total_bkz_prelude (s : State) : total bkz_prelude s.
Proof.
  unfold bkz_prelude.
  repeat first [ apply total_ret | apply total_gets | apply total_call_w
               | apply total_call_r | apply total_emit | apply total_modify
               | apply total_when
               | apply total_bind_all; [|intros ? ?] ].
Qed.

Lemma total_bkz_enter (s : State) : total bkz_enter s.
Proof.
  unfold bkz_enter.
  apply total_bind_all; [apply total_gets|]. intros par s1.
  apply total_bind_all; [apply total_when; apply total_dumpGSO|]. intros _ s2.
  apply total_bkz_prelude.
Qed.

Lemma bkz_epilogue_returns st (s : State) :
  0 <= st < RED_STATUS_MAX ->
  exists s', bkz_epilogue st s = Ok (st =? RED_SUCCESS, s') /\ status s' = st.
Proof.
  intros Hst. unfold bkz_epilogue. rewrite bind_gets.
  assert (Ht : total (when (has_flag (BKZParam.flags (param s)) BKZ_DUMP_GSO)
                       (bind (call_r C_cputime cputime) (fun t =>
                        bind (gets cputimeStart) (fun t0 =>
                        dumpGSO (BKZParam.dumpGSOFilename (param s))
                                (DumpOutput ((Z2d t - t0) * d_milli)%float) true)))) s).
  { apply total_when. apply total_bind_all; [apply total_call_r|]. intros t s1.
    apply total_bind_all; [apply total_gets|]. intros t0 s2. apply total_dumpGSO. }
  destruct Ht as ([] & s1 & E).
  rewrite (bind_ok _ E), (setStatus_eq _ _ (printable_table _ _ Hst)).
  eexists. split; [reflexivity | apply status_setStatus_state].
Qed.

Lemma bkz_guards_loops iLoop aa (s : State) :
  has_flag (BKZParam.flags (param s)) BKZ_MAX_LOOPS = true ->
  BKZParam.maxLoops (param s) <= iLoop ->
  bkz_guards iLoop aa s = Ok ((Some (RED_BKZ_LOOPS_LIMIT : Z), aa), s).
Proof.
  intros Hf Hm. unfold bkz_guards. rewrite bind_gets, Hf.
  apply Z.leb_le in Hm. rewrite Hm. reflexivity.
Qed.

Lemma bkz_guards_time iLoop aa (s : State) :
  has_flag (BKZParam.flags (param s)) BKZ_MAX_LOOPS
  && (BKZParam.maxLoops (param s) <=? iLoop) = false ->
  has_flag (BKZParam.flags (param s)) BKZ_MAX_TIME = true ->
  d_ge ((Z2d (fst (cputime (world s))) - cputimeStart s) * d_milli)%float
       (BKZParam.maxTime (param s)) = true ->
  bkz_guards iLoop aa s
  = Ok ((Some (RED_BKZ_TIME_LIMIT : Z), aa),
        step_world C_cputime (snd (cputime (world s))) s).
Proof.
  intros Hl Hf Ht. unfold bkz_guards. rewrite bind_gets, Hl, Hf.
  unfold bind, call_r, gets. destruct (cputime (world s)) as [t w'].
  cbn [fst snd cputimeStart step_world param] in *. rewrite Ht. reflexivity.
Qed.

(** C1, amended. When the main loop of bkz finds a budget cap exhausted
    (BKZ_MAX_LOOPS set and iLoop >= maxLoops, or else BKZ_MAX_TIME set and
    the elapsed time >= maxTime) it leaves with the matching status
    (RED_BKZ_LOOPS_LIMIT or RED_BKZ_TIME_LIMIT); bkz records that status
    and returns false, the value of status == RED_SUCCESS. In particular,
    with a block size of at least 2, BKZ_MAX_LOOPS set and maxLoops <= 0,
    bkz returns false with status RED_BKZ_LOOPS_LIMIT and without a single
    call on the LLL object, the enumerator or the rows of the basis. *)
Theorem budget_exhaustion :
  (forall fuel iLoop kappaMax autoAbort (s : State),
      has_flag (BKZParam.flags (param s)) BKZ_MAX_LOOPS = true ->
      BKZParam.maxLoops (param s) <= iLoop ->
      bkz_for DEBUG (S fuel) iLoop kappaMax autoAbort s
      = Ok (Some (RED_BKZ_LOOPS_LIMIT : Z), s))
  /\ (forall fuel iLoop kappaMax autoAbort (s : State),
      has_flag (BKZParam.flags (param s)) BKZ_MAX_LOOPS
      && (BKZParam.maxLoops (param s) <=? iLoop) = false ->
      has_flag (BKZParam.flags (param s)) BKZ_MAX_TIME = true ->
      d_ge ((Z2d (fst (cputime (world s))) - cputimeStart s) * d_milli)%float
           (BKZParam.maxTime (param s)) = true ->
      bkz_for DEBUG (S fuel) iLoop kappaMax autoAbort s
      = Ok (Some (RED_BKZ_TIME_LIMIT : Z),
            step_world C_cputime (snd (cputime (world s))) s))
  /\ (forall fuel autoAbort finalStatus (s s1 s2 : State),
      2 <= BKZParam.blockSize (param s) ->
      bkz_enter s = Ok (autoAbort, s1) ->
      bkz_for DEBUG fuel 0 0 autoAbort s1 = Ok (Some finalStatus, s2) ->
      finalStatus = RED_BKZ_LOOPS_LIMIT \/ finalStatus = RED_BKZ_TIME_LIMIT ->
      exists s', bkz DEBUG fuel s = Ok (false, s') /\ status s' = finalStatus)
  /\ (forall fuel (s : State),
      2 <= BKZParam.blockSize (param s) ->
      has_flag (BKZParam.flags (param s)) BKZ_MAX_LOOPS = true ->
      BKZParam.maxLoops (param s) <= 0 ->
      exists s',
        bkz DEBUG (S fuel) s = Ok (false, s')
        /\ status s' = RED_BKZ_LOOPS_LIMIT
        /\ reduction_calls (trace s') = reduction_calls (trace s)).
Proof.
  assert (Hloops : forall fuel iLoop kM aa (s : State),
             has_flag (BKZParam.flags (param s)) BKZ_MAX_LOOPS = true ->
             BKZParam.maxLoops (param s) <= iLoop ->
             bkz_for DEBUG (S fuel) iLoop kM aa s = Ok (Some (RED_BKZ_LOOPS_LIMIT : Z), s)).
  { intros fuel iLoop kM aa s Hf Hm. cbn [bkz_for].
    rewrite (bind_ok _ (bkz_guards_loops iLoop aa s Hf Hm)). reflexivity. }
  assert (Hexit : forall fuel aa st (s s1 s2 : State),
             2 <= BKZParam.blockSize (param s) ->
             bkz_enter s = Ok (aa, s1) ->
             bkz_for DEBUG fuel 0 0 aa s1 = Ok (Some st, s2) ->
             st = RED_BKZ_LOOPS_LIMIT \/ st = RED_BKZ_TIME_LIMIT ->
             exists s', bkz DEBUG fuel s = Ok (false, s') /\ status s' = st
                        /\ bkz_epilogue st s2 = Ok (false, s')).
  { intros fuel aa st s s1 s2 Hbs Ee Ef Hst.
    destruct (bkz_epilogue_returns st s2) as (s' & E & Hs').
    { destruct Hst as [-> | ->]; cbn; lia. }
    assert (Hb : (st =? RED_SUCCESS) = false) by (destruct Hst as [-> | ->]; reflexivity).
    rewrite Hb in E. exists s'.
    rewrite (bkz_unfold _ _ Hbs), (bind_ok _ Ee), (bind_ok _ Ef). auto. }
  split; [exact Hloops|]. split; [|split].
  - intros fuel iLoop kM aa s Hl Hf Ht. cbn [bkz_for].
    rewrite (bind_ok _ (bkz_guards_time iLoop aa s Hl Hf Ht)). reflexivity.
  - intros fuel aa st s s1 s2 Hbs Ee Ef Hst.
    destruct (Hexit fuel aa st s s1 s2 Hbs Ee Ef Hst) as (s' & E & Hs' & _).
    exists s'. auto.
  - intros fuel s Hbs Hf Hm.
    destruct (total_bkz_enter s) as (aa & s1 & Ee).
    pose proof (wlp_elim _ _ _ _ _ (bkz_enter_same_param s) Ee) as Hp.
    pose proof (wlp_elim _ _ _ _ _ (bkz_enter_no_reduction s) Ee) as Hr1.
    cbn beta in Hp, Hr1. unfold same_param in Hp.
    assert (Ef : bkz_for DEBUG (S fuel) 0 0 aa s1 = Ok (Some (RED_BKZ_LOOPS_LIMIT : Z), s1)).
    { apply Hloops; rewrite Hp; assumption. }
    destruct (Hexit (S fuel) aa RED_BKZ_LOOPS_LIMIT s s1 s1 Hbs Ee Ef (or_introl eq_refl))
      as (s' & E & Hs' & Eep).
    exists s'. split; [exact E|]. split; [exact Hs'|].
    pose proof (wlp_elim _ _ _ _ _ (bkz_epilogue_no_reduction _ s1) Eep) as Hr2.
    cbn beta in Hr2. unfold no_reduction in *. congruence.
Qed.

(** ** Further facts

    *** What no step of the driver touches *)

(** The calls the driver makes, by shape: the row-operation bracket is one
    row wide, a size-reduction is of one row, an LLL starts at its first
    row of size-reduction or at row 0, and a dump appends to the file
    unless it is the dump of the input. *)
Inductive driver_call : @Call FT -> Prop :=
  | dc_updateGSORow i : driver_call (C_updateGSORow i)
  | dc_discoverAllRows : driver_call C_discoverAllRows
  | dc_createRow : driver_call C_createRow
  | dc_removeLastRow : driver_call C_removeLastRow
  | dc_moveRow src dst : driver_call (C_moveRow src dst)
  | dc_rowOpBegin d : driver_call (C_rowOpBegin d (d +i 1))
  | dc_rowOpEnd d : driver_call (C_rowOpEnd d (d +i 1))
  | dc_row_addmul dst src x : driver_call (C_row_addmul dst src x)
  | dc_lll_bounded kappa last : driver_call (C_lll kappa kappa last)
  | dc_lll_full kappa last : driver_call (C_lll 0 kappa last)
  | dc_sizeReduction kappa : driver_call (C_sizeReduction kappa (kappa +i 1))
  | dc_enumerate first last : driver_call (C_enumerate first last)
  | dc_cputime : driver_call C_cputime
  | dc_cerr msg : driver_call (C_cerr msg)
  | dc_dump_input f profile : driver_call (C_dump f false DumpInput profile)
  | dc_dump_loop f loop t profile :
      driver_call (C_dump f true (DumpEndOfLoop loop t) profile)
  | dc_dump_output f t profile : driver_call (C_dump f true (DumpOutput t) profile).

Section Frame.

(** A relation that every call of one of these shapes and every assignment
    to [status], [maxDist], [deltaMaxDist], [solCoord] and [cputimeStart]
    respects is respected by the whole driver. *)
Variable R : State -> State -> Prop.
Context {HR : Preorder R}.
Hypothesis R_call : forall c w s, driver_call c -> R s (step_world c w s).
Hypothesis R_status : forall v s, R s (set_status v s).
Hypothesis R_maxDist : forall v s, R s (set_maxDist v s).
Hypothesis R_deltaMaxDist : forall v s, R s (set_deltaMaxDist v s).
Hypothesis R_solCoord : forall v s, R s (set_solCoord v s).
Hypothesis R_cputimeStart : forall v s, R s (set_cputimeStart v s).

Ltac side_frame :=
  first [ apply R_status | apply R_maxDist | apply R_deltaMaxDist | apply R_solCoord
        | apply R_cputimeStart
        | apply R_call; constructor ].

Lemma frame_getCurrentSlope a b : respects R (getCurrentSlope a b).
Proof. unfold getCurrentSlope. respects_with side_frame. Qed.

Lemma frame_testAbort sc mx a : respects R (testAbort sc mx a).
Proof.
  unfold testAbort. apply respects_bind; try exact _.
  - apply frame_getCurrentSlope.
  - intros. apply respects_ret. exact _.
Qed.

Lemma frame_dumpGSO f p a :
  (forall profile, driver_call (C_dump f a p profile)) ->
  respects R (dumpGSO f p a).
Proof.
  intros Hd. unfold dumpGSO.
  apply respects_bind; try exact _; [apply respects_gets; exact _|]. intros n.
  apply respects_bind; try exact _.
  - respects_with side_frame.
  - intros profile. apply respects_emit. intros s. apply R_call. apply Hd.
Qed.

Lemma frame_setStatus st : respects R (setStatus st).
Proof. unfold setStatus. respects_with side_frame. Qed.

Lemma frame_classify bs : respects R (classify bs).
Proof. unfold classify. respects_with side_frame. Qed.

Lemma frame_svp_enumerate kappa bs par : respects R (svp_enumerate kappa bs par).
Proof. unfold svp_enumerate. respects_with side_frame. Qed.

Lemma frame_svp_lll kappa bs par clean : respects R (svp_lll kappa bs par clean).
Proof.
  unfold svp_lll. destruct (has_flag _ _).
  - apply respects_bind; try exact _.
    + apply respects_call_r. intros s. apply R_call. constructor.
    + intros ok. destruct ok; cbn [negb].
      * respects_with side_frame.
      * apply respects_bind; try exact _; [apply respects_gets; exact _|]. intros st.
        apply respects_bind; try exact _; [apply frame_setStatus|].
        intros b. apply respects_ret. exact _.
  - apply respects_bind; try exact _.
    + apply respects_call_r. intros s. apply R_call. constructor.
    + intros ok. destruct ok; cbn [negb].
      * respects_with side_frame.
      * apply respects_bind; try exact _; [apply respects_gets; exact _|]. intros st.
        apply respects_bind; try exact _; [apply frame_setStatus|].
        intros b. apply respects_ret. exact _.
Qed.

Lemma frame_svp_insert_row kappa iV clean :
  respects R (svp_insert_row DEBUG kappa iV clean).
Proof.
  unfold svp_insert_row.
  apply respects_bind; try exact _; [apply respects_debug_check; exact _|]. intros _.
  apply respects_bind; try exact _.
  { apply respects_call_w. intros s. apply R_call. constructor. }
  intros _. apply respects_bind; try exact _.
  { apply respects_call_r. intros s. apply R_call. constructor. }
  intros ok. destruct ok; cbn [negb]; [apply respects_ret; exact _|].
  apply respects_bind; try exact _; [apply respects_gets; exact _|]. intros st.
  apply respects_bind; try exact _; [apply frame_setStatus|].
  intros b. apply respects_ret. exact _.
Qed.

Lemma frame_svp_insert_general kappa bs clean :
  respects R (svp_insert_general DEBUG kappa bs clean).
Proof.
  unfold svp_insert_general.
  apply respects_bind; try exact _; [apply respects_gets; exact _|]. intros d.
  apply respects_bind; try exact _.
  { apply respects_call_w. intros s. apply R_call. constructor. }
  intros _. apply respects_bind; try exact _.
  { apply respects_call_w. intros s. apply R_call. constructor. }
  intros _. apply respects_bind; try exact _.
  { respects_with side_frame. }
  intros _. apply respects_bind; try exact _.
  { apply respects_call_w. intros s. apply R_call. constructor. }
  intros _. apply respects_bind; try exact _.
  { apply respects_call_w. intros s. apply R_call. constructor. }
  intros _. apply respects_bind; try exact _.
  { apply respects_call_r. intros s. apply R_call. constructor. }
  intros ok. destruct ok; cbn [negb].
  - respects_with side_frame.
  - apply respects_bind; try exact _; [apply respects_gets; exact _|]. intros st.
    apply respects_bind; try exact _; [apply frame_setStatus|].
    intros b. apply respects_ret. exact _.
Qed.

Lemma frame_svp_insert kappa bs clean : respects R (svp_insert DEBUG kappa bs clean).
Proof.
  unfold svp_insert.
  apply respects_bind; try exact _; [apply respects_gets; exact _|]. intros [|x sc].
  - apply respects_bind; try exact _; [apply frame_setStatus|].
    intros b. apply respects_ret. exact _.
  - apply respects_bind; try exact _; [apply frame_classify|]. intros [nz iV].
    apply respects_bind; try exact _; [apply respects_debug_check; exact _|]. intros _.
    apply respects_bind; try exact _; [apply respects_gets; exact _|]. intros md.
    apply respects_bind; try exact _; [apply respects_gets; exact _|]. intros dmd.
    destruct (FT_ge md dmd); [apply respects_ret; exact _|].
    destruct (nz =? 1); [apply frame_svp_insert_row | apply frame_svp_insert_general].
Qed.

Lemma frame_bkzLoop_sweep svp :
  (forall kappa bs par clean, respects R (svp kappa bs par clean)) ->
  forall fuel kappa kM par maxRow clean,
    respects R (bkzLoop_sweep svp fuel kappa kM par maxRow clean).
Proof.
  intros Hsvp fuel. induction fuel as [|fuel IH]; intros kappa kM par maxRow clean.
  - apply respects_stuck.
  - cbn [bkzLoop_sweep]. destruct (kappa <? maxRow -i 1); [|apply respects_ret; exact _].
    apply respects_bind; try exact _; [apply Hsvp|]. intros [ok clean'].
    destruct ok; cbn [negb]; [|apply respects_ret; exact _].
    destruct (_ && _); [|apply IH].
    apply respects_bind; try exact _; [|intros _; apply IH].
    apply respects_emit. intros s. apply R_call. constructor.
Qed.

Lemma frame_bkzLoop_report loop par minRow maxRow :
  respects R (bkzLoop_report loop par minRow maxRow).
Proof.
  unfold bkzLoop_report.
  apply respects_bind; try exact _; [|intros _]; apply respects_when; try exact _.
  - apply respects_bind; try exact _; [apply respects_gets; exact _|]. intros w.
    destruct (getRExp minRow minRow w) as [r0 expo].
    apply respects_bind; try exact _.
    { apply respects_call_r. intros s. apply R_call. constructor. }
    intros t. apply respects_bind; try exact _; [apply respects_gets; exact _|]. intros t0.
    apply respects_bind; try exact _.
    { apply respects_emit. intros s. apply R_call. constructor. }
    intros _. apply respects_bind; try exact _; [apply frame_getCurrentSlope|].
    intros sl. apply respects_emit. intros s. apply R_call. constructor.
  - apply respects_bind; try exact _.
    { apply respects_call_r. intros s. apply R_call. constructor. }
    intros t. apply respects_bind; try exact _; [apply respects_gets; exact _|]. intros t0.
    apply frame_dumpGSO. intros profile. constructor.
Qed.

Lemma frame_bkzLoop_with svp :
  (forall kappa bs par clean, respects R (svp kappa bs par clean)) ->
  forall fuel loop kM par minRow maxRow clean,
    respects R (bkzLoop_with svp fuel loop kM par minRow maxRow clean).
Proof.
  intros Hsvp fuel loop kM par minRow maxRow clean. unfold bkzLoop_with.
  apply respects_bind; try exact _; [apply frame_bkzLoop_sweep; exact Hsvp|].
  intros [[ok kM'] clean']. destruct ok; cbn [negb]; [|apply respects_ret; exact _].
  apply respects_bind; try exact _; [apply frame_bkzLoop_report|].
  intros _. apply respects_ret. exact _.
Qed.

Lemma frame_svp_preproc_guards i par t0 aa :
  respects R (svp_preproc_guards i par t0 aa).
Proof.
  unfold svp_preproc_guards. destruct (_ && _); [apply respects_ret; exact _|].
  apply respects_bind; try exact _.
  - destruct (has_flag _ _); [|apply respects_ret; exact _].
    apply respects_bind; try exact _.
    { apply respects_call_r. intros s. apply R_call. constructor. }
    intros t. apply respects_ret. exact _.
  - intros late. destruct late; [apply respects_ret; exact _ | apply frame_testAbort].
Qed.

Lemma frame_svp_preproc_for tour :
  (forall i kM c, respects R (tour i kM c)) ->
  forall fuel i par t0 kM aa clean,
    respects R (svp_preproc_for tour fuel i par t0 kM aa clean).
Proof.
  intros Htour fuel. induction fuel as [|fuel IH]; intros i par t0 kM aa clean.
  - apply respects_stuck.
  - cbn [svp_preproc_for].
    apply respects_bind; try exact _; [apply frame_svp_preproc_guards|].
    intros [stop aa']. destruct stop; [apply respects_ret; exact _|].
    apply respects_bind; try exact _; [apply Htour|]. intros [[ok kM'] clean2].
    destruct ok; cbn [negb]; [|apply respects_ret; exact _].
    destruct clean2; [apply respects_ret; exact _ | apply IH].
Qed.

Lemma frame_svp_preproc tour :
  (forall preproc i kM c, respects R (tour preproc i kM c)) ->
  forall fuel kappa bs par clean, respects R (svp_preproc tour fuel kappa bs par clean).
Proof.
  intros Htour fuel kappa bs par clean. unfold svp_preproc.
  destruct (BKZParam.preprocessing par) as [preproc|]; [|apply respects_ret; exact _].
  destruct (_ && _); [|apply respects_ret; exact _].
  apply respects_bind; try exact _; [apply respects_gets; exact _|]. intros kM.
  apply respects_bind; try exact _.
  { apply respects_call_r. intros s. apply R_call. constructor. }
  intros t. apply frame_svp_preproc_for. apply Htour.
Qed.

Lemma frame_svpReduction fuel :
  forall kappa bs par clean, respects R (svpReduction DEBUG fuel kappa bs par clean).
Proof.
  induction fuel as [|fuel IH]; intros kappa bs par clean.
  - apply respects_stuck.
  - cbn [svpReduction].
    apply respects_bind; try exact _; [apply frame_svp_lll|].
    intros [b|clean1]; [apply respects_ret; exact _|].
    apply respects_bind; try exact _.
    { apply frame_svp_preproc. intros preproc i kM c.
      apply frame_bkzLoop_with. exact IH. }
    intros [go clean2]. destruct go; cbn [negb]; [|apply respects_ret; exact _].
    apply respects_bind; try exact _; [apply frame_svp_enumerate|].
    intros _. apply frame_svp_insert.
Qed.

Lemma frame_bkzLoop fuel loop kM par minRow maxRow clean :
  respects R (bkzLoop DEBUG fuel loop kM par minRow maxRow clean).
Proof. apply frame_bkzLoop_with. apply frame_svpReduction. Qed.

Lemma frame_bkz_guards iLoop aa : respects R (bkz_guards iLoop aa).
Proof.
  unfold bkz_guards.
  apply respects_bind; try exact _; [apply respects_gets; exact _|]. intros par.
  destruct (_ && _); [apply respects_ret; exact _|].
  apply respects_bind; try exact _.
  - destruct (has_flag _ _); [|apply respects_ret; exact _].
    apply respects_bind; try exact _.
    { apply respects_call_r. intros s. apply R_call. constructor. }
    intros t. respects_with side_frame.
  - intros late. destruct late; [apply respects_ret; exact _|].
    destruct (has_flag _ _); [|apply respects_ret; exact _].
    apply respects_bind; try exact _; [apply frame_testAbort|].
    intros [abort aa']. apply respects_ret. exact _.
Qed.

Lemma frame_bkz_for fuel :
  forall iLoop kM aa, respects R (bkz_for DEBUG fuel iLoop kM aa).
Proof.
  induction fuel as [|fuel IH]; intros iLoop kM aa.
  - apply respects_stuck.
  - cbn [bkz_for].
    apply respects_bind; try exact _; [apply frame_bkz_guards|].
    intros [[st|] aa']; [apply respects_ret; exact _|].
    apply respects_bind; try exact _; [apply respects_gets; exact _|]. intros par.
    apply respects_bind; try exact _; [apply respects_gets; exact _|]. intros n.
    apply respects_bind; try exact _; [apply frame_bkzLoop|].
    intros [[ok kM'] clean]. destruct ok; cbn [negb]; [|apply respects_ret; exact _].
    destruct (_ || _); [apply respects_ret; exact _ | apply IH].
Qed.

Lemma frame_bkz_prelude : respects R bkz_prelude.
Proof.
  unfold bkz_prelude.
  apply respects_bind; try exact _; [apply respects_gets; exact _|]. intros par.
  apply respects_bind; try exact _; [apply respects_gets; exact _|]. intros n.
  apply respects_bind; try exact _.
  { apply respects_when; try exact _. apply respects_emit. intros s.
    apply R_call. constructor. }
  intros _. apply respects_bind; try exact _.
  { apply respects_call_r. intros s. apply R_call. constructor. }
  intros t. apply respects_bind; try exact _.
  { apply respects_modify. intros s. apply R_cputimeStart. }
  intros _. apply respects_bind; try exact _.
  { apply respects_call_w. intros s. apply R_call. constructor. }
  intros _. apply respects_ret. exact _.
Qed.

Lemma frame_bkz_epilogue st : respects R (bkz_epilogue st).
Proof.
  unfold bkz_epilogue.
  apply respects_bind; try exact _; [apply respects_gets; exact _|]. intros par.
  apply respects_bind; try exact _; [|intros _; apply frame_setStatus].
  apply respects_when; try exact _.
  apply respects_bind; try exact _.
  { apply respects_call_r. intros s. apply R_call. constructor. }
  intros t. apply respects_bind; try exact _; [apply respects_gets; exact _|]. intros t0.
  apply frame_dumpGSO. intros profile. constructor.
Qed.

Lemma frame_bkz fuel : respects R (bkz DEBUG fuel).
Proof.
  unfold bkz.
  apply respects_bind; try exact _; [apply respects_gets; exact _|]. intros par.
  apply respects_bind; try exact _.
  { apply respects_when; try exact _. apply frame_dumpGSO. intros profile. constructor. }
  intros _. destruct (_ <? 2); [apply frame_setStatus|].
  apply respects_bind; try exact _; [apply frame_bkz_prelude|]. intros aa.
  apply respects_bind; try exact _; [apply frame_bkz_for|].
  intros [st|]; [apply frame_bkz_epilogue | apply respects_ret; exact _].
Qed.

End Frame.

(** The configuration of a BKZReduction object. *)
Definition same_config (s s' : State) : Prop :=
  param s' = param s /\ numRows s' = numRows s /\ delta s' = delta s.

#[local] Instance same_config_pre : Preorder same_config.
Proof.
  split; unfold same_config.
  - intros s. repeat split.
  - intros s1 s2 s3 (H1 & H2 & H3) (H4 & H5 & H6). repeat split; congruence.
Qed.

(** X1. [param], [numRows] and [delta] are fixed by the constructor: bkz,
    bkzLoop and svpReduction return with the values they were entered
    with, on success and on failure alike. *)
Theorem driver_keeps_configuration fuel (s : State) :
  (forall b s',
      bkz DEBUG fuel s = Ok (b, s') ->
      param s' = param s /\ numRows s' = numRows s /\ delta s' = delta s)
  /\ (forall loop kappaMax par minRow maxRow clean r s',
      bkzLoop DEBUG fuel loop kappaMax par minRow maxRow clean s = Ok (r, s') ->
      param s' = param s /\ numRows s' = numRows s /\ delta s' = delta s)
  /\ (forall kappa blockSize par clean r s',
      svpReduction DEBUG fuel kappa blockSize par clean s = Ok (r, s') ->
      param s' = param s /\ numRows s' = numRows s /\ delta s' = delta s).
Proof.
  assert (Hc : forall c w s0, driver_call c -> same_config s0 (step_world c w s0)).
  { intros c w s0 _. repeat split. }
  split; [|split].
  - intros b s' E.
    assert (H : respects same_config (bkz DEBUG fuel))
      by (apply frame_bkz; try exact _; intros; first [apply Hc; assumption | repeat split]).
    exact (wlp_elim _ _ _ _ _ (H s) E).
  - intros loop kM par minRow maxRow clean r s' E.
    assert (H : respects same_config (bkzLoop DEBUG fuel loop kM par minRow maxRow clean))
      by (apply frame_bkzLoop; try exact _; intros;
          first [apply Hc; assumption | repeat split]).
    exact (wlp_elim _ _ _ _ _ (H s) E).
  - intros kappa bs par clean r s' E.
    assert (H : respects same_config (svpReduction DEBUG fuel kappa bs par clean))
      by (apply frame_svpReduction; try exact _; intros;
          first [apply Hc; assumption | repeat split]).
    exact (wlp_elim _ _ _ _ _ (H s) E).
Qed.

(** The calls logged between two states all satisfy [P]. *)
Definition logs (P : @Call FT -> Prop) (s s' : State) : Prop :=
  exists l, trace s' = trace s ++ l /\ Forall P l.

Lemma logs_pre P : Preorder (logs P).
Proof.
  split; unfold logs.
  - intros s. exists []. split; [symmetry; apply app_nil_r | constructor].
  - intros s1 s2 s3 (l1 & H1 & F1) (l2 & H2 & F2). exists (l1 ++ l2). split.
    + rewrite H2, H1. symmetry. apply app_assoc.
    + apply Forall_app. split; assumption.
Qed.

Lemma logs_call (P : @Call FT -> Prop) c w (s : State) :
  P c -> logs P s (step_world c w s).
Proof. intros H. exists [c]. split; [reflexivity | repeat constructor; exact H]. Qed.

Lemma logs_same_trace (P : @Call FT -> Prop) (s s' : State) :
  trace s' = trace s -> logs P s s'.
Proof. intros H. exists []. split; [rewrite H; symmetry; apply app_nil_r | constructor]. Qed.

(** X2. Every call bkz, bkzLoop and svpReduction make has one of the
    shapes of [driver_call]: the row-operation bracket is always
    (d, d + 1), sizeReduction is always called on the single row
    (kappa, kappa + 1), an LLL starts at its first row of size-reduction or
    at row 0, and every dump appends to the file except the dump of the
    input, which truncates it. The calls logged before are left in place. *)
Theorem driver_calls_have_shape fuel (s : State) :
  (forall b s',
      bkz DEBUG fuel s = Ok (b, s') ->
      exists l, trace s' = trace s ++ l /\ Forall driver_call l)
  /\ (forall loop kappaMax par minRow maxRow clean r s',
      bkzLoop DEBUG fuel loop kappaMax par minRow maxRow clean s = Ok (r, s') ->
      exists l, trace s' = trace s ++ l /\ Forall driver_call l)
  /\ (forall kappa blockSize par clean r s',
      svpReduction DEBUG fuel kappa blockSize par clean s = Ok (r, s') ->
      exists l, trace s' = trace s ++ l /\ Forall driver_call l).
Proof.
  pose proof (logs_pre driver_call) as Hpre.
  assert (Hc : forall c w s0, driver_call c -> logs driver_call s0 (step_world c w s0)).
  { intros c w s0 H. apply logs_call. exact H. }
  split; [|split].
  - intros b s' E.
    assert (H : respects (logs driver_call) (bkz DEBUG fuel))
      by (apply frame_bkz; try exact _; intros;
          first [apply Hc; assumption | apply logs_same_trace; reflexivity]).
    exact (wlp_elim _ _ _ _ _ (H s) E).
  - intros loop kM par minRow maxRow clean r s' E.
    assert (H : respects (logs driver_call)
                         (bkzLoop DEBUG fuel loop kM par minRow maxRow clean))
      by (apply frame_bkzLoop; try exact _; intros;
          first [apply Hc; assumption | apply logs_same_trace; reflexivity]).
    exact (wlp_elim _ _ _ _ _ (H s) E).
  - intros kappa bs par clean r s' E.
    assert (H : respects (logs driver_call) (svpReduction DEBUG fuel kappa bs par clean))
      by (apply frame_svpReduction; try exact _; intros;
          first [apply Hc; assumption | apply logs_same_trace; reflexivity]).
    exact (wlp_elim _ _ _ _ _ (H s) E).
Qed.

(** *** The constructor *)

Lemma scan_numRows_spec (w : W) n :
  forall k,
    0 <= k <= Int32.max_signed ->
    k <= Z.of_nat n ->
    0 <= scan_numRows n w k <= k
    /\ (forall i, scan_numRows n w k <= i < k -> m_b_is_zero w i = true)
    /\ (scan_numRows n w k = 0 \/ m_b_is_zero w (scan_numRows n w k - 1) = false).
Proof.
  induction n as [|n IH]; intros k Hk Hn; cbn [scan_numRows].
  - assert (k = 0) by lia. subst. repeat split; try lia.
  - assert (Hsub : k -i 1 = k - 1 \/ k = 0).
    { destruct (Z.eq_dec k 0); [right; assumption|left].
      apply Int32.sub_exact.
      unfold Int32.in_range, Int32.min_signed, Int32.max_signed in *. lia. }
    destruct (Z.ltb_spec 0 k) as [Hpos|Hpos]; cbn [andb].
    + destruct Hsub as [Hsub|]; [|lia]. rewrite Hsub.
      destruct (m_b_is_zero w (k - 1)) eqn:Ez.
      * unfold Int32.decr. rewrite Hsub.
        destruct (IH (k - 1)) as (H1 & H2 & H3); [lia | lia |].
        split; [lia|]. split; [|exact H3].
        intros i Hi. destruct (Z.eq_dec i (k - 1)); [subst; exact Ez|].
        apply H2. lia.
      * split; [lia|]. split; [intros i Hi; lia|]. right. exact Ez.
    + assert (k = 0) by lia. subst. repeat split; try lia.
Qed.

(** X3. The constructor sets numRows to the number of rows of the basis
    without its trailing zero rows: every row from numRows on is zero, and
    numRows is 0 or row numRows - 1 is not zero. It makes no call on the
    collaborators and starts with status RED_SUCCESS. *)
Theorem constructor_numRows (w : W) par :
  0 <= m_d w <= Int32.max_signed ->
  0 <= numRows (BKZReduction w par) <= m_d w
  /\ (forall i, numRows (BKZReduction w par) <= i < m_d w -> m_b_is_zero w i = true)
  /\ (numRows (BKZReduction w par) = 0
      \/ m_b_is_zero w (numRows (BKZReduction w par) - 1) = false)
  /\ world (BKZReduction w par) = w
  /\ trace (BKZReduction w par) = []
  /\ status (BKZReduction w par) = RED_SUCCESS.
Proof.
  intros Hd. cbn [numRows BKZReduction world trace status].
  destruct (scan_numRows_spec w (Z.to_nat (m_d w)) (m_d w) Hd ltac:(lia)) as (H1 & H2 & H3).
  repeat split; try assumption; try lia.
Qed.

(** *** Block sizes below 2 *)

(** X4. With a block size below 2, bkz returns true at once, whatever
    the fuel and whatever the status was: it records RED_SUCCESS and calls
    neither the LLL object nor the enumerator nor a row operation; without
    BKZ_DUMP_GSO it touches nothing but the status (and the diagnostic
    stream under BKZ_VERBOSE). *)
Theorem bkz_small_block fuel (s : State) :
  BKZParam.blockSize (param s) < 2 ->
  exists s',
    bkz DEBUG fuel s = Ok (true, s')
    /\ status s' = RED_SUCCESS
    /\ reduction_calls (trace s') = reduction_calls (trace s)
    /\ (has_flag (BKZParam.flags (param s)) BKZ_DUMP_GSO = false ->
        s' = setStatus_state RED_SUCCESS s).
Proof.
  intros Hbs. unfold bkz. rewrite bind_gets.
  destruct (total_when (has_flag (BKZParam.flags (param s)) BKZ_DUMP_GSO)
              (dumpGSO (BKZParam.dumpGSOFilename (param s)) DumpInput false) s
              (total_dumpGSO _ _ _ s)) as ([] & s1 & E).
  rewrite (bind_ok _ E).
  apply Z.ltb_lt in Hbs. rewrite Hbs, setStatus_success.
  exists (setStatus_state RED_SUCCESS s1).
  split; [reflexivity|]. split; [apply status_setStatus_state|]. split.
  - assert (H1 : no_reduction s s1).
    { assert (Hw : respects no_reduction
                (when (has_flag (BKZParam.flags (param s)) BKZ_DUMP_GSO)
                      (dumpGSO (BKZParam.dumpGSOFilename (param s)) DumpInput false)))
        by (apply respects_when; [exact _ | apply dumpGSO_no_reduction]).
      exact (wlp_elim _ _ _ _ _ (Hw s) E). }
    pose proof (wlp_elim _ _ _ _ _ (setStatus_no_reduction RED_SUCCESS s1)
                         (setStatus_success _)) as H2.
    cbn beta in H2. unfold no_reduction in *. congruence.
  - intros Hf. rewrite Hf in E. cbn in E. inversion E. reflexivity.
Qed.

(** *** The LLL call that opens svpReduction *)


Lemma svp_lll_first kappa bs par clean (s : State) :
  wlp (svp_lll kappa bs par clean) s
      (fun _ s' =>
         exists out,
           trace s' = trace s
                      ++ C_lll (if has_flag (BKZParam.flags par) BKZ_BOUNDED_LLL
                                then kappa else 0) kappa (kappa +i bs) :: out
           /\ Forall driver_call out).
Proof.
  unfold svp_lll. apply wlp_call_r.
  match goal with
  | |- wlp ?c ?s0 _ =>
    assert (H : respects (logs driver_call) c)
  end.
  { pose proof (logs_pre driver_call) as Hpre.
    destruct (fst _); cbn [negb].
    - respects_with ltac:(apply logs_same_trace; reflexivity).
    - apply respects_bind; try exact _; [apply respects_gets; exact _|]. intros st.
      apply respects_bind; try exact _; [|intros b; apply respects_ret; exact _].
      apply frame_setStatus; try exact _.
      + intros c w s0 Hc. apply logs_call. exact Hc.
      + intros v s0. apply logs_same_trace. reflexivity. }
  eapply wlp_weaken; [apply H|]. cbn beta.
  intros r s' (l & Hl & Fl). exists l. split; [|exact Fl].
  rewrite Hl. cbn [trace step_world]. rewrite <- app_assoc. reflexivity.
Qed.

(** X5. svpReduction always begins with one LLL call over the rows up to
    kappa + blockSize, size-reduction starting at kappa; the first row is
    kappa under BKZ_BOUNDED_LLL and 0 otherwise. When that call fails,
    svpReduction makes no other call: it goes to setStatus with the
    status of the LLL object. If BKZ_VERBOSE is not set, or that status is
    an index of RED_STATUS_STR (0 to 8), it adopts the status, leaves
    clean as it was and returns whether the status is RED_SUCCESS. With
    BKZ_VERBOSE set and a status outside 0 to 8 (RED_STATUS_MAX = 9
    included), the message of setStatus reads RED_STATUS_STR out of
    range. *)
Theorem svpReduction_opens_with_lll fuel kappa blockSize par clean (s : State) :
  (forall r s',
      svpReduction DEBUG (S fuel) kappa blockSize par clean s = Ok (r, s') ->
      exists rest,
        trace s' = trace s
                   ++ C_lll (if has_flag (BKZParam.flags par) BKZ_BOUNDED_LLL
                             then kappa else 0) kappa (kappa +i blockSize) :: rest
        /\ Forall driver_call rest)
  /\ (fst (lll (if has_flag (BKZParam.flags par) BKZ_BOUNDED_LLL then kappa else 0)
               kappa (kappa +i blockSize) (world s)) = false ->
      (status_printable
         (lll_status (snd (lll (if has_flag (BKZParam.flags par) BKZ_BOUNDED_LLL
                                then kappa else 0)
                               kappa (kappa +i blockSize) (world s)))) s ->
       exists s' out,
         svpReduction DEBUG (S fuel) kappa blockSize par clean s
         = Ok ((status s' =? RED_SUCCESS, clean), s')
         /\ world s' = snd (lll (if has_flag (BKZParam.flags par) BKZ_BOUNDED_LLL
                                 then kappa else 0)
                                kappa (kappa +i blockSize) (world s))
         /\ status s' = lll_status (world s')
         /\ trace s' = trace s
                       ++ C_lll (if has_flag (BKZParam.flags par) BKZ_BOUNDED_LLL
                                 then kappa else 0) kappa (kappa +i blockSize) :: out
         /\ (forall x, In x out -> exists m, x = C_cerr m))
      /\ (has_flag (BKZParam.flags (param s)) BKZ_VERBOSE = true ->
          ~ 0 <= lll_status (snd (lll (if has_flag (BKZParam.flags par) BKZ_BOUNDED_LLL
                                       then kappa else 0)
                                      kappa (kappa +i blockSize) (world s)))
               < RED_STATUS_MAX ->
          svpReduction DEBUG (S fuel) kappa blockSize par clean s = Stuck OutOfBounds)).
Proof.
  pose proof (logs_pre driver_call) as Hpre.
  assert (Hc : forall c w s0, driver_call c -> logs driver_call s0 (step_world c w s0)).
  { intros c w s0 H. apply logs_call. exact H. }
  split.
  - intros r s' E. pattern r, s'. refine (wlp_elim _ _ _ _ _ _ E).
    cbn [svpReduction]. apply wlp_bind.
    eapply wlp_weaken; [apply svp_lll_first|]. cbn beta.
    intros r1 s1 (out & Hout & Fout).
    assert (Hrest : respects (logs driver_call)
              (match r1 with
               | inl b => ret (b, clean)
               | inr clean0 =>
                 bind (svp_preproc
                         (fun preproc i kappaMax clean2 =>
                            bkzLoop_with (svpReduction DEBUG fuel) fuel i kappaMax preproc
                                         kappa (kappa +i blockSize) clean2)
                         fuel kappa blockSize par clean0)
                      (fun '(go, clean1) =>
                         if negb go then ret (false, clean1)
                         else bind (svp_enumerate kappa blockSize par)
                                   (fun _ => svp_insert DEBUG kappa blockSize clean1))
               end)).
    { destruct r1 as [b|c1]; [apply respects_ret; exact _|].
      apply respects_bind; try exact _.
      - apply frame_svp_preproc; try exact _;
          try (intros; first [apply Hc; assumption | apply logs_same_trace; reflexivity]).
        intros preproc i kM c. apply frame_bkzLoop_with; try exact _;
          try (intros; first [apply Hc; assumption | apply logs_same_trace; reflexivity]).
        intros k b p c0. apply frame_svpReduction; try exact _;
          intros; first [apply Hc; assumption | apply logs_same_trace; reflexivity].
      - intros [go c2]. destruct go; cbn [negb]; [|apply respects_ret; exact _].
        apply respects_bind; try exact _.
        + apply frame_svp_enumerate; try exact _;
            intros; first [apply Hc; assumption | apply logs_same_trace; reflexivity].
        + intros _. apply frame_svp_insert; try exact _;
            intros; first [apply Hc; assumption | apply logs_same_trace; reflexivity]. }
    eapply wlp_weaken; [apply Hrest|]. cbn beta.
    intros r2 s2 (l & Hl & Fl). exists (out ++ l). split.
    + rewrite Hl, Hout, <- app_assoc. reflexivity.
    + apply Forall_app. split; assumption.
  - intros Hfail. cbn [svpReduction].
    set (lllStart := if has_flag (BKZParam.flags par) BKZ_BOUNDED_LLL then kappa else 0)
      in *.
    set (w1 := snd (lll lllStart kappa (kappa +i blockSize) (world s))).
    set (s1 := step_world (C_lll lllStart kappa (kappa +i blockSize)) w1 s).
    assert (E : svp_lll kappa blockSize par clean s
                = bind (setStatus (lll_status w1)) (fun b => ret (inl b)) s1).
    { unfold svp_lll. fold lllStart.
      rewrite (bind_ok _ (call_r_eq _ _ _)), Hfail. cbn [negb].
      rewrite bind_gets. reflexivity. }
    split.
    + intros Hp.
      rewrite (bind_ok _ (eq_trans E (bind_ok _ (setStatus_eq _ s1 Hp)))).
      destruct (trace_setStatus_state (lll_status w1) s1) as (out & Hout & Hcerr).
      exists (setStatus_state (lll_status w1) s1), out.
      rewrite status_setStatus_state, world_setStatus_state.
      split; [reflexivity|]. split; [reflexivity|]. split; [reflexivity|].
      split; [|exact Hcerr].
      rewrite Hout. unfold s1. cbn [trace step_world]. rewrite <- app_assoc. reflexivity.
    + intros Hv Hout. apply bind_stuck. rewrite E. apply bind_stuck.
      apply setStatus_out_of_table; assumption.
Qed.

(** *** The rows getCurrentSlope and dumpGSO visit *)

(** The state after [m.updateGSORow(i)] for the rows of [l], in order. *)
Definition update_rows (l : list Z) (s : State) : State :=
  fold_left (fun s i => step_world (C_updateGSORow i) (updateGSORow i (world s)) s) l s.

(** The values [log r_{i,i}] read on the way: each row is read right after
    it has been updated. *)
Fixpoint profile_of (l : list Z) (w : W) : list float :=
  match l with
  | [] => []
  | i :: l' =>
    let w' := updateGSORow i w in
    (get_d (FT_log (fst (getRExp i i w'))) + Z2d (snd (getRExp i i w')) * d_ln2)%float
      :: profile_of l' w'
  end.

Lemma trace_update_rows l : forall s : State,
  trace (update_rows l s) = trace s ++ map C_updateGSORow l.
Proof.
  induction l as [|i l IH]; intros s; cbn [update_rows fold_left map].
  - symmetry. apply app_nil_r.
  - fold (update_rows l). rewrite IH. cbn [trace step_world].
    rewrite <- app_assoc. reflexivity.
Qed.

Lemma world_update_rows l : forall s : State,
  world (update_rows l s) = fold_left (fun w i => updateGSORow i w) l (world s).
Proof.
  induction l as [|i l IH]; intros s; cbn [update_rows fold_left]; [reflexivity|].
  fold (update_rows l). rewrite IH. reflexivity.
Qed.

Lemma length_profile_of l : forall w, List.length (profile_of l w) = List.length l.
Proof. induction l as [|i l IH]; intros w; cbn; [reflexivity | rewrite IH; reflexivity]. Qed.

Lemma length_seqZ n : forall lo, List.length (seqZ n lo) = n.
Proof. induction n as [|n IH]; intros lo; cbn; [reflexivity | rewrite IH; reflexivity]. Qed.

Lemma for_n_same_state {A} (body : Z -> A -> M A) n :
  forall i a (s : State),
    (forall j a, i <= j < i + Z.of_nat n -> exists a', body j a s = Ok (a', s)) ->
    exists a', for_n n i body a s = Ok (a', s).
Proof.
  induction n as [|n IH]; intros i a s Hbody.
  - exists a. reflexivity.
  - destruct (Hbody i a ltac:(lia)) as (a1 & E1).
    cbn [for_n]. rewrite (bind_ok _ E1). apply IH.
    intros j a2 Hj. apply Hbody. lia.
Qed.

Lemma getCurrentSlope_fill n :
  forall i x (s : State),
    0 <= i -> i + Z.of_nat n <= Z.of_nat (List.length x) ->
    exists x',
      for_n n i
        (fun i x =>
           bind (call_w (C_updateGSORow i) (updateGSORow i))
                (fun _ => bind (gets world)
                   (fun w => let (f, expo) := getRExp i i w in
                             let logF := FT_log f in
                             vec_set x i (get_d logF + Z2d expo * d_ln2)%float)))
        x s
      = Ok (x', update_rows (seqZ n i) s)
      /\ List.length x' = List.length x.
Proof.
  induction n as [|n IH]; intros i x s Hi Hlen.
  - exists x. split; reflexivity.
  - cbn [for_n seqZ update_rows fold_left]. fold (update_rows (seqZ n (i + 1))).
    set (s1 := step_world (C_updateGSORow i) (updateGSORow i (world s)) s).
    match goal with
    | |- exists x', bind ?c ?k s = _ /\ _ =>
      assert (E : exists v, c s = Ok (list_set x (Z.to_nat i) v, s1))
    end.
    { unfold bind, call_w, gets. fold s1. destruct (getRExp i i (world s1)) as [f expo].
      unfold vec_set.
      destruct (Z.ltb_spec i 0); [lia|].
      destruct (Z.leb_spec (Z.of_nat (List.length x)) i); [lia|].
      cbn [orb]. eexists. reflexivity. }
    destruct E as (v & E). rewrite (bind_ok _ E).
    destruct (IH (i + 1) (list_set x (Z.to_nat i) v) s1) as (x' & E' & Hx').
    { lia. } { rewrite length_list_set. lia. }
    exists x'. split; [exact E'|]. rewrite Hx'. apply length_list_set.
Qed.

(** X6. getCurrentSlope returns exactly when both row indices are
    non-negative, and is stopped by an out-of-range vector access
    otherwise. When it returns, it has called updateGSORow once on each row
    of [startRow, stopRow), in increasing order, and done nothing else; on
    an empty range it makes no call and its result is NaN. *)
Theorem getCurrentSlope_rows_visited startRow stopRow (s : State) :
  (startRow < 0 \/ stopRow < 0 ->
   getCurrentSlope startRow stopRow s = Stuck OutOfBounds)
  /\ (0 <= startRow -> 0 <= stopRow ->
      exists v,
        getCurrentSlope startRow stopRow s
        = Ok (v, update_rows (seqZ (Z.to_nat (stopRow - startRow)) startRow) s)
        /\ trace (update_rows (seqZ (Z.to_nat (stopRow - startRow)) startRow) s)
           = trace s ++ map C_updateGSORow
                            (seqZ (Z.to_nat (stopRow - startRow)) startRow)
        /\ world (update_rows (seqZ (Z.to_nat (stopRow - startRow)) startRow) s)
           = fold_left (fun w i => updateGSORow i w)
                       (seqZ (Z.to_nat (stopRow - startRow)) startRow) (world s)
        /\ (stopRow <= startRow -> PrimFloat.is_nan v = true))
  /\ (0 <= stopRow <= startRow ->
      exists v, getCurrentSlope startRow stopRow s = Ok (v, s)
                /\ PrimFloat.is_nan v = true).
Proof.
  assert (Hempty : 0 <= stopRow <= startRow ->
                   getCurrentSlope startRow stopRow s = Ok ((0 / 0)%float, s)).
  { intros H. unfold getCurrentSlope, for_range.
    destruct (Z.ltb_spec stopRow 0); [lia|].
    replace (Z.to_nat (stopRow - startRow)) with O by lia. reflexivity. }
  split; [|split].
  - intros H. unfold getCurrentSlope.
    destruct (Z.ltb_spec stopRow 0); [reflexivity|].
    destruct H as [H|H]; [|lia].
    unfold for_range at 1.
    destruct (Z.to_nat (stopRow - startRow)) as [|n] eqn:En; [lia|].
    cbn [for_n]. apply bind_stuck. apply bind_stuck.
    unfold bind, call_w, gets. destruct (getRExp startRow startRow _) as [f expo].
    unfold vec_set. destruct (Z.ltb_spec startRow 0); [|lia]. reflexivity.
  - intros Hlo Hhi.
    destruct (Z.le_gt_cases stopRow startRow) as [Hle|Hgt].
    + exists (0 / 0)%float. rewrite Hempty by lia.
      replace (Z.to_nat (stopRow - startRow)) with O by lia.
      cbn [seqZ update_rows fold_left map].
      split; [reflexivity|]. split; [symmetry; apply app_nil_r|].
      split; [reflexivity|]. intros _. reflexivity.
    + unfold getCurrentSlope.
      destruct (Z.ltb_spec stopRow 0); [lia|].
      destruct (getCurrentSlope_fill (Z.to_nat (stopRow - startRow)) startRow
                  (repeat 0%float (Z.to_nat stopRow)) s Hlo)
        as (x & E1 & Hx).
      { rewrite repeat_length. lia. }
      rewrite repeat_length in Hx.
      set (s1 := update_rows (seqZ (Z.to_nat (stopRow - startRow)) startRow) s) in *.
      unfold for_range at 1. rewrite (bind_ok _ E1).
      match goal with
      | |- context [for_range startRow stopRow ?b 0%float] => set (body2 := b)
      end.
      destruct (@for_n_same_state _ body2 (Z.to_nat (stopRow - startRow)) startRow
                  0%float s1) as (xm & E2).
      { intros j a Hj. unfold body2.
        destruct (@vec_get_ok _ x j s1 ltac:(lia)) as (v & Ev).
        rewrite (bind_ok _ Ev). eexists. reflexivity. }
      unfold for_range at 1. rewrite (bind_ok _ E2).
      match goal with
      | |- context [for_range startRow stopRow ?b (0%float, 0%float)] => set (body3 := b)
      end.
      destruct (@for_n_same_state _ body3 (Z.to_nat (stopRow - startRow)) startRow
                  (0%float, 0%float) s1) as ([v1 v2] & E3).
      { intros j a Hj. unfold body3.
        destruct (@vec_get_ok _ x j s1 ltac:(lia)) as (v & Ev).
        rewrite (bind_ok _ Ev). eexists. reflexivity. }
      unfold for_range. rewrite (bind_ok _ E3).
      exists (v1 / v2)%float. split; [reflexivity|].
      split; [apply trace_update_rows|]. split; [apply world_update_rows|]. lia.
  - intros H. exists (0 / 0)%float. split; [apply Hempty; exact H | reflexivity].
Qed.

Lemma dumpGSO_fill n :
  forall i acc (s : State),
    for_n n i
      (fun i acc =>
         bind (call_w (C_updateGSORow i) (updateGSORow i))
              (fun _ => bind (gets world)
                 (fun w => let (f, expo) := getRExp i i w in
                           let logF := FT_log f in
                           ret (acc ++ [(get_d logF + Z2d expo * d_ln2)%float]))))
      acc s
    = Ok (acc ++ profile_of (seqZ n i) (world s), update_rows (seqZ n i) s).
Proof.
  induction n as [|n IH]; intros i acc s.
  - cbn. rewrite app_nil_r. reflexivity.
  - cbn [for_n seqZ update_rows fold_left profile_of].
    fold (update_rows (seqZ n (i + 1))).
    set (s1 := step_world (C_updateGSORow i) (updateGSORow i (world s)) s).
    match goal with
    | |- bind ?c ?k s = _ =>
      assert (E : c s = Ok (acc ++ [(get_d (FT_log (fst (getRExp i i (world s1))))
                                     + Z2d (snd (getRExp i i (world s1))) * d_ln2)%float],
                            s1))
    end.
    { unfold bind, call_w, gets. fold s1. destruct (getRExp i i (world s1)) as [f expo].
      reflexivity. }
    rewrite (bind_ok _ E), IH, <- app_assoc. reflexivity.
Qed.

(** X7. dumpGSO always returns, also when there is no row. It calls
    updateGSORow on the rows 0 .. numRows - 1 in order, reads log r_{i,i}
    of each row right after updating it, and then writes one dump record
    with these numRows values; nothing else of the state changes. *)
Theorem dumpGSO_profile filename prefix append (s : State) :
  dumpGSO filename prefix append s
  = Ok (tt, step_world
              (C_dump filename append prefix
                      (profile_of (seqZ (Z.to_nat (numRows s)) 0) (world s)))
              (fold_left (fun w i => updateGSORow i w)
                         (seqZ (Z.to_nat (numRows s)) 0) (world s))
              (update_rows (seqZ (Z.to_nat (numRows s)) 0) s))
  /\ List.length (profile_of (seqZ (Z.to_nat (numRows s)) 0) (world s))
     = Z.to_nat (numRows s)
  /\ trace (update_rows (seqZ (Z.to_nat (numRows s)) 0) s)
     = trace s ++ map C_updateGSORow (seqZ (Z.to_nat (numRows s)) 0).
Proof.
  split; [|split].
  - unfold dumpGSO. rewrite bind_gets. unfold for_range.
    rewrite Z.sub_0_r.
    rewrite (bind_ok _ (dumpGSO_fill _ 0 [] s)). cbn [app].
    unfold emit. rewrite world_update_rows. reflexivity.
  - rewrite length_profile_of. apply length_seqZ.
  - apply trace_update_rows.
Qed.

(** *** What a clean block and a clean tour have done *)

(** The calls with which the driver itself edits the rows of the basis:
    the row case and the general case of the insertion. *)
Definition is_row_edit (c : @Call FT) : bool :=
  match c with
  | C_createRow | C_removeLastRow | C_moveRow _ _ | C_rowOpBegin _ _
  | C_rowOpEnd _ _ | C_row_addmul _ _ _ | C_sizeReduction _ _ => true
  | _ => false
  end.

Definition untouched (s s' : State) : Prop :=
  logs (fun c => is_row_edit c = false) s s'.

#[local] Instance untouched_pre : Preorder untouched.
Proof. apply logs_pre. Qed.

Ltac side_untouched :=
  unfold untouched;
  first [ apply logs_call; reflexivity | apply logs_same_trace; reflexivity ].

Lemma getCurrentSlope_untouched a b : respects untouched (getCurrentSlope a b).
Proof. unfold getCurrentSlope. respects_with side_untouched. Qed.

Lemma testAbort_untouched sc mx a : respects untouched (testAbort sc mx a).
Proof.
  unfold testAbort. apply respects_bind; try exact _.
  - apply getCurrentSlope_untouched.
  - intros. apply respects_ret. exact _.
Qed.

Lemma dumpGSO_untouched f p a : respects untouched (dumpGSO f p a).
Proof. unfold dumpGSO. respects_with side_untouched. Qed.

Lemma setStatus_untouched st : respects untouched (setStatus st).
Proof. unfold setStatus. respects_with side_untouched. Qed.

#[local] Hint Resolve getCurrentSlope_untouched testAbort_untouched dumpGSO_untouched
  setStatus_untouched : frames.

Lemma classify_untouched bs : respects untouched (classify bs).
Proof. unfold classify. respects_with side_untouched. Qed.

Lemma svp_enumerate_untouched kappa bs par :
  respects untouched (svp_enumerate kappa bs par).
Proof. unfold svp_enumerate. respects_with side_untouched. Qed.

Lemma bkzLoop_report_untouched loop par minRow maxRow :
  respects untouched (bkzLoop_report loop par minRow maxRow).
Proof. unfold bkzLoop_report. respects_with side_untouched. Qed.

Lemma svp_preproc_guards_untouched i par t0 aa :
  respects untouched (svp_preproc_guards i par t0 aa).
Proof. unfold svp_preproc_guards. respects_with side_untouched. Qed.

Lemma wlp_bind_any {A B} (c : M A) (k : A -> M B) (s : State) Q :
  (forall a s', wlp (k a) s' Q) -> wlp (bind c k) s Q.
Proof. intros H. unfold wlp, bind. destruct (c s) as [[a s1]|]; [apply H | exact I]. Qed.

Section Clean.

(** What section 6.2 of the spec says of the LLL object: [status] is the
    failure code of the last call, so a call that returns false does not
    leave [RED_SUCCESS] there. *)
Hypothesis lll_fails :
  forall a b c w, fst (lll a b c w) = false ->
                  lll_status (snd (lll a b c w)) <> RED_SUCCESS.
Hypothesis sizeReduction_fails :
  forall a b w, fst (sizeReduction a b w) = false ->
                lll_status (snd (sizeReduction a b w)) <> RED_SUCCESS.

Lemma svp_lll_clean kappa bs par clean (s : State) :
  wlp (svp_lll kappa bs par clean) s
      (fun r s' => match r with
                   | inl b => b = false
                   | inr c => untouched s s' /\ (c = true -> clean = true)
                   end).
Proof.
  unfold svp_lll. apply wlp_call_r.
  destruct (fst (lll _ kappa (kappa +i bs) (world s))) eqn:Eok; cbn [negb].
  - apply wlp_gets. apply wlp_ret. split; [side_untouched|].
    destruct (0 <? _); [discriminate | auto].
  - apply wlp_gets. apply wlp_bind. apply wlp_setStatus. apply wlp_ret.
    cbn [world step_world]. apply Z.eqb_neq. apply lll_fails. exact Eok.
Qed.

Lemma svp_insert_row_clean kappa iV clean (s : State) :
  wlp (svp_insert_row DEBUG kappa iV clean) s (fun r _ => r <> (true, true)).
Proof.
  unfold svp_insert_row. apply wlp_bind_any. intros _ s1.
  apply wlp_call_w. apply wlp_call_r.
  destruct (fst (sizeReduction kappa (kappa +i 1) _)) eqn:Eok; cbn [negb].
  - apply wlp_ret. discriminate.
  - apply wlp_gets. apply wlp_bind. apply wlp_setStatus. apply wlp_ret.
    cbn [world step_world]. intros H. inversion H as [[H1 H2]].
    apply Z.eqb_eq in H1. exact (sizeReduction_fails _ _ _ Eok H1).
Qed.

Lemma svp_insert_general_clean kappa bs clean (s : State) :
  wlp (svp_insert_general DEBUG kappa bs clean) s (fun r _ => r <> (true, true)).
Proof.
  unfold svp_insert_general. apply wlp_gets. apply wlp_call_w. apply wlp_call_w.
  apply wlp_bind_any. intros _ s1.
  apply wlp_call_w. apply wlp_call_w. apply wlp_call_r.
  destruct (fst (lll kappa kappa (kappa +i bs +i 1) _)) eqn:Eok; cbn [negb].
  - apply wlp_gets. apply wlp_bind_any. intros _ s2.
    apply wlp_call_w. apply wlp_call_w. apply wlp_ret. discriminate.
  - apply wlp_gets. apply wlp_bind. apply wlp_setStatus. apply wlp_ret.
    cbn [world step_world]. intros H. inversion H as [[H1 H2]].
    apply Z.eqb_eq in H1. exact (lll_fails _ _ _ _ Eok H1).
Qed.

Lemma svp_insert_clean kappa bs clean (s : State) :
  wlp (svp_insert DEBUG kappa bs clean) s
      (fun r s' => r = (true, true) -> clean = true /\ untouched s s').
Proof.
  unfold svp_insert. apply wlp_gets. destruct (solCoord s) as [|x sc].
  - apply wlp_bind. apply wlp_setStatus. apply wlp_ret. discriminate.
  - apply (wlp_bind_respects untouched); [apply classify_untouched|].
    intros [nz iV] s1 U1.
    apply (wlp_bind_respects untouched); [apply respects_debug_check; exact _|].
    intros _ s2 U2. apply wlp_gets. apply wlp_gets.
    destruct (FT_ge _ _).
    + apply wlp_ret. intros H. inversion H. split; [reflexivity|].
      exact (pre_trans _ _ _ U1 U2).
    + destruct (nz =? 1).
      * eapply wlp_weaken; [apply svp_insert_row_clean|].
        intros r s3 Hne Hr. contradiction.
      * eapply wlp_weaken; [apply svp_insert_general_clean|].
        intros r s3 Hne Hr. contradiction.
Qed.

Definition block_clean (svp : block_fn) : Prop :=
  forall kappa bs par clean (s : State),
    wlp (svp kappa bs par clean) s
        (fun r s' => r = (true, true) -> clean = true /\ untouched s s').

Definition tour_clean (tour : Z -> Z -> bool -> M (bool * Z * bool)) : Prop :=
  forall i kM clean (s : State),
    wlp (tour i kM clean) s
        (fun r s' => fst (fst r) = true -> snd r = true ->
                     clean = true /\ untouched s s').

Lemma bkzLoop_sweep_clean svp :
  block_clean svp ->
  forall fuel kappa kM par maxRow clean (s : State),
    wlp (bkzLoop_sweep svp fuel kappa kM par maxRow clean) s
        (fun r s' => fst (fst r) = true -> snd r = true ->
                     clean = true /\ untouched s s').
Proof.
  intros Hsvp fuel. induction fuel as [|fuel IH]; intros kappa kM par maxRow clean s.
  - exact I.
  - cbn [bkzLoop_sweep]. destruct (kappa <? maxRow -i 1).
    + apply wlp_bind. eapply wlp_weaken; [apply Hsvp|].
      intros [ok c1] s1 H1. destruct ok; cbn [negb].
      * destruct (_ && _).
        -- apply (wlp_bind_respects untouched); [respects_with side_untouched|].
           intros _ s2 U2. eapply wlp_weaken; [apply IH|].
           intros r s3 H3 Hok Hc. destruct (H3 Hok Hc) as [-> U3].
           destruct (H1 eq_refl) as [-> U1]. split; [reflexivity|].
           exact (pre_trans _ _ _ U1 (pre_trans _ _ _ U2 U3)).
        -- eapply wlp_weaken; [apply IH|].
           intros r s3 H3 Hok Hc. destruct (H3 Hok Hc) as [-> U3].
           destruct (H1 eq_refl) as [-> U1]. split; [reflexivity|].
           exact (pre_trans _ _ _ U1 U3).
      * apply wlp_ret. cbn [fst]. discriminate.
    + apply wlp_ret. cbn [fst snd]. intros _ Hc. split; [exact Hc | apply pre_refl].
Qed.

Lemma bkzLoop_with_clean svp :
  block_clean svp ->
  forall fuel par minRow maxRow, tour_clean
    (fun i kM clean => bkzLoop_with svp fuel i kM par minRow maxRow clean).
Proof.
  intros Hsvp fuel par minRow maxRow loop kM clean s. unfold bkzLoop_with.
  apply wlp_bind. eapply wlp_weaken; [apply bkzLoop_sweep_clean; assumption|].
  intros [[ok kM'] c1] s1 H1. cbn [fst snd] in H1. destruct ok; cbn [negb].
  - apply (wlp_bind_respects untouched); [apply bkzLoop_report_untouched|].
    intros _ s2 U2. apply wlp_ret. cbn [fst snd]. intros _ Hc.
    destruct (H1 eq_refl Hc) as [Hcl U1]. split; [exact Hcl|].
    exact (pre_trans _ _ _ U1 U2).
  - apply wlp_ret. cbn [fst]. discriminate.
Qed.

Lemma svp_preproc_for_clean tour :
  tour_clean tour ->
  forall fuel i par t0 kM aa clean (s : State),
    wlp (svp_preproc_for tour fuel i par t0 kM aa clean) s
        (fun r s' => r = (true, true) -> clean = true /\ untouched s s').
Proof.
  intros Htour fuel. induction fuel as [|fuel IH]; intros i par t0 kM aa clean s.
  - exact I.
  - cbn [svp_preproc_for].
    apply (wlp_bind_respects untouched); [apply svp_preproc_guards_untouched|].
    intros [stop aa'] s1 U1. destruct stop.
    + apply wlp_ret. intros H. inversion H. split; [reflexivity | exact U1].
    + apply wlp_bind. eapply wlp_weaken; [apply Htour|].
      intros [[ok kM'] c2] s2 H2. cbn [fst snd] in H2. destruct ok; cbn [negb].
      * destruct c2.
        -- apply wlp_ret. intros H. inversion H. split; [reflexivity|].
           destruct (H2 eq_refl eq_refl) as [_ U2]. exact (pre_trans _ _ _ U1 U2).
        -- eapply wlp_weaken; [apply IH|].
           intros r s3 H3 Hr. destruct (H3 Hr) as [Hf _]. discriminate.
      * apply wlp_ret. discriminate.
Qed.

Lemma svp_preproc_clean tour :
  (forall preproc, tour_clean (tour preproc)) ->
  forall fuel kappa bs par clean (s : State),
    wlp (svp_preproc tour fuel kappa bs par clean) s
        (fun r s' => r = (true, true) -> clean = true /\ untouched s s').
Proof.
  intros Htour fuel kappa bs par clean s. unfold svp_preproc.
  destruct (BKZParam.preprocessing par) as [preproc|].
  - destruct (_ && _).
    + apply wlp_gets. apply wlp_call_r.
      eapply wlp_weaken; [apply svp_preproc_for_clean; apply Htour|].
      intros r s2 H2 Hr. destruct (H2 Hr) as [Hc U2]. split; [exact Hc|].
      refine (pre_trans _ _ _ _ U2). side_untouched.
    + apply wlp_ret. intros H. inversion H. split; [reflexivity | apply pre_refl].
  - apply wlp_ret. intros H. inversion H. split; [reflexivity | apply pre_refl].
Qed.

Lemma svpReduction_clean fuel : block_clean (svpReduction DEBUG fuel).
Proof.
  induction fuel as [|fuel IH]; intros kappa bs par clean s.
  - exact I.
  - cbn [svpReduction]. apply wlp_bind.
    eapply wlp_weaken; [apply svp_lll_clean|].
    intros [b|c1] s1 H1.
    + apply wlp_ret. intros H. inversion H. congruence.
    + destruct H1 as [U1 Hc1]. apply wlp_bind. eapply wlp_weaken.
      { apply svp_preproc_clean.
        intros preproc. apply bkzLoop_with_clean. exact IH. }
      intros [go c2] s2 H2. destruct go; cbn [negb].
      * apply (wlp_bind_respects untouched); [apply svp_enumerate_untouched|].
        intros _ s3 U3. eapply wlp_weaken; [apply svp_insert_clean|].
        intros r s4 H4 Hr. destruct (H4 Hr) as [-> U4].
        destruct (H2 eq_refl) as [-> U2]. split; [apply Hc1; reflexivity|].
        exact (pre_trans _ _ _ U1 (pre_trans _ _ _ U2 (pre_trans _ _ _ U3 U4))).
      * apply wlp_ret. discriminate.
Qed.

(** X8. The clean flag can be trusted. If svpReduction returns true and
    hands clean back as true, then clean was true on entry and the call
    (with the tours of its preprocessing) made no row edit: no createRow,
    removeLastRow, moveRow, row-operation bracket, row_addmul or
    sizeReduction. The same holds of a whole tour of bkzLoop. The LLL
    object is assumed to leave a failure code when a call returns false. *)
Theorem clean_means_no_row_edit fuel (s : State) :
  (forall kappa blockSize par clean s',
      svpReduction DEBUG fuel kappa blockSize par clean s = Ok ((true, true), s') ->
      clean = true
      /\ exists l, trace s' = trace s ++ l
                   /\ Forall (fun c => is_row_edit c = false) l)
  /\ (forall loop kappaMax par minRow maxRow clean kappaMax' s',
      bkzLoop DEBUG fuel loop kappaMax par minRow maxRow clean s
      = Ok ((true, kappaMax', true), s') ->
      clean = true
      /\ exists l, trace s' = trace s ++ l
                   /\ Forall (fun c => is_row_edit c = false) l).
Proof.
  split.
  - intros kappa bs par clean s' E.
    exact (wlp_elim _ _ _ _ _ (svpReduction_clean fuel kappa bs par clean s) E eq_refl).
  - intros loop kM par minRow maxRow clean kM' s' E.
    exact (wlp_elim _ _ _ _ _
             (bkzLoop_with_clean _ (svpReduction_clean fuel) fuel par minRow maxRow
                                 loop kM clean s)
             E eq_refl eq_refl).
Qed.

End Clean.

(** X9. The general case of the insertion, when the block size does not
    exceed the number of coordinates: it reads d = m.d, creates a row,
    and inside the bracket rowOpBegin(d, d + 1) .. rowOpEnd(d, d + 1) adds
    solCoord[i] times row kappa + i to row d for i = 0 .. blockSize - 1 in
    order; it moves row d to kappa and runs LLL on [kappa, kappa +
    blockSize + 1). If LLL fails it goes to setStatus with the LLL status,
    the extra row still there: when BKZ_VERBOSE is not set or that status
    is an index of RED_STATUS_STR (0 to 8) it adopts the status and
    returns with clean as it was; with BKZ_VERBOSE set and a status
    outside 0 to 8 the message of setStatus reads RED_STATUS_STR out of
    range. If LLL succeeds it moves row kappa + blockSize to d, removes
    the last row and returns true with clean false; a DEBUG build stops
    before that when row kappa + blockSize is not zero. *)
Theorem general_case_calls kappa blockSize clean (s : State) :
  blockSize <= Z.of_nat (List.length (solCoord s)) ->
  trace (general_combined kappa blockSize s)
  = trace s
    ++ [C_createRow; C_rowOpBegin (m_d (world s)) (m_d (world s) +i 1)]
    ++ map (fun p => C_row_addmul (m_d (world s)) (kappa +i fst p) (snd p))
           (combine (seqZ (Z.to_nat blockSize) 0) (solCoord s))
    ++ [C_rowOpEnd (m_d (world s)) (m_d (world s) +i 1);
        C_moveRow (m_d (world s)) kappa]
  /\ (fst (lll kappa kappa (kappa +i blockSize +i 1)
               (world (general_combined kappa blockSize s))) = false ->
      (status_printable
         (lll_status (snd (lll kappa kappa (kappa +i blockSize +i 1)
                               (world (general_combined kappa blockSize s))))) s ->
       svp_insert_general DEBUG kappa blockSize clean s
       = Ok ((lll_status (snd (lll kappa kappa (kappa +i blockSize +i 1)
                                   (world (general_combined kappa blockSize s))))
              =? RED_SUCCESS, clean),
             setStatus_state
               (lll_status (snd (lll kappa kappa (kappa +i blockSize +i 1)
                                     (world (general_combined kappa blockSize s)))))
               (step_world (C_lll kappa kappa (kappa +i blockSize +i 1))
                  (snd (lll kappa kappa (kappa +i blockSize +i 1)
                            (world (general_combined kappa blockSize s))))
                  (general_combined kappa blockSize s))))
      /\ (has_flag (BKZParam.flags (param s)) BKZ_VERBOSE = true ->
          ~ 0 <= lll_status (snd (lll kappa kappa (kappa +i blockSize +i 1)
                                      (world (general_combined kappa blockSize s))))
               < RED_STATUS_MAX ->
          svp_insert_general DEBUG kappa blockSize clean s = Stuck OutOfBounds))
  /\ (fst (lll kappa kappa (kappa +i blockSize +i 1)
               (world (general_combined kappa blockSize s))) = true ->
      (DEBUG = false
       \/ m_b_is_zero (snd (lll kappa kappa (kappa +i blockSize +i 1)
                                (world (general_combined kappa blockSize s))))
                      (kappa +i blockSize) = true ->
       svp_insert_general DEBUG kappa blockSize clean s
       = Ok ((true, false),
             step_world C_removeLastRow
               (removeLastRow
                  (moveRow (kappa +i blockSize) (m_d (world s))
                     (snd (lll kappa kappa (kappa +i blockSize +i 1)
                               (world (general_combined kappa blockSize s))))))
               (step_world (C_moveRow (kappa +i blockSize) (m_d (world s)))
                  (moveRow (kappa +i blockSize) (m_d (world s))
                     (snd (lll kappa kappa (kappa +i blockSize +i 1)
                               (world (general_combined kappa blockSize s)))))
                  (step_world (C_lll kappa kappa (kappa +i blockSize +i 1))
                     (snd (lll kappa kappa (kappa +i blockSize +i 1)
                               (world (general_combined kappa blockSize s))))
                     (general_combined kappa blockSize s)))))
      /\ (DEBUG = true ->
          m_b_is_zero (snd (lll kappa kappa (kappa +i blockSize +i 1)
                                (world (general_combined kappa blockSize s))))
                      (kappa +i blockSize) = false ->
          svp_insert_general DEBUG kappa blockSize clean s = Stuck AssertionFailed)).
Proof.
  intros Hlen. rewrite (svp_insert_general_run _ _ _ _ Hlen). unfold general_case_run.
  cbv zeta.
  set (s5 := general_combined kappa blockSize s).
  set (r := lll kappa kappa (kappa +i blockSize +i 1) (world s5)).
  set (s6 := step_world (C_lll kappa kappa (kappa +i blockSize +i 1)) (snd r) s5).
  assert (Hpar : param s6 = param s) by apply param_general_combined.
  split; [|split].
  - apply trace_general_combined.
  - intros Hf. rewrite Hf. split.
    + intros Hp.
      assert (Hp6 : status_printable (lll_status (snd r)) s6).
      { unfold status_printable in *. rewrite Hpar. exact Hp. }
      rewrite (bind_ok _ (setStatus_eq _ _ Hp6)). reflexivity.
    + intros Hv Hout. apply bind_stuck. apply setStatus_out_of_table; [|exact Hout].
      rewrite Hpar. exact Hv.
  - intros Ht. rewrite Ht. split.
    + intros [Hz|Hz]; rewrite Hz; [reflexivity|].
      cbn [negb]. rewrite andb_false_r. reflexivity.
    + intros Hd Hz. rewrite Hd, Hz. reflexivity.
Qed.

(** *** Preprocessing needs a block of more than three rows *)

(** [par] with another [preprocessing] pointer. *)
Definition with_preprocessing (pre : option BKZParam.t) (par : BKZParam.t) : BKZParam.t :=
  BKZParam.Build (BKZParam.blockSize par) (BKZParam.delta par) (BKZParam.flags par)
    (BKZParam.maxLoops par) (BKZParam.maxTime par) (BKZParam.autoAbort_scale par)
    (BKZParam.autoAbort_maxNoDec par) (BKZParam.pruning par) pre
    (BKZParam.dumpGSOFilename par).

Lemma bind_ext {A B} (c : M A) (k k' : A -> M B) (s : State) :
  (forall a s', k a s' = k' a s') -> bind c k s = bind c k' s.
Proof. intros H. unfold bind. destruct (c s) as [[a s1]|]; [apply H | reflexivity]. Qed.

Lemma svp_preproc_skip tour fuel kappa bs par clean (s : State) :
  (forall pre, BKZParam.preprocessing par = Some pre ->
               ~ 2 < BKZParam.blockSize pre < bs) ->
  svp_preproc tour fuel kappa bs par clean s = Ok ((true, clean), s).
Proof.
  intros H. unfold svp_preproc.
  destruct (BKZParam.preprocessing par) as [pre|]; [|reflexivity].
  specialize (H pre eq_refl).
  destruct (Z.ltb_spec (BKZParam.blockSize pre) bs);
    destruct (Z.ltb_spec 2 (BKZParam.blockSize pre)); cbn [andb]; try reflexivity.
  lia.
Qed.

Lemma svpReduction_skip fuel kappa bs par clean (s : State) :
  (forall pre, BKZParam.preprocessing par = Some pre ->
               ~ 2 < BKZParam.blockSize pre < bs) ->
  svpReduction DEBUG (S fuel) kappa bs par clean s
  = bind (svp_lll kappa bs par clean)
         (fun r => match r with
                   | inl b => ret (b, clean)
                   | inr c => bind (svp_enumerate kappa bs par)
                                   (fun _ => svp_insert DEBUG kappa bs c)
                   end) s.
Proof.
  intros H. cbn [svpReduction]. apply bind_ext. intros [b|c] s1; [reflexivity|].
  rewrite (bind_ok _ (svp_preproc_skip _ _ _ _ _ _ s1 H)). reflexivity.
Qed.

Lemma svpReduction_any_preprocessing fuel kappa bs par pre clean (s : State) :
  bs <= 3 ->
  svpReduction DEBUG fuel kappa bs (with_preprocessing pre par) clean s
  = svpReduction DEBUG fuel kappa bs par clean s.
Proof.
  intros H. destruct fuel as [|fuel]; [reflexivity|].
  rewrite !svpReduction_skip by (intros; lia). reflexivity.
Qed.

Lemma bkzLoop_sweep_any_preprocessing fuel0 par pre maxRow :
  BKZParam.blockSize par <= 3 ->
  forall fuel kappa kM clean (s : State),
    bkzLoop_sweep (svpReduction DEBUG fuel0) fuel kappa kM (with_preprocessing pre par)
                  maxRow clean s
    = bkzLoop_sweep (svpReduction DEBUG fuel0) fuel kappa kM par maxRow clean s.
Proof.
  intros Hbs fuel. induction fuel as [|fuel IH]; intros kappa kM clean s; [reflexivity|].
  cbn [bkzLoop_sweep].
  change (BKZParam.blockSize (with_preprocessing pre par)) with (BKZParam.blockSize par).
  change (BKZParam.flags (with_preprocessing pre par)) with (BKZParam.flags par).
  destruct (kappa <? maxRow -i 1); [|reflexivity].
  unfold bind at 1 3.
  rewrite svpReduction_any_preprocessing
    by (rewrite Int32.min_spec; lia).
  destruct (svpReduction DEBUG fuel0 kappa _ par clean s) as [[[ok c] s1]|]; [|reflexivity].
  destruct ok; cbn [negb]; [|reflexivity].
  destruct (_ && _); [|apply IH].
  unfold bind, emit. apply IH.
Qed.

(** X10. Preprocessing needs a block of more than three rows. A call of
    svpReduction whose [preprocessing] is null, or has a block size that
    is not strictly between 2 and the size of the block, goes from the LLL
    straight to the enumeration. So with a block size of at most 3 a tour
    does the same whatever [preprocessing] points to. *)
Theorem small_blocks_skip_preprocessing fuel (s : State) :
  (forall kappa blockSize par clean,
      (forall pre, BKZParam.preprocessing par = Some pre ->
                   ~ 2 < BKZParam.blockSize pre < blockSize) ->
      svpReduction DEBUG (S fuel) kappa blockSize par clean s
      = bind (svp_lll kappa blockSize par clean)
             (fun r => match r with
                       | inl b => ret (b, clean)
                       | inr c => bind (svp_enumerate kappa blockSize par)
                                       (fun _ => svp_insert DEBUG kappa blockSize c)
                       end) s)
  /\ (forall loop kappaMax par pre minRow maxRow clean,
      BKZParam.blockSize par <= 3 ->
      bkzLoop DEBUG fuel loop kappaMax (with_preprocessing pre par) minRow maxRow clean s
      = bkzLoop DEBUG fuel loop kappaMax par minRow maxRow clean s).
Proof.
  split.
  - intros kappa bs par clean H. apply svpReduction_skip. exact H.
  - intros loop kM par pre minRow maxRow clean H.
    unfold bkzLoop, bkzLoop_with, bind at 1 3.
    rewrite (bkzLoop_sweep_any_preprocessing fuel par pre maxRow H). reflexivity.
Qed.

(** *** Steps that reduce nothing *)

(** From [s] to [s'] the configuration is kept and no call was made on the
    LLL object, the enumerator or the rows of the basis. *)
Definition quiet_step (s s' : State) : Prop :=
  param s' = param s /\ numRows s' = numRows s /\ delta s' = delta s
  /\ reduction_calls (trace s') = reduction_calls (trace s).

#[local] Instance quiet_step_pre : Preorder quiet_step.
Proof.
  split; unfold quiet_step.
  - intros s. repeat split.
  - intros s1 s2 s3 (H1 & H2 & H3 & H4) (H5 & H6 & H7 & H8). repeat split; congruence.
Qed.

Ltac side_quiet :=
  unfold quiet_step, reduction_calls;
  cbn [trace param numRows delta step_world set_status set_maxDist set_deltaMaxDist
       set_cputimeStart set_solCoord];
  repeat split;
  first [ reflexivity
        | rewrite filter_app; cbn [filter is_reduction_call]; apply app_nil_r ].

Lemma getCurrentSlope_quiet a b : respects quiet_step (getCurrentSlope a b).
Proof. unfold getCurrentSlope. respects_with side_quiet. Qed.

Lemma testAbort_quiet sc mx a : respects quiet_step (testAbort sc mx a).
Proof.
  unfold testAbort. apply respects_bind; try exact _.
  - apply getCurrentSlope_quiet.
  - intros. apply respects_ret. exact _.
Qed.

Lemma dumpGSO_quiet f p a : respects quiet_step (dumpGSO f p a).
Proof. unfold dumpGSO. respects_with side_quiet. Qed.

Lemma setStatus_quiet st : respects quiet_step (setStatus st).
Proof. unfold setStatus. respects_with side_quiet. Qed.

#[local] Hint Resolve getCurrentSlope_quiet testAbort_quiet dumpGSO_quiet
  setStatus_quiet : frames.

Lemma bkz_guards_quiet iLoop aa : respects quiet_step (bkz_guards iLoop aa).
Proof. unfold bkz_guards. respects_with side_quiet. Qed.

Lemma bkzLoop_report_quiet loop par minRow maxRow :
  respects quiet_step (bkzLoop_report loop par minRow maxRow).
Proof. unfold bkzLoop_report. respects_with side_quiet. Qed.

Lemma bkz_enter_quiet : respects quiet_step bkz_enter.
Proof. unfold bkz_enter, bkz_prelude. respects_with side_quiet. Qed.

Lemma bkz_epilogue_quiet st : respects quiet_step (bkz_epilogue st).
Proof. unfold bkz_epilogue. respects_with side_quiet. Qed.

Lemma bkz_enter_value (s : State) :
  wlp bkz_enter s (fun aa _ => aa = BKZAutoAbort.new (numRows s) 0).
Proof.
  unfold bkz_enter. apply wlp_gets.
  apply (wlp_bind_respects quiet_step).
  { apply respects_when; [exact _ | apply dumpGSO_quiet]. }
  intros _ s1 (_ & Hn & _). unfold bkz_prelude.
  apply wlp_gets. apply wlp_gets. rewrite Hn.
  do 4 (apply wlp_bind_any; intros ? ?). apply wlp_ret. reflexivity.
Qed.

Lemma bkz_enter_spec (s : State) :
  exists s1, bkz_enter s = Ok (BKZAutoAbort.new (numRows s) 0, s1) /\ quiet_step s s1.
Proof.
  destruct (total_bkz_enter s) as (aa & s1 & E).
  pose proof (wlp_elim _ _ _ _ _ (bkz_enter_value s) E) as Ha. cbn beta in Ha. subst aa.
  exists s1. split; [exact E|]. exact (wlp_elim _ _ _ _ _ (bkz_enter_quiet s) E).
Qed.

Lemma bkz_epilogue_spec st (s : State) :
  0 <= st < RED_STATUS_MAX ->
  exists s', bkz_epilogue st s = Ok (st =? RED_SUCCESS, s')
             /\ status s' = st /\ quiet_step s s'.
Proof.
  intros Htab. destruct (bkz_epilogue_returns st s Htab) as (s' & E & Hst).
  exists s'. split; [exact E|]. split; [exact Hst|].
  exact (wlp_elim _ _ _ _ _ (bkz_epilogue_quiet st s) E).
Qed.

(** X11. With BKZ_AUTO_ABORT set and autoAbort_maxNoDec <= 0, bkz reduces
    nothing: the first call to testAbort, made before the first tour,
    resets noDec from the sentinel to 0 and finds 0 >= maxNoDec. bkz
    returns true with status RED_SUCCESS, and has made no call on the LLL
    object, the enumerator or the rows of the basis. *)
Theorem auto_abort_before_first_tour fuel (s : State) :
  2 <= BKZParam.blockSize (param s) ->
  0 <= numRows s ->
  has_flag (BKZParam.flags (param s)) BKZ_MAX_LOOPS
  && (BKZParam.maxLoops (param s) <=? 0) = false ->
  has_flag (BKZParam.flags (param s)) BKZ_MAX_TIME = false ->
  has_flag (BKZParam.flags (param s)) BKZ_AUTO_ABORT = true ->
  BKZParam.autoAbort_maxNoDec (param s) <= 0 ->
  exists s',
    bkz DEBUG (S fuel) s = Ok (true, s')
    /\ status s' = RED_SUCCESS
    /\ reduction_calls (trace s') = reduction_calls (trace s).
Proof.
  intros Hbs Hn Hloops Htime Hauto Hmax.
  rewrite (bkz_unfold _ _ Hbs).
  destruct (bkz_enter_spec s) as (s1 & Ee & (Hp1 & Hn1 & _ & Hr1)).
  rewrite (bind_ok _ Ee). cbn [bkz_for].
  destruct (getCurrentSlope_ok 0 (numRows s) s1 (Z.le_refl 0) Hn) as (slope & s2 & Eg).
  pose proof (testAbort_unfold (BKZParam.autoAbort_scale (param s1))
                (BKZParam.autoAbort_maxNoDec (param s1))
                (BKZAutoAbort.new (numRows s) 0) s1 slope s2 Eg) as Eta.
  cbn [BKZAutoAbort.noDec BKZAutoAbort.new Z.eqb Pos.eqb orb] in Eta.
  assert (Hle : (BKZParam.autoAbort_maxNoDec (param s1) <=? 0) = true)
    by (apply Z.leb_le; rewrite Hp1; exact Hmax).
  rewrite Hle in Eta.
  assert (Q2 : quiet_step s1 s2)
    by exact (wlp_elim _ _ _ _ _ (testAbort_quiet _ _ _ s1) Eta).
  assert (Egu : bkz_guards 0 (BKZAutoAbort.new (numRows s) 0) s1
                = Ok ((Some (RED_SUCCESS : Z),
                       BKZAutoAbort.Build (d_min infinity (- slope)) 0 (numRows s) 0),
                      s2)).
  { unfold bkz_guards. rewrite bind_gets, Hp1, Hloops, Htime.
    unfold bind at 1, ret at 1. cbn iota. rewrite Hauto.
    rewrite <- Hp1, (bind_ok _ Eta). reflexivity. }
  rewrite (bind_ok _ (bind_ok _ Egu)).
  destruct (bkz_epilogue_spec RED_SUCCESS s2 success_in_table) as (s' & E & Hst & (_ & _ & _ & Hr3)).
  exists s'. split; [exact E|]. split; [exact Hst|].
  destruct Q2 as (_ & _ & _ & Hr2). congruence.
Qed.

(** *** A basis on which nothing improves *)

(** What the enumerator answers on the block [first, last): the squared
    norm and the coordinates. *)
Definition enum_answer (first last : Z) (p : list float) (w : W) : FT * list FT :=
  fst (enumerate (fst (getRExp first first w)) (snd (getRExp first first w))
                 first last p w).

(** The two calls of a block on which nothing is inserted. *)
Definition block_calls (par : BKZParam.t) (b : Z * Z) : list (@Call FT) :=
  [C_lll (if has_flag (BKZParam.flags par) BKZ_BOUNDED_LLL then fst b else 0)
         (fst b) (fst b + snd b);
   C_enumerate (fst b) (fst b + snd b)].

Lemma total_bkzLoop_report loop par minRow maxRow (s : State) :
  0 <= minRow -> 0 <= maxRow -> total (bkzLoop_report loop par minRow maxRow) s.
Proof.
  intros Hlo Hhi. unfold bkzLoop_report.
  apply total_bind_all.
  - apply total_when. apply total_bind_all; [apply total_gets|]. intros w s1.
    destruct (getRExp minRow minRow w) as [r0 expo].
    apply total_bind_all; [apply total_call_r|]. intros t s2.
    apply total_bind_all; [apply total_gets|]. intros t0 s3.
    apply total_bind_all; [apply total_emit|]. intros _ s4.
    apply total_bind_all; [|intros; apply total_emit].
    apply getCurrentSlope_ok; assumption.
  - intros _ s1. apply total_when.
    apply total_bind_all; [apply total_call_r|]. intros t s2.
    apply total_bind_all; [apply total_gets|]. intros t0 s3. apply total_dumpGSO.
Qed.

Section Steady.

Variable dl : FT.

(** The LLL object finds the rows reduced: it succeeds without a swap. *)
Hypothesis lll_quiet :
  forall a k b w, fst (lll a k b w) = true /\ lll_nSwaps (snd (lll a k b w)) <= 0.

(** The enumerator finds no vector shorter than [dl] times [r_{kappa,kappa}]. *)
Hypothesis enum_quiet :
  forall kappa last p w,
    kappa < last ->
    snd (enum_answer kappa last p w) <> []
    /\ last - kappa <= Z.of_nat (List.length (snd (enum_answer kappa last p w)))
    /\ 0 < nonzero_count (block_coords (last - kappa) (snd (enum_answer kappa last p w)))
    /\ FT_ge (fst (enum_answer kappa last p w))
             (FT_mul dl (fst (getRExp kappa kappa w))) = true.

Lemma steady_block fuel kappa bs par clean (s : State) :
  delta s = dl ->
  BKZParam.preprocessing par = None ->
  0 <= kappa -> 0 < bs -> kappa + bs <= Int32.max_signed ->
  exists s',
    svpReduction DEBUG (S fuel) kappa bs par clean s = Ok ((true, clean), s')
    /\ param s' = param s /\ numRows s' = numRows s /\ delta s' = delta s
    /\ trace s' = trace s ++ block_calls par (kappa, bs).
Proof.
  intros Hdl Hpre Hk Hbs Hmax.
  assert (Hadd : kappa +i bs = kappa + bs).
  { apply Int32.add_exact.
    unfold Int32.in_range, Int32.min_signed, Int32.max_signed in *. lia. }
  set (lllStart := if has_flag (BKZParam.flags par) BKZ_BOUNDED_LLL then kappa else 0).
  destruct (lll_quiet lllStart kappa (kappa +i bs) (world s)) as [Hok Hsw].
  set (s1 := step_world (C_lll lllStart kappa (kappa +i bs))
                        (snd (lll lllStart kappa (kappa +i bs) (world s))) s).
  assert (E1 : svp_lll kappa bs par clean s = Ok (inr clean, s1)).
  { unfold svp_lll. fold lllStart.
    rewrite (bind_ok _ (call_r_eq _ _ _)), Hok. cbn [negb].
    rewrite bind_gets. cbn [world step_world].
    destruct (Z.ltb_spec 0 (lll_nSwaps (snd (lll lllStart kappa (kappa +i bs) (world s)))));
      [lia | reflexivity]. }
  rewrite (svpReduction_insert _ _ _ _ _ _ _ _
             (before_enumerate_plain _ _ _ _ _ _ _ _ Hpre E1)).
  destruct (enum_quiet kappa (kappa +i bs) (BKZParam.pruning par) (world s1))
    as (Hne & Hlen & Hnz & Hge); [lia|].
  replace (kappa +i bs - kappa) with bs in * by lia.
  rewrite svp_insert_decide.
  - change (maxDist (svp_enumerate_state kappa bs par s1))
      with (fst (enum_answer kappa (kappa +i bs) (BKZParam.pruning par) (world s1))).
    change (deltaMaxDist (svp_enumerate_state kappa bs par s1))
      with (FT_mul (delta s) (fst (getRExp kappa kappa (world s1)))).
    rewrite <- Hdl in Hge. rewrite Hge. eexists. split; [reflexivity|].
    cbn [param numRows delta trace svp_enumerate_state]. repeat split.
    unfold s1, block_calls. cbn [trace step_world fst snd].
    rewrite Hadd, <- app_assoc. reflexivity.
  - exact Hne.
  - exact Hlen.
  - unfold Int32.max_signed in *. lia.
  - right. exact Hnz.
Qed.

Lemma steady_blocks fuel par :
  BKZParam.preprocessing par = None ->
  forall blocks kM (s : State),
    delta s = dl ->
    Forall (fun b => 0 <= fst b /\ 0 < snd b /\ fst b + snd b <= Int32.max_signed)
           blocks ->
    exists kM' s',
      reduce_blocks (svpReduction DEBUG (S fuel)) blocks kM par true s
      = Ok ((true, kM', true), s')
      /\ param s' = param s /\ numRows s' = numRows s /\ delta s' = delta s
      /\ reduction_calls (trace s')
         = reduction_calls (trace s) ++ flat_map (block_calls par) blocks.
Proof.
  intros Hpre blocks. induction blocks as [|[kappa bs] rest IH]; intros kM s Hdl Hall.
  - exists kM, s. cbn [reduce_blocks flat_map]. rewrite app_nil_r. repeat split.
  - pose proof (Forall_inv Hall) as (Hk & Hbs & Hmax).
    pose proof (Forall_inv_tail Hall) as Hrest. cbn [fst snd] in Hk, Hbs, Hmax.
    destruct (steady_block fuel kappa bs par true s Hdl Hpre Hk Hbs Hmax)
      as (s1 & E1 & Hp1 & Hn1 & Hd1 & Ht1).
    cbn [reduce_blocks]. rewrite (bind_ok _ E1). cbn [negb].
    assert (Hr1 : reduction_calls (trace s1)
                  = reduction_calls (trace s) ++ block_calls par (kappa, bs)).
    { rewrite Ht1. unfold reduction_calls. rewrite filter_app. reflexivity. }
    destruct (_ && _).
    + unfold bind at 1, emit at 1.
      destruct (IH kappa (step_world
                            (C_cerr (MsgBlockReduced (kappa + 1) (BKZParam.blockSize par)))
                            (world s1) s1))
        as (kM' & s' & E & Hp & Hn & Hd & Hr);
        [cbn [delta step_world]; congruence | exact Hrest |].
      exists kM', s'. split; [exact E|]. cbn [param numRows delta step_world] in *.
      repeat split; try congruence.
      rewrite Hr. cbn [trace step_world flat_map]. unfold reduction_calls at 1.
      rewrite filter_app. cbn [filter is_reduction_call]. rewrite app_nil_r.
      fold (reduction_calls (trace s1)). rewrite Hr1, <- app_assoc. reflexivity.
    + destruct (IH kM s1) as (kM' & s' & E & Hp & Hn & Hd & Hr);
        [congruence | exact Hrest |].
      exists kM', s'. split; [exact E|]. repeat split; try congruence.
      rewrite Hr, Hr1. cbn [flat_map]. rewrite <- app_assoc. reflexivity.
Qed.

(** X12. A basis on which nothing improves costs one tour. When the LLL
    object always succeeds without a swap and the enumerator never returns
    a vector shorter than delta times r_{kappa,kappa}, bkz (block size at
    least 2, no preprocessing, no cap reached, no auto-abort, fuel for one
    tour) returns true with status RED_SUCCESS after a single tour: for
    each block, in order, one LLL call and one enumeration, and no row
    edit at all. With fewer than two rows it calls neither. *)
Theorem steady_basis_one_tour fuel (s : State) :
  delta s = dl ->
  2 <= BKZParam.blockSize (param s) ->
  BKZParam.preprocessing (param s) = None ->
  has_flag (BKZParam.flags (param s)) BKZ_MAX_LOOPS
  && (BKZParam.maxLoops (param s) <=? 0) = false ->
  has_flag (BKZParam.flags (param s)) BKZ_MAX_TIME = false ->
  has_flag (BKZParam.flags (param s)) BKZ_AUTO_ABORT = false ->
  0 <= numRows s <= Int32.max_signed ->
  (Z.to_nat (numRows s - 1) < fuel)%nat ->
  exists s',
    bkz DEBUG (S fuel) s = Ok (true, s')
    /\ status s' = RED_SUCCESS
    /\ reduction_calls (trace s')
       = reduction_calls (trace s)
         ++ flat_map (block_calls (param s)) (tour_blocks (param s) 0 (numRows s)).
Proof.
  intros Hdl Hbs Hpre Hloops Htime Hauto Hn Hfuel.
  rewrite (bkz_unfold _ _ Hbs).
  destruct (bkz_enter_spec s) as (s1 & Ee & (Hp1 & Hn1 & Hd1 & Hr1)).
  rewrite (bind_ok _ Ee).
  set (aa := BKZAutoAbort.new (numRows s) 0).
  assert (Egu : bkz_guards 0 aa s1 = Ok ((None, aa), s1)).
  { unfold bkz_guards. rewrite bind_gets, Hp1, Hloops, Htime.
    unfold bind at 1, ret at 1. cbn iota. rewrite Hauto. reflexivity. }
  destruct fuel as [|fuel]; [lia|].
  assert (Hall : Forall (fun b => 0 <= fst b /\ 0 < snd b
                                  /\ fst b + snd b <= Int32.max_signed)
                        (tour_blocks (param s) 0 (numRows s))).
  { apply Forall_forall. intros [k b] Hin. unfold tour_blocks in Hin.
    apply in_map_iff in Hin. destruct Hin as (k0 & E & Hk).
    apply In_seqZ in Hk. inversion E as [[E1 E2]]. cbn [fst snd]. lia. }
  destruct (steady_blocks fuel (param s) Hpre (tour_blocks (param s) 0 (numRows s)) 0 s1
              ltac:(congruence) Hall)
    as (kM' & s2 & Esw & Hp2 & Hn2 & Hd2 & Hr2).
  assert (Hsweep : bkzLoop_sweep (svpReduction DEBUG (S fuel)) (S fuel) 0 0 (param s)
                                 (numRows s) true s1
                   = Ok ((true, kM', true), s2)).
  { rewrite (bkzLoop_sweep_seq _ (param s) (numRows s)
               ltac:(unfold Int32.min_signed; lia)
               (Z.to_nat (numRows s - 1 - 0)) (S fuel) 0 0 true s1
               (Z.le_refl 0) eq_refl ltac:(lia)).
    exact Esw. }
  destruct (total_bkzLoop_report 0 (param s) 0 (numRows s) s2 (Z.le_refl 0)
              ltac:(lia)) as ([] & s3 & Er).
  pose proof (wlp_elim _ _ _ _ _ (bkzLoop_report_quiet _ _ _ _ s2) Er)
    as (Hp3 & Hn3 & Hd3 & Hr3).
  assert (Efor : bkz_for DEBUG (S (S fuel)) 0 0 aa s1 = Ok (Some (RED_SUCCESS : Z), s3)).
  { assert (Etour : bkzLoop DEBUG (S fuel) 0 0 (param s) 0 (numRows s) true s1
                    = Ok ((true, kM', true), s3)).
    { unfold bkzLoop, bkzLoop_with. rewrite (bind_ok _ Hsweep). cbn [negb].
      rewrite (bind_ok _ Er). reflexivity. }
    cbn [bkz_for]. rewrite (bind_ok _ Egu), !bind_gets, Hp1, Hn1.
    rewrite (bind_ok _ Etour). reflexivity. }
  rewrite (bind_ok _ Efor).
  destruct (bkz_epilogue_spec RED_SUCCESS s3 success_in_table) as (s' & E & Hst & (_ & _ & _ & Hr4)).
  exists s'. split; [exact E|]. split; [exact Hst|].
  rewrite Hr4, Hr3, Hr2, Hr1. reflexivity.
Qed.

End Steady.

(** *** kappaMax *)

Lemma bkzLoop_sweep_kappaMax svp fuel :
  forall kappa kM par maxRow clean (s : State),
    Int32.min_signed <= kappa ->
    wlp (bkzLoop_sweep svp fuel kappa kM par maxRow clean) s
        (fun r _ =>
           kM <= snd (fst r)
           /\ (has_flag (BKZParam.flags par) BKZ_VERBOSE = false -> snd (fst r) = kM)
           /\ (snd (fst r) <> kM -> kappa <= snd (fst r) < maxRow -i 1)).
Proof.
  induction fuel as [|fuel IH]; intros kappa kM par maxRow clean s Hmin; [exact I|].
  cbn [bkzLoop_sweep].
  destruct (Z.ltb_spec kappa (maxRow -i 1)) as [Hlt|Hge].
  - assert (Hinc : Int32.incr kappa = kappa + 1).
    { apply Int32.incr_exact. pose proof (Int32.wrap_range (maxRow - 1)) as Hw.
      unfold Int32.sub, Int32.in_range in *.
      lia. }
    apply wlp_bind_any. intros [ok c] s1. destruct ok; cbn [negb].
    + destruct (has_flag (BKZParam.flags par) BKZ_VERBOSE) eqn:Ev;
        destruct (Z.ltb_spec kM kappa) as [Hk|Hk]; destruct c; cbn [andb];
          try (eapply wlp_weaken; [apply IH; rewrite Hinc; lia|];
               cbn beta; intros r _ (H1 & H2 & H3);
               rewrite Ev in H2; rewrite Hinc in H3;
               split; [exact H1|]; split; [exact H2|]; intros Hne;
               specialize (H3 Hne); lia).
      apply wlp_bind_any. intros _ s2.
      eapply wlp_weaken; [apply IH; rewrite Hinc; lia|].
      cbn beta. intros r _ (H1 & H2 & H3). rewrite Hinc in H3.
      split; [lia|]. split; [discriminate|]. intros Hne.
      destruct (Z.eq_dec (snd (fst r)) kappa) as [Hd|Hd]; [lia|].
      specialize (H3 Hd). lia.
    + apply wlp_ret. cbn [fst snd]. split; [lia|]. split; [reflexivity|]. contradiction.
  - apply wlp_ret. cbn [fst snd]. split; [lia|]. split; [reflexivity|]. contradiction.
Qed.

(** X13. kappaMax only grows, and only under BKZ_VERBOSE: a tour hands
    back the value it was given unless BKZ_VERBOSE is set, and a value it
    changes is the first row of a block of this tour. *)
Theorem kappaMax_only_grows fuel loop kappaMax par minRow maxRow clean (s : State)
    ok kappaMax' clean' s' :
  Int32.min_signed <= minRow ->
  bkzLoop DEBUG fuel loop kappaMax par minRow maxRow clean s
  = Ok ((ok, kappaMax', clean'), s') ->
  kappaMax <= kappaMax'
  /\ (has_flag (BKZParam.flags par) BKZ_VERBOSE = false -> kappaMax' = kappaMax)
  /\ (kappaMax' <> kappaMax -> minRow <= kappaMax' < maxRow -i 1).
Proof.
  intros Hmin E.
  assert (H : wlp (bkzLoop DEBUG fuel loop kappaMax par minRow maxRow clean) s
                  (fun r _ =>
                     kappaMax <= snd (fst r)
                     /\ (has_flag (BKZParam.flags par) BKZ_VERBOSE = false ->
                         snd (fst r) = kappaMax)
                     /\ (snd (fst r) <> kappaMax ->
                         minRow <= snd (fst r) < maxRow -i 1))).
  { unfold bkzLoop, bkzLoop_with. apply wlp_bind.
    eapply wlp_weaken; [apply bkzLoop_sweep_kappaMax; exact Hmin|].
    cbn beta. intros [[ok1 kM1] c1] s1 H1. cbn [fst snd] in H1.
    destruct ok1; cbn [negb].
    - apply wlp_bind_any. intros _ s2. apply wlp_ret. exact H1.
    - apply wlp_ret. exact H1. }
  exact (wlp_elim _ _ _ _ _ H E).
Qed.

(** *** The auto-abort of the preprocessing loop *)

(** X14. The preprocessing loop of svpReduction consults testAbort
    whatever BKZ_AUTO_ABORT says. So with autoAbort_maxNoDec <= 0 (and no
    cap in the way) the preprocessing never runs a tour: the first call to
    testAbort ends the loop, and svpReduction goes on to the enumeration
    with clean as it was, having called only the clock and updateGSORow. *)
Theorem preprocessing_auto_abort tour fuel kappa blockSize par clean (s : State) :
  has_flag (BKZParam.flags par) BKZ_MAX_LOOPS && (BKZParam.maxLoops par <=? 0) = false ->
  has_flag (BKZParam.flags par) BKZ_MAX_TIME = false ->
  BKZParam.autoAbort_maxNoDec par <= 0 ->
  0 <= kappa -> 0 <= kappa +i blockSize ->
  exists s',
    svp_preproc tour (S fuel) kappa blockSize par clean s = Ok ((true, clean), s')
    /\ reduction_calls (trace s') = reduction_calls (trace s)
    /\ param s' = param s /\ numRows s' = numRows s /\ status s' = status s.
Proof.
  intros Hloops Htime Hmax Hk Hkb. unfold svp_preproc.
  destruct (BKZParam.preprocessing par) as [pre|];
    [|exists s; repeat split].
  destruct ((BKZParam.blockSize pre <? blockSize) && (2 <? BKZParam.blockSize pre));
    [|exists s; repeat split].
  rewrite bind_gets, (bind_ok _ (call_r_eq _ _ _)).
  set (s1 := step_world C_cputime (snd (cputime (world s))) s).
  destruct (getCurrentSlope_ok kappa (kappa +i blockSize) s1 Hk Hkb) as (slope & s2 & Eg).
  pose proof (testAbort_unfold (BKZParam.autoAbort_scale par)
                (BKZParam.autoAbort_maxNoDec par)
                (BKZAutoAbort.new (kappa +i blockSize) kappa) s1 slope s2 Eg) as Eta.
  cbn [BKZAutoAbort.noDec BKZAutoAbort.new Z.eqb Pos.eqb orb] in Eta.
  apply Z.leb_le in Hmax. rewrite Hmax in Eta.
  pose proof (wlp_elim _ _ _ _ _ (testAbort_quiet _ _ _ s1) Eta) as (Hp & Hn & _ & Hr).
  pose proof (wlp_elim _ _ _ _ _ (testAbort_same_status _ _ _ s1) Eta) as Hst.
  cbn [svp_preproc_for]. unfold svp_preproc_guards.
  rewrite Hloops, Htime. unfold bind at 2, ret at 1. cbn iota.
  rewrite (bind_ok _ Eta).
  exists s2. split; [reflexivity|]. unfold same_status in Hst. split.
  - rewrite Hr. unfold s1, reduction_calls. cbn [trace step_world].
    rewrite filter_app. cbn [filter is_reduction_call]. apply app_nil_r.
  - rewrite Hp, Hn, Hst. repeat split.
Qed.

Lemma total_bkz_small fuel (s : State) :
  BKZParam.blockSize (param s) < 2 -> total (bkz DEBUG fuel) s.
Proof.
  intros Hbs. unfold bkz, total. rewrite bind_gets.
  destruct (total_when (has_flag (BKZParam.flags (param s)) BKZ_DUMP_GSO)
              (dumpGSO (BKZParam.dumpGSOFilename (param s)) DumpInput false) s
              (total_dumpGSO _ _ _ s)) as ([] & s1 & E).
  rewrite (bind_ok _ E). apply Z.ltb_lt in Hbs. rewrite Hbs, setStatus_success.
  eexists _, _. reflexivity.
Qed.

(** *** The reads of the driver stay in range *)

(** bkz.cpp indexes three vectors itself: [x] in getCurrentSlope,
    [evaluator.solCoord] in svpReduction and [RED_STATUS_STR] in
    setStatus. An outcome is in range when none of these reads was out of
    range and no assertion failed: the run returned, or it is the fuel of
    the model that ran out. The rows named in the calls on the
    Gram-Schmidt object are not the driver's reads; they are in the
    trace. *)
Definition in_range {A} (o : outcome A) : Prop :=
  match o with
  | Ok _ => True
  | Stuck OutOfFuel => True
  | Stuck _ => False
  end.

Definition safe {A} (c : M A) (s : State) : Prop :=
  forall why, c s = Stuck why -> why = OutOfFuel.

Lemma safe_in_range {A} (c : M A) (s : State) : safe c s -> in_range (c s).
Proof.
  intros H. unfold in_range. destruct (c s) as [r|why] eqn:E; [exact I|].
  rewrite (H why E). exact I.
Qed.

Lemma safe_total {A} (c : M A) (s : State) : total c s -> safe c s.
Proof. intros (a & s' & E) why H. congruence. Qed.

Lemma safe_ret {A} (a : A) (s : State) : safe (ret a) s.
Proof. intros why H. discriminate. Qed.

Lemma safe_out_of_fuel {A} (s : State) : safe (@stuck W FT A OutOfFuel) s.
Proof. intros why H. inversion H. reflexivity. Qed.

Lemma safe_bind {A B} (c : M A) (k : A -> M B) (s : State) :
  safe c s -> (forall a s', c s = Ok (a, s') -> safe (k a) s') -> safe (bind c k) s.
Proof.
  intros Hc Hk why. unfold bind. destruct (c s) as [[a s1]|w] eqn:E.
  - apply (Hk a s1 eq_refl).
  - intros H. injection H as <-. apply Hc. exact E.
Qed.

Lemma total_setStatus st (s : State) :
  0 <= st < RED_STATUS_MAX -> total (setStatus st) s.
Proof. intros H. eexists _, _. apply setStatus_eq. right. exact H. Qed.

Lemma total_testAbort sc mx aa (s : State) :
  0 <= BKZAutoAbort.startRow aa -> 0 <= BKZAutoAbort.numRows aa ->
  total (testAbort sc mx aa) s.
Proof.
  intros Hlo Hhi. destruct (getCurrentSlope_ok _ _ s Hlo Hhi) as (slope & s1 & E).
  eexists _, _. apply (testAbort_unfold sc mx aa s slope s1 E).
Qed.

Lemma testAbort_range sc mx aa (s : State) :
  wlp (testAbort sc mx aa) s
      (fun r _ => BKZAutoAbort.startRow (snd r) = BKZAutoAbort.startRow aa
                  /\ BKZAutoAbort.numRows (snd r) = BKZAutoAbort.numRows aa).
Proof.
  unfold testAbort. apply wlp_bind_any. intros slope s1. apply wlp_ret.
  split; reflexivity.
Qed.

Lemma total_svp_preproc_guards i par t0 aa (s : State) :
  0 <= BKZAutoAbort.startRow aa -> 0 <= BKZAutoAbort.numRows aa ->
  total (svp_preproc_guards i par t0 aa) s.
Proof.
  intros Hlo Hhi. unfold svp_preproc_guards.
  destruct (_ && _); [apply total_ret|].
  apply total_bind_all.
  - destruct (has_flag _ _); [|apply total_ret].
    apply total_bind_all; [apply total_call_r|]. intros. apply total_ret.
  - intros late s1. destruct late; [apply total_ret|].
    apply total_testAbort; assumption.
Qed.

Lemma svp_preproc_guards_range i par t0 aa (s : State) :
  wlp (svp_preproc_guards i par t0 aa) s
      (fun r _ => BKZAutoAbort.startRow (snd r) = BKZAutoAbort.startRow aa
                  /\ BKZAutoAbort.numRows (snd r) = BKZAutoAbort.numRows aa).
Proof.
  unfold svp_preproc_guards.
  destruct (_ && _); [apply wlp_ret; split; reflexivity|].
  apply wlp_bind_any. intros late s1.
  destruct late; [apply wlp_ret; split; reflexivity|]. apply testAbort_range.
Qed.

Lemma total_bkz_guards iLoop aa (s : State) :
  0 <= BKZAutoAbort.startRow aa -> 0 <= BKZAutoAbort.numRows aa ->
  total (bkz_guards iLoop aa) s.
Proof.
  intros Hlo Hhi. unfold bkz_guards.
  apply total_bind_all; [apply total_gets|]. intros par s0.
  destruct (_ && _); [apply total_ret|].
  apply total_bind_all.
  - destruct (has_flag _ BKZ_MAX_TIME); [|apply total_ret].
    apply total_bind_all; [apply total_call_r|]. intros t s1.
    apply total_bind_all; [apply total_gets|]. intros. apply total_ret.
  - intros late s1. destruct late; [apply total_ret|].
    destruct (has_flag _ BKZ_AUTO_ABORT); [|apply total_ret].
    apply total_bind_all; [apply total_testAbort; assumption|].
    intros [abort aa'] s2. apply total_ret.
Qed.

Lemma bkz_guards_range iLoop aa (s : State) :
  wlp (bkz_guards iLoop aa) s
      (fun r _ => BKZAutoAbort.startRow (snd r) = BKZAutoAbort.startRow aa
                  /\ BKZAutoAbort.numRows (snd r) = BKZAutoAbort.numRows aa).
Proof.
  unfold bkz_guards. apply wlp_gets.
  destruct (_ && _); [apply wlp_ret; split; reflexivity|].
  apply wlp_bind_any. intros late s1.
  destruct late; [apply wlp_ret; split; reflexivity|].
  destruct (has_flag _ BKZ_AUTO_ABORT); [|apply wlp_ret; split; reflexivity].
  apply wlp_bind. eapply wlp_weaken; [apply testAbort_range|].
  intros [abort aa'] s2 H. apply wlp_ret. exact H.
Qed.

Lemma bkz_guards_status iLoop aa (s : State) :
  wlp (bkz_guards iLoop aa) s
      (fun r _ => forall st, fst r = Some st -> 0 <= st < RED_STATUS_MAX).
Proof.
  unfold bkz_guards. apply wlp_gets.
  destruct (_ && _); [apply wlp_ret; intros st [= <-]; cbn; lia|].
  apply wlp_bind_any. intros late s1.
  destruct late; [apply wlp_ret; intros st [= <-]; cbn; lia|].
  destruct (has_flag _ BKZ_AUTO_ABORT); [|apply wlp_ret; intros st H; discriminate].
  apply wlp_bind_any. intros [abort aa'] s2. apply wlp_ret.
  destruct abort; intros st H; cbn in H; [injection H as <-; cbn; lia | discriminate].
Qed.

(** The status with which the main loop is left is one of RED_SUCCESS,
    RED_BKZ_LOOPS_LIMIT and RED_BKZ_TIME_LIMIT. *)
Lemma bkz_for_status fuel :
  forall iLoop kM aa (s : State),
    wlp (bkz_for DEBUG fuel iLoop kM aa) s
        (fun r _ => forall st, r = Some st -> 0 <= st < RED_STATUS_MAX).
Proof.
  induction fuel as [|fuel IH]; intros iLoop kM aa s; [exact I|].
  cbn [bkz_for]. apply wlp_bind.
  eapply wlp_weaken; [apply bkz_guards_status|].
  intros [stop aa'] s1 H. cbn [fst] in H.
  destruct stop as [st|].
  - apply wlp_ret. intros st' [= <-]. apply H. reflexivity.
  - apply wlp_gets. apply wlp_gets. apply wlp_bind_any.
    intros [[ok kM'] c] s2. destruct ok; cbn [negb]; [|apply wlp_ret; discriminate].
    destruct (c || _); [apply wlp_ret; intros st [= <-]; cbn; lia | apply IH].
Qed.

Section Safe.

Hypothesis release : DEBUG = false.

(** The enumerator leaves no coordinates at all, or at least as many as
    the block has rows. *)
Hypothesis enum_coords :
  forall r e first last p w,
    snd (fst (enumerate r e first last p w)) = []
    \/ last - first <= Z.of_nat (List.length (snd (fst (enumerate r e first last p w)))).

(** The status of the LLL object is one of those [RED_STATUS_STR]
    names. *)
Hypothesis lll_status_in_table : forall w, 0 <= lll_status w < RED_STATUS_MAX.

Lemma total_adopt_status {A} (k : bool -> A) w (s : State) :
  total (bind (setStatus (lll_status w)) (fun b => ret (k b))) s.
Proof.
  apply total_bind_all; [apply total_setStatus, lll_status_in_table|].
  intros. apply total_ret.
Qed.

Lemma total_svp_lll kappa bs par clean (s : State) : total (svp_lll kappa bs par clean) s.
Proof.
  unfold svp_lll. apply total_bind_all; [apply total_call_r|]. intros ok s1.
  destruct ok; cbn [negb].
  - apply total_bind_all; [apply total_gets|]. intros. apply total_ret.
  - unfold total. rewrite bind_gets. apply (total_adopt_status inl).
Qed.

Lemma total_svp_insert kappa bs clean (s : State) :
  solCoord s = [] \/ bs <= Z.of_nat (List.length (solCoord s)) ->
  bs <= Int32.max_signed ->
  total (svp_insert DEBUG kappa bs clean) s.
Proof.
  intros Hsol Hmax.
  destruct (solCoord s) as [|x sc] eqn:Esc.
  - unfold svp_insert, total. rewrite bind_gets, Esc.
    rewrite (bind_ok _ (setStatus_eq _ _ (enum_failure_printable _))).
    eexists _, _. reflexivity.
  - destruct Hsol as [Hsol|Hlen]; [discriminate|]. rewrite <- Esc in Hlen.
    unfold total. rewrite svp_insert_decide;
      [ | rewrite Esc; discriminate | exact Hlen | exact Hmax | left; exact release ].
    destruct (FT_ge _ _); [eexists _, _; reflexivity|].
    destruct (_ =? 1).
    + rewrite (svp_insert_row_run _ _ _ _ (or_introl release)). unfold row_case_run.
      destruct (fst _); [eexists _, _; reflexivity|].
      apply (total_adopt_status (fun b => (b, clean))).
    + rewrite (svp_insert_general_run _ _ _ _ Hlen). unfold general_case_run.
      cbv zeta. rewrite release. cbn [andb].
      destruct (fst _); [eexists _, _; reflexivity|].
      apply (total_adopt_status (fun b => (b, clean))).
Qed.

Lemma safe_bkzLoop_sweep svp par maxRow :
  0 <= maxRow <= Int32.max_signed ->
  Int32.min_signed <= BKZParam.blockSize par ->
  (forall kappa bs clean (s : State),
      0 <= kappa -> Int32.min_signed <= bs -> kappa + bs <= Int32.max_signed ->
      safe (svp kappa bs par clean) s) ->
  forall fuel kappa kM clean (s : State),
    0 <= kappa -> safe (bkzLoop_sweep svp fuel kappa kM par maxRow clean) s.
Proof.
  intros HmaxRow Hbs Hsvp.
  assert (Hsub : maxRow -i 1 = maxRow - 1).
  { apply Int32.sub_exact.
    unfold Int32.in_range, Int32.min_signed, Int32.max_signed in *. lia. }
  induction fuel as [|fuel IH]; intros kappa kM clean s Hk; [apply safe_out_of_fuel|].
  cbn [bkzLoop_sweep]. rewrite Hsub.
  destruct (Z.ltb_spec kappa (maxRow - 1)); [|apply safe_ret].
  assert (Hrow : maxRow -i kappa = maxRow - kappa).
  { apply Int32.sub_exact.
    unfold Int32.in_range, Int32.min_signed, Int32.max_signed in *. lia. }
  assert (Hinc : Int32.incr kappa = kappa + 1).
  { apply Int32.incr_exact. unfold Int32.min_signed, Int32.max_signed in *. lia. }
  rewrite Hrow, Int32.min_spec, Hinc.
  apply safe_bind;
    [apply Hsvp; unfold Int32.min_signed, Int32.max_signed in *; lia|].
  intros [ok c] s1 _. destruct ok; cbn [negb]; [|apply safe_ret].
  destruct (_ && _).
  - apply safe_bind; [apply safe_total, total_emit|]. intros _ s2 _. apply IH. lia.
  - apply IH. lia.
Qed.

Lemma safe_bkzLoop_with svp fuel loop kM par minRow maxRow clean (s : State) :
  0 <= minRow ->
  0 <= maxRow <= Int32.max_signed ->
  Int32.min_signed <= BKZParam.blockSize par ->
  (forall kappa bs clean (s : State),
      0 <= kappa -> Int32.min_signed <= bs -> kappa + bs <= Int32.max_signed ->
      safe (svp kappa bs par clean) s) ->
  safe (bkzLoop_with svp fuel loop kM par minRow maxRow clean) s.
Proof.
  intros Hmin Hmax Hbs Hsvp. unfold bkzLoop_with.
  apply safe_bind; [apply safe_bkzLoop_sweep; assumption|].
  intros [[ok kM'] c] s1 _. destruct ok; cbn [negb]; [|apply safe_ret].
  apply safe_bind; [|intros; apply safe_ret].
  apply safe_total, total_bkzLoop_report; lia.
Qed.

Lemma safe_svp_preproc_for tour par :
  (forall i kM c (s : State), safe (tour i kM c) s) ->
  forall fuel i t0 kM aa clean (s : State),
    0 <= BKZAutoAbort.startRow aa -> 0 <= BKZAutoAbort.numRows aa ->
    safe (svp_preproc_for tour fuel i par t0 kM aa clean) s.
Proof.
  intros Htour fuel.
  induction fuel as [|fuel IH]; intros i t0 kM aa clean s Hlo Hhi;
    [apply safe_out_of_fuel|].
  cbn [svp_preproc_for].
  apply safe_bind; [apply safe_total, total_svp_preproc_guards; assumption|].
  intros [stop aa'] s1 E.
  pose proof (wlp_elim _ _ _ _ _ (svp_preproc_guards_range i par t0 aa s) E) as [H1 H2].
  cbn [snd] in H1, H2.
  destruct stop; [apply safe_ret|].
  apply safe_bind; [apply Htour|].
  intros [[ok kM'] c2] s2 _. destruct ok; cbn [negb]; [|apply safe_ret].
  destruct c2; [apply safe_ret|]. apply IH; lia.
Qed.

Lemma safe_svp_preproc tour fuel kappa bs par clean (s : State) :
  0 <= kappa -> kappa + bs <= Int32.max_signed ->
  (forall pre, BKZParam.preprocessing par = Some pre ->
               2 < BKZParam.blockSize pre < bs ->
               forall i kM c (s : State), safe (tour pre i kM c) s) ->
  safe (svp_preproc tour fuel kappa bs par clean) s.
Proof.
  intros Hk Hmax Htour. unfold svp_preproc.
  destruct (BKZParam.preprocessing par) as [pre|]; [|apply safe_ret].
  destruct (Z.ltb_spec (BKZParam.blockSize pre) bs);
    destruct (Z.ltb_spec 2 (BKZParam.blockSize pre)); cbn [andb]; try apply safe_ret.
  assert (Hadd : kappa +i bs = kappa + bs).
  { apply Int32.add_exact.
    unfold Int32.in_range, Int32.min_signed, Int32.max_signed in *. lia. }
  apply safe_bind; [apply safe_total, total_gets|]. intros kM s1 _.
  apply safe_bind; [apply safe_total, total_call_r|]. intros t s2 _.
  apply safe_svp_preproc_for.
  - apply (Htour pre eq_refl). lia.
  - exact Hk.
  - cbn [BKZAutoAbort.numRows BKZAutoAbort.new]. lia.
Qed.

Lemma safe_svpReduction fuel :
  forall kappa bs par clean (s : State),
    0 <= kappa -> Int32.min_signed <= bs -> kappa + bs <= Int32.max_signed ->
    safe (svpReduction DEBUG fuel kappa bs par clean) s.
Proof.
  induction fuel as [|fuel IH]; intros kappa bs par clean s Hk Hbs Hmax;
    [apply safe_out_of_fuel|].
  assert (Hadd : kappa +i bs = kappa + bs).
  { apply Int32.add_exact.
    unfold Int32.in_range, Int32.min_signed, Int32.max_signed in *. lia. }
  cbn [svpReduction].
  apply safe_bind; [apply safe_total, total_svp_lll|].
  intros [b|c1] s1 _; [apply safe_ret|].
  apply safe_bind.
  { apply safe_svp_preproc; [exact Hk | exact Hmax |].
    intros pre Hpre Hsize i kM c s'.
    apply safe_bkzLoop_with;
      [ exact Hk | rewrite Hadd; lia | unfold Int32.min_signed; lia
      | intros kappa' bs' c' s''; apply IH ]. }
  intros [go c2] s2 _. destruct go; cbn [negb]; [|apply safe_ret].
  apply safe_bind.
  { apply safe_total. eexists _, _. apply svp_enumerate_eq. }
  intros [] s3 E3. rewrite svp_enumerate_eq in E3. injection E3 as <-.
  apply safe_total, total_svp_insert; [|unfold Int32.max_signed in *; lia].
  cbn [solCoord svp_enumerate_state].
  destruct (enum_coords (fst (getRExp kappa kappa (world s2)))
              (snd (getRExp kappa kappa (world s2))) kappa (kappa +i bs)
              (BKZParam.pruning par) (world s2)) as [H|H]; [left; exact H|].
  right. rewrite Hadd in H at 1. lia.
Qed.

Lemma safe_bkz_for fuel :
  forall iLoop kM aa (s : State),
    0 <= numRows s <= Int32.max_signed ->
    Int32.min_signed <= BKZParam.blockSize (param s) ->
    0 <= BKZAutoAbort.startRow aa -> 0 <= BKZAutoAbort.numRows aa ->
    safe (bkz_for DEBUG fuel iLoop kM aa) s.
Proof.
  induction fuel as [|fuel IH]; intros iLoop kM aa s Hn Hbs Hlo Hhi;
    [apply safe_out_of_fuel|].
  cbn [bkz_for].
  apply safe_bind; [apply safe_total, total_bkz_guards; assumption|].
  intros [stop aa'] s1 E.
  pose proof (wlp_elim _ _ _ _ _ (bkz_guards_range iLoop aa s) E) as [H1 H2].
  pose proof (wlp_elim _ _ _ _ _ (bkz_guards_quiet iLoop aa s) E) as (Hp1 & Hn1 & _).
  cbn [snd] in H1, H2.
  destruct stop; [apply safe_ret|].
  apply safe_bind; [apply safe_total, total_gets|]. intros par s2 Ep.
  injection Ep as <- <-.
  apply safe_bind; [apply safe_total, total_gets|]. intros n s3 En.
  injection En as <- <-.
  apply safe_bind.
  { apply safe_bkzLoop_with;
      [ lia | rewrite Hn1; exact Hn | rewrite Hp1; exact Hbs
      | intros kappa bs c s'; apply safe_svpReduction ]. }
  intros [[ok kM'] c] s2 E2. destruct ok; cbn [negb]; [|apply safe_ret].
  destruct (c || _); [apply safe_ret|].
  assert (Hcfg : same_config s1 s2).
  { assert (Hc : forall c0 w s0, driver_call c0 -> same_config s0 (step_world c0 w s0))
      by (intros; repeat split).
    assert (H : respects same_config
                  (bkzLoop DEBUG fuel iLoop kM (param s1) 0 (numRows s1) true))
      by (apply frame_bkzLoop; try exact _; intros;
          first [apply Hc; assumption | repeat split]).
    exact (wlp_elim _ _ _ _ _ (H s1) E2). }
  destruct Hcfg as (Hp2 & Hn2 & _).
  apply IH; try lia; congruence.
Qed.

(** X15. The reads of the driver stay in range in a release build.
    bkz.cpp indexes three vectors itself: x in getCurrentSlope,
    evaluator.solCoord in svpReduction and RED_STATUS_STR in setStatus.
    When the enumerator leaves either no coordinates or at least as many
    as the block has rows, and the status of the LLL object is always one
    of the nine that RED_STATUS_STR names, none of these reads is out of
    range in svpReduction (on a block that starts at a row kappa >= 0 and
    ends within the int range), in bkzLoop (on rows 0 <= minRow,
    0 <= maxRow) or in bkz (with numRows >= 0): the run returns, or it is
    the fuel of the model that ran out. This is about the driver's own
    vectors only: the row indices it hands to the Gram-Schmidt object are
    not checked here, and can be out of range (C9). *)
Theorem driver_reads_in_range fuel (s : State) :
  (forall kappa blockSize par clean,
      0 <= kappa -> Int32.min_signed <= blockSize ->
      kappa + blockSize <= Int32.max_signed ->
      in_range (svpReduction DEBUG fuel kappa blockSize par clean s))
  /\ (forall loop kappaMax par minRow maxRow clean,
      0 <= minRow -> 0 <= maxRow <= Int32.max_signed ->
      Int32.min_signed <= BKZParam.blockSize par ->
      in_range (bkzLoop DEBUG fuel loop kappaMax par minRow maxRow clean s))
  /\ (0 <= numRows s <= Int32.max_signed ->
      in_range (bkz DEBUG fuel s)).
Proof.
  split; [|split].
  - intros kappa bs par clean Hk Hbs Hmax.
    apply safe_in_range. apply safe_svpReduction; assumption.
  - intros loop kM par minRow maxRow clean Hmin Hmax Hbs.
    apply (safe_in_range (bkzLoop DEBUG fuel loop kM par minRow maxRow clean)).
    apply (safe_bkzLoop_with (svpReduction DEBUG fuel) fuel loop kM par minRow maxRow
             clean s Hmin Hmax Hbs).
    intros kappa bs c s'. apply safe_svpReduction.
  - intros Hn. apply safe_in_range.
    destruct (Z.lt_ge_cases (BKZParam.blockSize (param s)) 2) as [Hlt|Hge].
    + apply safe_total. apply total_bkz_small. exact Hlt.
    + intros why. rewrite (bkz_unfold _ _ Hge). revert why.
      apply safe_bind; [apply safe_total, total_bkz_enter|].
      intros aa s1 Ee.
      pose proof (wlp_elim _ _ _ _ _ (bkz_enter_value s) Ee) as Ha. cbn beta in Ha.
      pose proof (wlp_elim _ _ _ _ _ (bkz_enter_quiet s) Ee) as (Hp1 & Hn1 & _).
      apply safe_bind.
      { apply safe_bkz_for; rewrite ?Hp1, ?Hn1, ?Ha;
          cbn [BKZAutoAbort.startRow BKZAutoAbort.numRows BKZAutoAbort.new];
          unfold Int32.min_signed; lia. }
      intros [st|] s2 Ef; [|apply safe_ret].
      apply safe_total.
      destruct (bkz_epilogue_returns st s2) as (s' & E & _).
      { exact (wlp_elim _ _ _ _ _ (bkz_for_status fuel 0 0 aa s1) Ef st eq_refl). }
      eexists _, _. exact E.
Qed.

(** *** Termination under a loop cap *)

(** No block of a tour with these parameters is preprocessed. *)
Definition no_preprocessing (par : BKZParam.t) : Prop :=
  BKZParam.preprocessing par = None \/ BKZParam.blockSize par <= 3.

Lemma total_svpReduction fuel kappa bs par clean (s : State) :
  no_preprocessing par -> bs <= BKZParam.blockSize par ->
  0 <= kappa -> Int32.min_signed <= bs -> kappa + bs <= Int32.max_signed ->
  total (svpReduction DEBUG (S fuel) kappa bs par clean) s.
Proof.
  intros Hpre Hle Hk Hbs Hmax.
  assert (Hadd : kappa +i bs = kappa + bs).
  { apply Int32.add_exact.
    unfold Int32.in_range, Int32.min_signed, Int32.max_signed in *. lia. }
  unfold total. rewrite svpReduction_skip.
  2:{ intros pre Hp. destruct Hpre as [Hn|Hs]; [congruence | lia]. }
  apply total_bind_all; [apply total_svp_lll|].
  intros [b|c] s1; [apply total_ret|].
  unfold total. rewrite (bind_ok _ (svp_enumerate_eq kappa bs par s1)).
  apply total_svp_insert; [|unfold Int32.max_signed in *; lia].
  cbn [solCoord svp_enumerate_state].
  destruct (enum_coords (fst (getRExp kappa kappa (world s1)))
              (snd (getRExp kappa kappa (world s1))) kappa (kappa +i bs)
              (BKZParam.pruning par) (world s1)) as [H|H]; [left; exact H|].
  right. rewrite Hadd in H at 1. lia.
Qed.

Lemma total_bkzLoop_sweep fuel0 par maxRow :
  no_preprocessing par ->
  0 <= maxRow <= Int32.max_signed ->
  Int32.min_signed <= BKZParam.blockSize par ->
  forall fuel kappa kM clean (s : State),
    0 <= kappa ->
    (Z.to_nat (maxRow - 1 - kappa) < fuel)%nat ->
    total (bkzLoop_sweep (svpReduction DEBUG (S fuel0)) fuel kappa kM par maxRow clean) s.
Proof.
  intros Hpre HmaxRow Hbs.
  assert (Hsub : maxRow -i 1 = maxRow - 1).
  { apply Int32.sub_exact.
    unfold Int32.in_range, Int32.min_signed, Int32.max_signed in *. lia. }
  induction fuel as [|fuel IH]; intros kappa kM clean s Hk Hfuel; [lia|].
  cbn [bkzLoop_sweep]. rewrite Hsub.
  destruct (Z.ltb_spec kappa (maxRow - 1)); [|apply total_ret].
  assert (Hrow : maxRow -i kappa = maxRow - kappa).
  { apply Int32.sub_exact.
    unfold Int32.in_range, Int32.min_signed, Int32.max_signed in *. lia. }
  assert (Hinc : Int32.incr kappa = kappa + 1).
  { apply Int32.incr_exact. unfold Int32.min_signed, Int32.max_signed in *. lia. }
  rewrite Hrow, Int32.min_spec, Hinc.
  apply total_bind_all.
  { apply total_svpReduction; try assumption;
      unfold Int32.min_signed, Int32.max_signed in *; lia. }
  intros [ok c] s1. destruct ok; cbn [negb]; [|apply total_ret].
  destruct (_ && _).
  - apply total_bind_all; [apply total_emit|]. intros _ s2. apply IH; lia.
  - apply IH; lia.
Qed.

Lemma total_bkzLoop fuel loop kM par minRow maxRow clean (s : State) :
  no_preprocessing par ->
  0 <= minRow -> 0 <= maxRow <= Int32.max_signed ->
  Int32.min_signed <= BKZParam.blockSize par ->
  (Z.to_nat (maxRow - 1 - minRow) < S fuel)%nat ->
  total (bkzLoop DEBUG (S fuel) loop kM par minRow maxRow clean) s.
Proof.
  intros Hpre Hmin Hmax Hbs Hfuel. unfold bkzLoop, bkzLoop_with.
  apply total_bind_all; [apply total_bkzLoop_sweep; assumption|].
  intros [[ok kM'] c] s1. destruct ok; cbn [negb]; [|apply total_ret].
  apply total_bind_all; [|intros; apply total_ret].
  apply total_bkzLoop_report; lia.
Qed.

Lemma total_bkz_for k :
  forall fuel iLoop kM aa (s : State),
    has_flag (BKZParam.flags (param s)) BKZ_MAX_LOOPS = true ->
    BKZParam.maxLoops (param s) <= Int32.max_signed ->
    no_preprocessing (param s) ->
    Int32.min_signed <= BKZParam.blockSize (param s) ->
    0 <= numRows s <= Int32.max_signed ->
    0 <= BKZAutoAbort.startRow aa -> 0 <= BKZAutoAbort.numRows aa ->
    0 <= iLoop ->
    Z.to_nat (BKZParam.maxLoops (param s) - iLoop) = k ->
    (k + Z.to_nat (numRows s) + 1 <= fuel)%nat ->
    total (bkz_for DEBUG fuel iLoop kM aa) s.
Proof.
  induction k as [|k IH];
    intros fuel iLoop kM aa s Hflag Hcap Hpre Hbs Hn Hlo Hhi Hi Hk Hfuel;
    (destruct fuel as [|fuel]; [lia|]); cbn [bkz_for].
  - unfold total. rewrite (bind_ok _ (bkz_guards_loops iLoop aa s Hflag ltac:(lia))).
    eexists _, _. reflexivity.
  - destruct (total_bkz_guards iLoop aa s Hlo Hhi) as ([stop aa'] & s1 & E).
    pose proof (wlp_elim _ _ _ _ _ (bkz_guards_range iLoop aa s) E) as [H1 H2].
    pose proof (wlp_elim _ _ _ _ _ (bkz_guards_quiet iLoop aa s) E) as (Hp1 & Hn1 & _).
    cbn [snd] in H1, H2.
    unfold total. rewrite (bind_ok _ E).
    destruct stop; [eexists _, _; reflexivity|].
    rewrite !bind_gets.
    destruct fuel as [|fuel]; [lia|].
    destruct (total_bkzLoop fuel iLoop kM (param s1) 0 (numRows s1) true s1)
      as ([[ok kM'] c] & s2 & E2);
      [ rewrite Hp1; exact Hpre | lia | rewrite Hn1; exact Hn | rewrite Hp1; exact Hbs
      | rewrite Hn1; lia | ].
    rewrite (bind_ok _ E2).
    destruct ok; cbn [negb]; [|eexists _, _; reflexivity].
    destruct (c || _); [eexists _, _; reflexivity|].
    assert (Hcfg : same_config s1 s2).
    { assert (Hc : forall c0 w s0, driver_call c0 -> same_config s0 (step_world c0 w s0))
        by (intros; repeat split).
      assert (H : respects same_config
                    (bkzLoop DEBUG (S fuel) iLoop kM (param s1) 0 (numRows s1) true))
        by (apply frame_bkzLoop; try exact _; intros;
            first [apply Hc; assumption | repeat split]).
      exact (wlp_elim _ _ _ _ _ (H s1) E2). }
    destruct Hcfg as (Hp2 & Hn2 & _).
    assert (Hinc : Int32.incr iLoop = iLoop + 1).
    { apply Int32.incr_exact. unfold Int32.min_signed, Int32.max_signed in *. lia. }
    rewrite Hinc.
    apply IH; rewrite ?Hp2, ?Hp1, ?Hn2, ?Hn1; try assumption; lia.
Qed.

(** X16. Under a loop cap bkz terminates. In a release build, with
    BKZ_MAX_LOOPS set, no block preprocessed (a null preprocessing or a
    block size of at most 3), 0 <= numRows, an enumerator that leaves no
    coordinates or at least as many as the block has rows, and an LLL
    object whose status is always one of the nine that RED_STATUS_STR
    names (so that the message of setStatus is read in range), bkz
    returns whatever else the LLL object, the enumerator and the clock
    answer: the model needs no more fuel than maxLoops + numRows + 1. *)
Theorem bkz_returns_under_loop_cap fuel (s : State) :
  has_flag (BKZParam.flags (param s)) BKZ_MAX_LOOPS = true ->
  BKZParam.maxLoops (param s) <= Int32.max_signed ->
  no_preprocessing (param s) ->
  0 <= numRows s <= Int32.max_signed ->
  (Z.to_nat (BKZParam.maxLoops (param s)) + Z.to_nat (numRows s) + 1 <= fuel)%nat ->
  exists b s', bkz DEBUG fuel s = Ok (b, s').
Proof.
  intros Hflag Hcap Hpre Hn Hfuel.
  destruct (Z.lt_ge_cases (BKZParam.blockSize (param s)) 2) as [Hlt|Hge].
  - apply total_bkz_small. exact Hlt.
  - rewrite (bkz_unfold _ _ Hge).
    destruct (bkz_enter_spec s) as (s1 & Ee & (Hp1 & Hn1 & _)).
    rewrite (bind_ok _ Ee).
    destruct (total_bkz_for (Z.to_nat (BKZParam.maxLoops (param s1) - 0)) fuel 0 0
                (BKZAutoAbort.new (numRows s) 0) s1)
      as (r & s2 & Ef);
      rewrite ?Hp1, ?Hn1, ?Z.sub_0_r;
      cbn [BKZAutoAbort.startRow BKZAutoAbort.numRows BKZAutoAbort.new];
      try assumption; try reflexivity; try (unfold Int32.min_signed; lia).
    rewrite (bind_ok _ Ef).
    destruct r as [st|]; [|eexists _, _; reflexivity].
    destruct (bkz_epilogue_returns st s2) as (s' & E & _).
    { exact (wlp_elim _ _ _ _ _ (bkz_for_status fuel 0 0 _ s1) Ef st eq_refl). }
    eexists _, _. exact E.
Qed.

End Safe.

(** *** A successful run ends with a clean tour *)

Lemma bind_inv {A B} (c : M A) (k : A -> M B) (s : State) r :
  bind c k s = Ok r -> exists a s1, c s = Ok (a, s1) /\ k a s1 = Ok r.
Proof.
  unfold bind. destruct (c s) as [[a s1]|]; [|discriminate].
  intros H. exists a, s1. split; [reflexivity | exact H].
Qed.

Lemma wlp_intro {A} (c : M A) (s : State) (Q : A -> State -> Prop) :
  (forall a s', c s = Ok (a, s') -> Q a s') -> wlp c s Q.
Proof. intros H. unfold wlp. destruct (c s) as [[a s1]|]; [apply H; reflexivity | exact I]. Qed.

Lemma wlp_and {A} (c : M A) (s : State) (P Q : A -> State -> Prop) :
  wlp c s P -> wlp c s Q -> wlp c s (fun a s' => P a s' /\ Q a s').
Proof. unfold wlp. destruct (c s) as [[a s1]|]; [split; assumption | trivial]. Qed.

Lemma bkz_guards_trace iLoop aa : respects trace_extends (bkz_guards iLoop aa).
Proof. unfold bkz_guards. respects_with side_trace. Qed.

Lemma bkz_guards_stop iLoop aa (s : State) :
  has_flag (BKZParam.flags (param s)) BKZ_AUTO_ABORT = false ->
  wlp (bkz_guards iLoop aa) s (fun r _ => fst r <> Some (RED_SUCCESS : Z)).
Proof.
  intros Hauto. unfold bkz_guards. apply wlp_gets.
  destruct (_ && _); [apply wlp_ret; discriminate|].
  apply wlp_bind_any. intros late s1.
  destruct late; [apply wlp_ret; discriminate|].
  rewrite Hauto. apply wlp_ret. discriminate.
Qed.

Lemma bkz_epilogue_untouched st : respects untouched (bkz_epilogue st).
Proof. unfold bkz_epilogue. respects_with side_untouched. Qed.

Lemma bkz_enter_trace : respects trace_extends bkz_enter.
Proof. unfold bkz_enter, bkz_prelude. respects_with side_trace. Qed.

Lemma bkz_for_success fuel :
  forall iLoop kM aa (s : State),
    has_flag (BKZParam.flags (param s)) BKZ_AUTO_ABORT = false ->
    BKZParam.blockSize (param s) < numRows s ->
    wlp (bkz_for DEBUG fuel iLoop kM aa) s
        (fun r s2 =>
           r = Some (RED_SUCCESS : Z) ->
           exists fuel' loop kM0 kM' s0,
             trace_extends s s0
             /\ bkzLoop DEBUG fuel' loop kM0 (param s) 0 (numRows s) true s0
                = Ok ((true, kM', true), s2)).
Proof.
  induction fuel as [|fuel IH]; intros iLoop kM aa s Hauto Hsize; [exact I|].
  cbn [bkz_for]. apply wlp_bind.
  eapply wlp_weaken.
  { apply wlp_and; [apply bkz_guards_quiet|].
    apply wlp_and; [apply bkz_guards_trace | apply (bkz_guards_stop _ _ _ Hauto)]. }
  cbn beta. intros [stop aa'] s1 ((Hp1 & Hn1 & _) & T1 & Hstop). cbn [fst] in Hstop.
  destruct stop as [st|].
  - apply wlp_ret. intros H. contradiction.
  - apply wlp_gets. apply wlp_gets. apply wlp_bind. apply wlp_intro.
    intros [[ok kM'] c] s2 E2.
    assert (Hc : forall c0 w s0, driver_call c0 -> same_config s0 (step_world c0 w s0))
      by (intros; repeat split).
    assert (Hcfg : respects same_config
                     (bkzLoop DEBUG fuel iLoop kM (param s1) 0 (numRows s1) true))
      by (apply frame_bkzLoop; try exact _; intros;
          first [apply Hc; assumption | repeat split]).
    assert (Htr : respects trace_extends
                    (bkzLoop DEBUG fuel iLoop kM (param s1) 0 (numRows s1) true))
      by (apply frame_bkzLoop; try exact _; intros; side_trace).
    pose proof (wlp_elim _ _ _ _ _ (Hcfg s1) E2) as (Hp2 & Hn2 & _).
    pose proof (wlp_elim _ _ _ _ _ (Htr s1) E2) as T2. cbn beta in T2.
    destruct ok; cbn [negb]; [|apply wlp_ret; discriminate].
    destruct c; cbn [orb].
    + apply wlp_ret. intros _. exists fuel, iLoop, kM, kM', s1.
      split; [exact T1|]. rewrite <- Hp1, <- Hn1. exact E2.
    + destruct (Z.leb_spec (numRows s1) (BKZParam.blockSize (param s1))) as [Hle|Hgt];
        [rewrite Hp1, Hn1 in Hle; lia|].
      eapply wlp_weaken.
      { apply IH; rewrite ?Hp2, ?Hn2, ?Hp1, ?Hn1; assumption. }
      cbn beta. intros r s3 H Hr.
      destruct (H Hr) as (fuel' & loop & kM0 & kM1 & s0 & T3 & E3).
      exists fuel', loop, kM0, kM1, s0. split.
      * exact (pre_trans _ _ _ T1 (pre_trans _ _ _ T2 T3)).
      * rewrite Hp2, Hn2, Hp1, Hn1 in E3. exact E3.
Qed.

Section CleanExit.

Hypothesis lll_fails :
  forall a b c w, fst (lll a b c w) = false ->
                  lll_status (snd (lll a b c w)) <> RED_SUCCESS.
Hypothesis sizeReduction_fails :
  forall a b w, fst (sizeReduction a b w) = false ->
                lll_status (snd (sizeReduction a b w)) <> RED_SUCCESS.

(** X17. Success means a clean last tour. When bkz returns true with a
    block size of at least 2 and below numRows and without BKZ_AUTO_ABORT,
    the main loop was left after a complete tour over rows
    [0, numRows) that was entered with clean = true and handed it back as
    true; from the start of that tour to the end of bkz no row edit was
    made (the LLL object being assumed to leave a failure code when a
    call returns false). A run stopped by a cap does not return true. *)
Theorem success_ends_with_a_clean_tour fuel (s s' : State) :
  2 <= BKZParam.blockSize (param s) < numRows s ->
  has_flag (BKZParam.flags (param s)) BKZ_AUTO_ABORT = false ->
  bkz DEBUG fuel s = Ok (true, s') ->
  exists fuel' loop kappaMax kappaMax' s0 s1,
    (exists l0, trace s0 = trace s ++ l0)
    /\ bkzLoop DEBUG fuel' loop kappaMax (param s) 0 (numRows s) true s0
       = Ok ((true, kappaMax', true), s1)
    /\ bkz_epilogue RED_SUCCESS s1 = Ok (true, s')
    /\ status s' = RED_SUCCESS
    /\ exists l, trace s' = trace s0 ++ l
                 /\ Forall (fun c => is_row_edit c = false) l.
Proof.
  intros [Hbs Hsize] Hauto E.
  rewrite (bkz_unfold _ _ Hbs) in E.
  apply bind_inv in E. destruct E as (aa & s1 & Ee & E).
  apply bind_inv in E. destruct E as (r & s2 & Ef & E).
  pose proof (wlp_elim _ _ _ _ _ (bkz_enter_quiet s) Ee) as (Hp1 & Hn1 & _).
  pose proof (wlp_elim _ _ _ _ _ (bkz_enter_trace s) Ee) as T1. cbn beta in T1.
  destruct r as [st|]; [|discriminate].
  destruct (bkz_epilogue_returns st s2) as (s3 & E3 & Hst).
  { exact (wlp_elim _ _ _ _ _ (bkz_for_status fuel 0 0 aa s1) Ef st eq_refl). }
  rewrite E3 in E. injection E as Hb <-.
  apply Z.eqb_eq in Hb. subst st.
  assert (Ha : has_flag (BKZParam.flags (param s1)) BKZ_AUTO_ABORT = false)
    by (rewrite Hp1; exact Hauto).
  assert (Hs : BKZParam.blockSize (param s1) < numRows s1)
    by (rewrite Hp1, Hn1; exact Hsize).
  destruct (wlp_elim _ _ _ _ _ (bkz_for_success fuel 0 0 aa s1 Ha Hs) Ef eq_refl)
    as (fuel' & loop & kM0 & kM' & s0 & T0 & Et).
  rewrite Hp1, Hn1 in Et.
  exists fuel', loop, kM0, kM', s0, s2.
  split; [exact (pre_trans _ _ _ T1 T0)|].
  split; [exact Et|]. split; [exact E3|]. split; [exact Hst|].
  destruct (wlp_elim _ _ _ _ _
              (bkzLoop_with_clean _ (svpReduction_clean lll_fails sizeReduction_fails
                                       fuel')
                 fuel' (param s) 0 (numRows s) loop kM0 true s0)
              Et eq_refl eq_refl) as [_ U1].
  pose proof (wlp_elim _ _ _ _ _ (bkz_epilogue_untouched RED_SUCCESS s2) E3) as U2.
  exact (pre_trans _ _ _ U1 U2).
Qed.

End CleanExit.

End DriverFacts.

(** ** Runs on the scripted instance *)

Module Runs.

Import Scripted.

Local Abbreviation State := (@State World float).

(** The state a computation leaves, when it returns. *)
Definition state_after {A} (c : @M World float A) (s : State) : State :=
  match final (c s) with Some s' => s' | None => s end.

(** The scripted contract of the Gram-Schmidt and LLL objects. *)
Lemma scripted_rows : RowContract Collaborators_scripted.
Proof.
  split; try reflexivity.
  - intros a b c w. cbn. unfold run_lll. destruct (w_lll w); reflexivity.
  - intros a b w. cbn. unfold run_lll. destruct (w_lll w); reflexivity.
  - intros r e a b p w. cbn. unfold run_enumerate.
    destruct (w_enum w) as [|[nd sol] rest]; reflexivity.
  - intros w. cbn. unfold run_cputime. destruct (w_clock w); reflexivity.
  - intros a b c w. cbn. unfold run_lll.
    destruct (w_lll w) as [|[ok sw st] rest]; cbn; [discriminate|].
    intros ->. unfold answer_status. cbn.
    destruct (Z.eqb_spec st 0); [discriminate | assumption].
Qed.

(** *** testAbort (C2, C5) *)

(** Three rows, block size 2, auto-abort requested, nothing scripted. *)
Definition s_auto : State :=
  BKZReduction (quiet 3) (default_param 2 BKZ_AUTO_ABORT).

(** The same rows with the Gram-Schmidt profile 4, 2, 1. *)
Definition w_profile : World :=
  mkWorld 3 [] [(1%float, 2); (1%float, 1); (1%float, 0)] [] 0 0 [] [].

Definition s_profile : State :=
  BKZReduction w_profile (default_param 2 BKZ_AUTO_ABORT).

(** An auto-abort object that has already seen two tours without progress. *)
Definition stalled : BKZAutoAbort.t := BKZAutoAbort.Build 0x1p-1%float 2 3 0.

Definition slope_profile : float :=
  Eval vm_compute in
    match value (getCurrentSlope 0 3 s_profile) with Some v => v | None => nan end.

(** C2: with maxNoDec = 0 the first call on a fresh object returns true. *)
Lemma testAbort_first_call_maxNoDec_0 :
  option_map fst (value (testAbort 1 0 (BKZAutoAbort.new 3 0) s_auto)) = Some true.
Proof. vm_compute. reflexivity. Qed.

Lemma testAbort_first_call_witness :
  BKZAutoAbort.noDec (BKZAutoAbort.new 3 0) = -1
  /\ ((forall b a' s',
         testAbort 1 5 (BKZAutoAbort.new 3 0) s_auto = Ok ((b, a'), s') -> b = false)
      /\ exists a' s',
           testAbort 1 5 (BKZAutoAbort.new 3 0) s_auto = Ok ((false, a'), s')
           /\ BKZAutoAbort.noDec a' = 0)
  /\ ((forall b a' s',
         testAbort 1 0 (BKZAutoAbort.new 3 0) s_auto = Ok ((b, a'), s') -> b = true)
      /\ exists a' s',
           testAbort 1 0 (BKZAutoAbort.new 3 0) s_auto = Ok ((true, a'), s')
           /\ BKZAutoAbort.noDec a' = 0).
Proof.
  split; [reflexivity|]. split.
  - destruct (testAbort_first_call 1 5 (BKZAutoAbort.new 3 0) s_auto eq_refl)
      as [[H1 H2] _]; [lia|].
    split; [exact H1|]. apply H2; simpl; lia.
  - destruct (testAbort_first_call 1 0 (BKZAutoAbort.new 3 0) s_auto eq_refl)
      as [_ [H1 H2]]; [lia|].
    split; [exact H1|]. apply H2; simpl; lia.
Defined.

Lemma testAbort_behaviour_witness :
  exists b a',
    testAbort 1 5 stalled s_profile
    = Ok ((b, a'), state_after (getCurrentSlope 0 3) s_profile)
    /\ (BKZAutoAbort.noDec stalled = -1
        \/ PrimFloat.ltb (- slope_profile) (1 * BKZAutoAbort.oldSlope stalled) = true ->
        BKZAutoAbort.noDec a' = 0)
    /\ (BKZAutoAbort.noDec stalled <> -1
        /\ PrimFloat.ltb (- slope_profile) (1 * BKZAutoAbort.oldSlope stalled) = false ->
        BKZAutoAbort.noDec a' = BKZAutoAbort.noDec stalled + 1)
    /\ (PrimFloat.ltb (- slope_profile) (BKZAutoAbort.oldSlope stalled) = true ->
        BKZAutoAbort.oldSlope a' = (- slope_profile)%float)
    /\ (PrimFloat.ltb (- slope_profile) (BKZAutoAbort.oldSlope stalled) = false ->
        BKZAutoAbort.oldSlope a' = BKZAutoAbort.oldSlope stalled)
    /\ (b = true <-> 5 <= BKZAutoAbort.noDec a')
    /\ BKZAutoAbort.numRows a' = BKZAutoAbort.numRows stalled
    /\ BKZAutoAbort.startRow a' = BKZAutoAbort.startRow stalled.
Proof.
  apply (testAbort_behaviour 1 5 stalled s_profile slope_profile
           (state_after (getCurrentSlope 0 3) s_profile)).
  - unfold Int32.min_signed, Int32.max_signed. simpl. lia.
  - vm_compute. reflexivity.
Defined.

(** *** One block (C3, C4, C6, C7, C9) *)

(** Block size 2, no flag, no preprocessing. *)
Definition p_plain : BKZParam.t := default_param 2 0.

(** Three rows with [r_{i,i} = 1]; the LLL object and the enumerator answer
    as scripted. *)
Definition s_block (lll : list LLLAnswer) (enum : list (option float * list float))
  : State :=
  BKZReduction (mkWorld 3 [] [] lll 0 0 enum []) p_plain.

(** svpReduction(0, 2, p_plain, true) before line 110. *)
Definition s_lll (s : State) : State := state_after (svp_lll 0 2 p_plain true) s.

Ltac run := vm_compute; reflexivity.


(** The enumerator returns (0, 2) with squared norm 1/4: one nonzero
    coordinate, neither 1 nor -1. *)
Definition s_double : State := s_block [] [(Some 0x1p-2%float, [0; 2]%float)].

(** The enumerator returns (1, 1) with squared norm 1/4, and the LLL call
    that follows the insertion fails. *)
Definition s_lll_fails : State :=
  s_block [Answer true 0 0; Answer false 0 RED_LLL_FAILURE]
          [(Some 0x1p-2%float, [1; 1]%float)].

(** The enumerator returns (1, 0) with squared norm 1: nothing shorter. *)
Definition s_keep : State := s_block [] [(Some 1%float, [1; 0]%float)].

(** The enumerator finds nothing. *)
Definition s_none : State := s_block [] [].


(** C4: when the LLL call after the insertion fails, svpReduction and bkz
    return false with four rows where there were three. *)
Lemma extra_row_left_on_lll_failure :
  m_d (world s_lll_fails) = 3
  /\ value (svpReduction false 1 0 2 p_plain true s_lll_fails) = Some (false, true)
  /\ option_map (fun s => m_d (world s))
                (final (svpReduction false 1 0 2 p_plain true s_lll_fails)) = Some 4
  /\ value (bkz false 2 s_lll_fails) = Some false
  /\ option_map (fun s => m_d (world s)) (final (bkz false 2 s_lll_fails)) = Some 4.
Proof. repeat split; run. Qed.

Lemma row_count_on_exit_witness :
  (forall kappa blockSize par clean b clean' s',
      svpReduction false 3 kappa blockSize par clean s_lll_fails = Ok ((b, clean'), s') ->
      (b = true -> m_d (world s') = m_d (world s_lll_fails))
      /\ (m_d (world s') = m_d (world s_lll_fails)
          \/ (b = false /\ m_d (world s') = m_d (world s_lll_fails) + 1
              /\ status s' = lll_status (world s') /\ status s' <> RED_SUCCESS)))
  /\ (forall b s',
      bkz false 3 s_lll_fails = Ok (b, s') ->
      (b = true -> m_d (world s') = m_d (world s_lll_fails))
      /\ (m_d (world s') = m_d (world s_lll_fails)
          \/ (b = false /\ m_d (world s') = m_d (world s_lll_fails) + 1
              /\ status s' = lll_status (world s') /\ status s' <> RED_SUCCESS))).
Proof. exact (row_count_on_exit false (HC := scripted_rows) 3 s_lll_fails). Defined.

Lemma delta_test_keeps_basis_witness :
  before_enumerate false 0 0 2 p_plain true s_keep true (s_lll s_keep)
  /\ svpReduction false 1 0 2 p_plain true s_keep
     = Ok ((true, true), svp_enumerate_state 0 2 p_plain (s_lll s_keep))
  /\ trace (svp_enumerate_state 0 2 p_plain (s_lll s_keep))
     = trace (s_lll s_keep) ++ [C_enumerate 0 (0 +i 2)].
Proof.
  assert (Hpath : before_enumerate false 0 0 2 p_plain true s_keep true (s_lll s_keep)).
  { apply before_enumerate_plain; run. }
  split; [exact Hpath|].
  destruct (delta_test_keeps_basis false 0 0 2 p_plain true s_keep true (s_lll s_keep) Hpath)
    as (H1 & _ & _ & H4).
  - vm_compute. discriminate.
  - vm_compute. discriminate.
  - vm_compute. discriminate.
  - left. reflexivity.
  - run.
  - split; assumption.
Defined.

(** Five rows, block size 4, each block preprocessed by tours of block
    size 3. The enumerator answers once, with nothing shorter, and then
    finds nothing: the second block of the first preprocessing tour of the
    first block of the first tour of bkz fails. *)
Definition p_nested : BKZParam.t :=
  BKZParam.Build 4 0x1.fae147ae147aep-1%float 0 0 0%float 1%float 5 []
                 (Some (default_param 3 0)) EmptyString.

Definition s_nested : State :=
  BKZReduction (mkWorld 5 [] [] [] 0 0 [(Some 1%float, [1; 0; 0]%float)] []) p_nested.

Definition s_nested_failed : State := state_after (bkz false 4) s_nested.

Lemma enum_failure_propagates_witness :
  main_fails false 4 0 0 (BKZAutoAbort.new 5 0) (state_after bkz_enter s_nested)
             s_nested_failed
  /\ bkz false 4 s_nested = Ok (false, s_nested_failed)
  /\ status s_nested_failed = RED_ENUM_FAILURE
  /\ solCoord s_nested_failed = []
  /\ trace s_nested_failed
     = [C_cputime; C_discoverAllRows;
        C_lll 0 0 4; C_cputime;
        C_updateGSORow 0; C_updateGSORow 1; C_updateGSORow 2; C_updateGSORow 3;
        C_lll 0 0 3; C_enumerate 0 3;
        C_lll 0 1 4; C_enumerate 1 4].
Proof.
  assert (Hpath : main_fails false 4 0 0 (BKZAutoAbort.new 5 0)
                             (state_after bkz_enter s_nested) s_nested_failed).
  { eapply main_fails_here; [run|].
    eapply sweep_fails_here; [vm_compute; reflexivity|].
    right. eexists _, _, _. split; [run|]. split; [reflexivity|].
    split; [reflexivity|].
    eapply preproc_fails_here; [run|].
    eapply sweep_fails_later; [vm_compute; reflexivity | run |].
    eapply sweep_fails_here; [vm_compute; reflexivity|].
    left. eexists _, _. split; [apply before_enumerate_plain; run|].
    split; run. }
  split; [exact Hpath|].
  destruct (@enum_failure_propagates _ _ _ Collaborators_scripted false)
    as (_ & _ & _ & Hbkz).
  destruct (Hbkz 4%nat (BKZAutoAbort.new 5 0) s_nested (state_after bkz_enter s_nested)
              s_nested_failed) as (E & Hst & Hsc & _).
  - vm_compute. discriminate.
  - run.
  - exact Hpath.
  - split; [exact E|]. split; [exact Hst|]. split; [exact Hsc|]. run.
Defined.

Lemma lone_coordinate_not_unit_witness :
  before_enumerate false 0 0 2 p_plain true s_double true (s_lll s_double)
  /\ (false = false ->
      (exists b c' s4 out,
        svpReduction false 1 0 2 p_plain true s_double = Ok ((b, c'), s4)
        /\ trace s4
           = trace (svp_enumerate_state 0 2 p_plain (s_lll s_double))
             ++ [C_moveRow (0 - 1) 0; C_sizeReduction 0 (0 +i 1)] ++ out
        /\ (forall x, In x out -> exists m, x = C_cerr m)
        /\ world s4
           = snd (sizeReduction 0 (0 +i 1)
                    (moveRow (0 - 1) 0
                       (world (svp_enumerate_state 0 2 p_plain (s_lll s_double))))))
      \/ (exists s4,
          trace s4
          = trace (svp_enumerate_state 0 2 p_plain (s_lll s_double))
            ++ [C_moveRow (0 - 1) 0; C_sizeReduction 0 (0 +i 1)]
          /\ world s4
             = snd (sizeReduction 0 (0 +i 1)
                      (moveRow (0 - 1) 0
                         (world (svp_enumerate_state 0 2 p_plain (s_lll s_double)))))
          /\ fst (sizeReduction 0 (0 +i 1)
                    (moveRow (0 - 1) 0
                       (world (svp_enumerate_state 0 2 p_plain (s_lll s_double)))))
             = false
          /\ has_flag (BKZParam.flags (param s4)) BKZ_VERBOSE = true
          /\ ~ 0 <= lll_status (world s4) < RED_STATUS_MAX
          /\ setStatus (lll_status (world s4)) s4 = Stuck OutOfBounds
          /\ svpReduction false 1 0 2 p_plain true s_double = Stuck OutOfBounds))
  /\ (false = true ->
      svpReduction false 1 0 2 p_plain true s_double = Stuck AssertionFailed)
  /\ option_map trace (final (svpReduction false 1 0 2 p_plain true s_double))
     = Some [C_lll 0 0 2; C_enumerate 0 2; C_moveRow (-1) 0; C_sizeReduction 0 1].
Proof.
  assert (Hpath : before_enumerate false 0 0 2 p_plain true s_double true (s_lll s_double)).
  { apply before_enumerate_plain; run. }
  split; [exact Hpath|].
  destruct (lone_coordinate_not_unit false 0 0 2 p_plain true s_double true
              (s_lll s_double)
              (svp_enumerate_state 0 2 p_plain (s_lll s_double)) Hpath eq_refl)
    as [Hrel Hdbg].
  - vm_compute. split; [reflexivity | discriminate].
  - vm_compute. discriminate.
  - vm_compute. discriminate.
  - run.
  - run.
  - intros x Hx Hz. vm_compute in Hx.
    destruct Hx as [<-|[<-|[]]].
    + vm_compute in Hz. discriminate.
    + split; run.
  - split; [exact Hrel|]. split; [exact Hdbg | run].
Defined.

(** *** A tour and a run (C1, C8, C10) *)

Lemma bkzLoop_blocks_witness :
  tour_blocks p_plain 0 3 = [(0, 2); (1, 2)]
  /\ bkzLoop false 3 0 0 p_plain 0 3 true s_none
     = bind (reduce_blocks (svpReduction false 3) (tour_blocks p_plain 0 3) 0 p_plain true)
            (fun r => if negb (fst (fst r)) then ret (false, snd (fst r), snd r)
                      else bind (bkzLoop_report 0 p_plain 0 3)
                                (fun _ => ret (true, snd (fst r), snd r))) s_none
  /\ (forall blockSize, ~ In (3 - 1, blockSize) (tour_blocks p_plain 0 3)).
Proof.
  split; [reflexivity|].
  destruct (bkzLoop_blocks false 3 0 0 p_plain 0 3 true s_none) as (H1 & _ & H3 & _).
  - lia.
  - unfold Int32.min_signed, Int32.max_signed. lia.
  - vm_compute. lia.
  - split; assumption.
Defined.

Lemma returned_flag_is_status_witness :
  status s_none = RED_SUCCESS
  /\ (forall b s',
        bkz false 3 s_none = Ok (b, s') ->
        b = (status s' =? RED_SUCCESS) /\ (b = false -> status s' <> RED_SUCCESS)).
Proof.
  split; [reflexivity|].
  exact (proj1 (proj2 (returned_flag_is_status false 3 s_none eq_refl))).
Defined.

(** Five rows, block size 3, BKZ_MAX_LOOPS with maxLoops = 0. *)
Definition s_loops : State :=
  BKZReduction (quiet 5)
    (BKZParam.Build 3 0x1.fae147ae147aep-1%float BKZ_MAX_LOOPS 0 0%float 1%float 5 [] None
                    EmptyString).

(** Three rows, block size 2, BKZ_MAX_TIME with maxTime = 1 second; the
    clock reads 0 ms when bkz starts and 2000 ms at the first check. *)
Definition s_time : State :=
  BKZReduction (mkWorld 3 [] [] [] 0 0 [] [0; 2000])
    (BKZParam.Build 2 0x1.fae147ae147aep-1%float BKZ_MAX_TIME 0 1%float 1%float 5 [] None
                    EmptyString).

(** Block size 1, BKZ_MAX_LOOPS with maxLoops = 0. *)
Definition s_loops_bs1 : State :=
  BKZReduction (quiet 5)
    (BKZParam.Build 1 0x1.fae147ae147aep-1%float BKZ_MAX_LOOPS 0 0%float 1%float 5 [] None
                    EmptyString).

(** C1: with BKZ_MAX_LOOPS and maxLoops = 0, and with the time cap
    exceeded, bkz records the limit status and returns false, not true.
    With a block size below 2 the caps are not looked at: bkz returns true
    with status RED_SUCCESS. *)
Lemma bkz_returns_false_at_a_cap :
  value (bkz false 1 s_loops) = Some false
  /\ option_map status (final (bkz false 1 s_loops)) = Some (RED_BKZ_LOOPS_LIMIT : Z)
  /\ value (bkz false 1 s_time) = Some false
  /\ option_map status (final (bkz false 1 s_time)) = Some (RED_BKZ_TIME_LIMIT : Z)
  /\ value (bkz false 1 s_loops_bs1) = Some true
  /\ option_map status (final (bkz false 1 s_loops_bs1)) = Some (RED_SUCCESS : Z).
Proof. repeat split; run. Qed.

Lemma budget_exhaustion_witness :
  (has_flag (BKZParam.flags (param s_loops)) BKZ_MAX_LOOPS = true
   /\ BKZParam.maxLoops (param s_loops) <= 0
   /\ 2 <= BKZParam.blockSize (param s_loops)
   /\ exists s',
        bkz false 1 s_loops = Ok (false, s')
        /\ status s' = RED_BKZ_LOOPS_LIMIT
        /\ reduction_calls (trace s') = reduction_calls (trace s_loops))
  /\ (bkz_for false 1 0 0 (BKZAutoAbort.new 3 0) (state_after bkz_enter s_time)
      = Ok (Some (RED_BKZ_TIME_LIMIT : Z),
            step_world C_cputime (snd (cputime (world (state_after bkz_enter s_time))))
                       (state_after bkz_enter s_time))
      /\ exists s',
           bkz false 1 s_time = Ok (false, s') /\ status s' = RED_BKZ_TIME_LIMIT).
Proof.
  destruct (budget_exhaustion (W := World) (FT := float) false) as (_ & Htime & Hexit & Hzero).
  assert (Hf : bkz_for false 1 0 0 (BKZAutoAbort.new 3 0) (state_after bkz_enter s_time)
               = Ok (Some (RED_BKZ_TIME_LIMIT : Z),
                     step_world C_cputime
                       (snd (cputime (world (state_after bkz_enter s_time))))
                       (state_after bkz_enter s_time))).
  { apply Htime; run. }
  split; [|split].
  - split; [reflexivity|]. split; [vm_compute; discriminate|].
    split; [vm_compute; discriminate|].
    apply Hzero; [vm_compute; discriminate | reflexivity | vm_compute; discriminate].
  - exact Hf.
  - eapply (Hexit 1%nat (BKZAutoAbort.new 3 0) RED_BKZ_TIME_LIMIT s_time
              (state_after bkz_enter s_time)).
    + vm_compute. discriminate.
    + run.
    + exact Hf.
    + right. reflexivity.
Defined.

End Runs.

(** ** Collaborators with nothing to do

    The world is the row count. The LLL object succeeds without a swap,
    every [r_{i,i}] is 1, and the enumerator hands back the bound it was
    given with the vector (1, 0, ..., 0). *)

Module Still.

Import Scripted.

Definition still_lll (w : Z) : bool * Z := (true, w).

Definition still_enumerate (maxDist : float) (first last : Z) (w : Z)
  : (float * list float) * Z :=
  ((maxDist, 1%float :: repeat 0%float (Z.to_nat (last - first))), w).

#[export] Instance Collaborators_still : Collaborators Z float := {
  m_d w := w;
  m_b_is_zero _ _ := false;
  getRExp _ _ _ := (1%float, 0);
  updateGSORow _ w := w;
  discoverAllRows w := w;
  createRow w := w + 1;
  removeLastRow w := w - 1;
  moveRow _ _ w := w;
  rowOpBegin _ _ w := w;
  rowOpEnd _ _ w := w;
  row_addmul _ _ _ w := w;
  lll _ _ _ := still_lll;
  sizeReduction _ _ := still_lll;
  lll_status _ := RED_SUCCESS;
  lll_nSwaps _ := 0;
  enumerate maxDist _ first last _ := still_enumerate maxDist first last;
  cputime w := (0, w)
}.

End Still.

(** ** More runs: further properties of the driver, on concrete inputs *)

Module MoreRuns.

Import Scripted.
Import Runs.

Local Abbreviation State := (@State World float).

(** Three rows, block size 2; the enumerator finds nothing shorter in
    either block. *)
Definition s_keep_twice : State :=
  s_block [] [(Some 1%float, [1; 0]%float); (Some 1%float, [1; 0]%float)].

(** The same under BKZ_VERBOSE. *)
Definition p_verbose : BKZParam.t := default_param 2 BKZ_VERBOSE.

Definition s_verbose : State :=
  BKZReduction (mkWorld 3 [] [] [] 0 0
                        [(Some 1%float, [1; 0]%float); (Some 1%float, [1; 0]%float)] [])
               p_verbose.

(** Three rows of which the last two are zero. *)
Definition w_zero_rows : World := mkWorld 3 [false; true; true] [] [] 0 0 [] [].

(** Block size 1. *)
Definition s_bs1 : State := BKZReduction (quiet 3) (default_param 1 0).

(** The first LLL call fails. *)
Definition s_first_lll_fails : State :=
  s_block [Answer false 0 RED_LLL_FAILURE] [].

(** Block size 2, BKZ_AUTO_ABORT with autoAbort_maxNoDec = 0. *)
Definition p_abort0 : BKZParam.t :=
  BKZParam.Build 2 0x1.fae147ae147aep-1%float BKZ_AUTO_ABORT 0 0%float 1%float 0 [] None
                 EmptyString.

Definition s_abort0 : State := BKZReduction (quiet 3) p_abort0.

(** Block size 4 with a preprocessing of block size 3, no flag, and
    autoAbort_maxNoDec = 0. *)
Definition p_pre : BKZParam.t :=
  BKZParam.Build 4 0x1.fae147ae147aep-1%float 0 0 0%float 1%float 0 []
                 (Some (default_param 3 0)) EmptyString.

Definition s_pre : State := BKZReduction (quiet 5) p_pre.

Lemma scripted_lll_fails :
  forall a b c w, fst (lll a b c w) = false ->
                  lll_status (snd (lll a b c w)) <> RED_SUCCESS.
Proof. exact (@lll_failure_status _ _ _ scripted_rows). Qed.

Lemma scripted_sizeReduction_fails :
  forall a b w, fst (sizeReduction a b w) = false ->
                lll_status (snd (sizeReduction a b w)) <> RED_SUCCESS.
Proof. intros a b w. exact (@lll_failure_status _ _ _ scripted_rows 0 0 0 w). Qed.

Lemma driver_keeps_configuration_witness :
  bkz false 4 s_keep_twice = Ok (true, state_after (bkz false 4) s_keep_twice)
  /\ param (state_after (bkz false 4) s_keep_twice) = param s_keep_twice
  /\ numRows (state_after (bkz false 4) s_keep_twice) = numRows s_keep_twice
  /\ delta (state_after (bkz false 4) s_keep_twice) = delta s_keep_twice.
Proof.
  split; [run|].
  apply (proj1 (driver_keeps_configuration false 4 s_keep_twice) true). run.
Defined.

Lemma driver_calls_have_shape_witness :
  svpReduction false 1 0 2 p_plain true s_lll_fails
  = Ok ((false, true), state_after (svpReduction false 1 0 2 p_plain true) s_lll_fails)
  /\ exists l,
      trace (state_after (svpReduction false 1 0 2 p_plain true) s_lll_fails)
      = trace s_lll_fails ++ l
      /\ Forall driver_call l.
Proof.
  split; [run|].
  apply (proj2 (proj2 (driver_calls_have_shape false 1 s_lll_fails))
           0 2 p_plain true (false, true)).
  run.
Defined.

Lemma constructor_numRows_witness :
  numRows (BKZReduction w_zero_rows p_plain) = 1
  /\ 0 <= numRows (BKZReduction w_zero_rows p_plain) <= m_d w_zero_rows
  /\ (forall i, numRows (BKZReduction w_zero_rows p_plain) <= i < m_d w_zero_rows ->
                m_b_is_zero w_zero_rows i = true)
  /\ (numRows (BKZReduction w_zero_rows p_plain) = 0
      \/ m_b_is_zero w_zero_rows (numRows (BKZReduction w_zero_rows p_plain) - 1) = false)
  /\ world (BKZReduction w_zero_rows p_plain) = w_zero_rows
  /\ trace (BKZReduction w_zero_rows p_plain) = []
  /\ status (BKZReduction w_zero_rows p_plain) = RED_SUCCESS.
Proof.
  split; [reflexivity|].
  apply (constructor_numRows w_zero_rows p_plain).
  unfold Int32.max_signed. simpl. lia.
Defined.

Lemma bkz_small_block_witness :
  BKZParam.blockSize (param s_bs1) < 2
  /\ exists s',
      bkz false 0 s_bs1 = Ok (true, s')
      /\ status s' = RED_SUCCESS
      /\ reduction_calls (trace s') = reduction_calls (trace s_bs1)
      /\ (has_flag (BKZParam.flags (param s_bs1)) BKZ_DUMP_GSO = false ->
          s' = setStatus_state RED_SUCCESS s_bs1).
Proof.
  assert (H : BKZParam.blockSize (param s_bs1) < 2) by (simpl; lia).
  split; [exact H|]. exact (bkz_small_block false 0 s_bs1 H).
Defined.

(** The first LLL call fails and leaves RED_STATUS_MAX, with BKZ_VERBOSE
    set. *)
Definition s_status_max : State :=
  BKZReduction (mkWorld 3 [] [] [Answer false 0 RED_STATUS_MAX] 0 0 [] []) p_verbose.

Lemma svpReduction_opens_with_lll_witness :
  (fst (lll 0 0 (0 +i 2) (world s_first_lll_fails)) = false
   /\ exists s' out,
       svpReduction false 1 0 2 p_plain true s_first_lll_fails
       = Ok ((status s' =? RED_SUCCESS, true), s')
       /\ world s' = snd (lll 0 0 (0 +i 2) (world s_first_lll_fails))
       /\ status s' = lll_status (world s')
       /\ trace s' = trace s_first_lll_fails ++ C_lll 0 0 (0 +i 2) :: out
       /\ (forall x, In x out -> exists m, x = C_cerr m))
  /\ (fst (lll 0 0 (0 +i 2) (world s_status_max)) = false
      /\ lll_status (snd (lll 0 0 (0 +i 2) (world s_status_max))) = RED_STATUS_MAX
      /\ svpReduction false 1 0 2 p_verbose true s_status_max = Stuck OutOfBounds).
Proof.
  split.
  - assert (H : fst (lll 0 0 (0 +i 2) (world s_first_lll_fails)) = false) by run.
    split; [exact H|].
    apply (proj2 (svpReduction_opens_with_lll false 0 0 2 p_plain true
                    s_first_lll_fails) H).
    left. reflexivity.
  - assert (H : fst (lll 0 0 (0 +i 2) (world s_status_max)) = false) by run.
    split; [exact H|]. split; [reflexivity|].
    apply (proj2 (svpReduction_opens_with_lll false 0 0 2 p_verbose true s_status_max) H).
    + reflexivity.
    + vm_compute. intros [_ H9]. discriminate.
Defined.

Lemma getCurrentSlope_rows_visited_witness :
  getCurrentSlope (-1) 3 s_profile = Stuck OutOfBounds
  /\ exists v,
      getCurrentSlope 0 3 s_profile
      = Ok (v, update_rows (seqZ (Z.to_nat (3 - 0)) 0) s_profile)
      /\ trace (update_rows (seqZ (Z.to_nat (3 - 0)) 0) s_profile)
         = trace s_profile ++ map C_updateGSORow (seqZ (Z.to_nat (3 - 0)) 0)
      /\ world (update_rows (seqZ (Z.to_nat (3 - 0)) 0) s_profile)
         = fold_left (fun w i => updateGSORow i w) (seqZ (Z.to_nat (3 - 0)) 0)
                     (world s_profile)
      /\ (3 <= 0 -> PrimFloat.is_nan v = true).
Proof.
  split.
  - apply (proj1 (getCurrentSlope_rows_visited (-1) 3 s_profile)). left. lia.
  - apply (proj1 (proj2 (getCurrentSlope_rows_visited 0 3 s_profile))); lia.
Defined.

Lemma clean_means_no_row_edit_witness :
  svpReduction false 1 0 2 p_plain true s_keep
  = Ok ((true, true), state_after (svpReduction false 1 0 2 p_plain true) s_keep)
  /\ exists l,
      trace (state_after (svpReduction false 1 0 2 p_plain true) s_keep)
      = trace s_keep ++ l
      /\ Forall (fun c => is_row_edit c = false) l.
Proof.
  split; [run|].
  apply (proj1 (clean_means_no_row_edit false scripted_lll_fails
                  scripted_sizeReduction_fails 1 s_keep)
           0 2 p_plain true).
  run.
Defined.

(** The state in which the general case is entered on [s_lll_fails]. *)
Definition s_general : State := svp_enumerate_state 0 2 p_plain (s_lll s_lll_fails).

Lemma general_case_calls_witness :
  2 <= Z.of_nat (List.length (solCoord s_general))
  /\ trace (general_combined 0 2 s_general)
     = trace s_general
       ++ [C_createRow; C_rowOpBegin 3 4; C_row_addmul 3 0 1%float;
           C_row_addmul 3 1 1%float; C_rowOpEnd 3 4; C_moveRow 3 0]
  /\ svp_insert_general false 0 2 true s_general
     = Ok ((false, true),
           setStatus_state RED_LLL_FAILURE
             (step_world (C_lll 0 0 3)
                (snd (lll 0 0 3 (world (general_combined 0 2 s_general))))
                (general_combined 0 2 s_general))).
Proof.
  assert (H : 2 <= Z.of_nat (List.length (solCoord s_general))) by (simpl; lia).
  split; [exact H|].
  destruct (general_case_calls false 0 2 true s_general H) as (Ht & Hf & _).
  split.
  - rewrite Ht. reflexivity.
  - destruct Hf as [Hp _]; [run|]. rewrite Hp; [reflexivity|]. left. reflexivity.
Defined.

Lemma small_blocks_skip_preprocessing_witness :
  BKZParam.blockSize p_plain <= 3
  /\ bkzLoop false 3 0 0 (with_preprocessing (Some (default_param 5 0)) p_plain) 0 3 true
             s_keep_twice
     = bkzLoop false 3 0 0 p_plain 0 3 true s_keep_twice.
Proof.
  assert (H : BKZParam.blockSize p_plain <= 3) by (simpl; lia).
  split; [exact H|].
  exact (proj2 (small_blocks_skip_preprocessing false 3 s_keep_twice)
           0 0 p_plain (Some (default_param 5 0)) 0 3 true H).
Defined.

Lemma auto_abort_before_first_tour_witness :
  has_flag (BKZParam.flags (param s_abort0)) BKZ_AUTO_ABORT = true
  /\ BKZParam.autoAbort_maxNoDec (param s_abort0) <= 0
  /\ exists s',
      bkz false 1 s_abort0 = Ok (true, s')
      /\ status s' = RED_SUCCESS
      /\ reduction_calls (trace s') = reduction_calls (trace s_abort0).
Proof.
  split; [reflexivity|]. split; [simpl; lia|].
  apply (auto_abort_before_first_tour false 0 s_abort0);
    first [reflexivity | simpl; lia].
Defined.

Lemma kappaMax_only_grows_witness :
  bkzLoop false 3 0 0 p_verbose 0 3 true s_verbose
  = Ok ((true, 1, true), state_after (bkzLoop false 3 0 0 p_verbose 0 3 true) s_verbose)
  /\ 0 <= 1
  /\ (has_flag (BKZParam.flags p_verbose) BKZ_VERBOSE = false -> 1 = 0)
  /\ (1 <> 0 -> 0 <= 1 < 3 -i 1).
Proof.
  split; [run|].
  apply (kappaMax_only_grows false 3 0 0 p_verbose 0 3 true s_verbose true 1 true
           (state_after (bkzLoop false 3 0 0 p_verbose 0 3 true) s_verbose)).
  - unfold Int32.min_signed. lia.
  - run.
Defined.

Lemma preprocessing_auto_abort_witness :
  BKZParam.autoAbort_maxNoDec p_pre <= 0
  /\ has_flag (BKZParam.flags p_pre) BKZ_AUTO_ABORT = false
  /\ exists s',
      svp_preproc (fun _ _ _ _ => stuck OutOfFuel) 1 0 4 p_pre true s_pre
      = Ok ((true, true), s')
      /\ reduction_calls (trace s') = reduction_calls (trace s_pre)
      /\ param s' = param s_pre /\ numRows s' = numRows s_pre
      /\ status s' = status s_pre.
Proof.
  split; [simpl; lia|]. split; [reflexivity|].
  apply (preprocessing_auto_abort (fun _ _ _ _ => stuck OutOfFuel) 0 0 4 p_pre true s_pre);
    first [reflexivity | simpl; lia | vm_compute; discriminate].
Defined.

Lemma success_ends_with_a_clean_tour_witness :
  bkz false 4 s_keep_twice = Ok (true, state_after (bkz false 4) s_keep_twice)
  /\ exists fuel' loop kappaMax kappaMax' s0 s1,
      (exists l0, trace s0 = trace s_keep_twice ++ l0)
      /\ bkzLoop false fuel' loop kappaMax (param s_keep_twice) 0 (numRows s_keep_twice)
                 true s0
         = Ok ((true, kappaMax', true), s1)
      /\ bkz_epilogue RED_SUCCESS s1 = Ok (true, state_after (bkz false 4) s_keep_twice)
      /\ status (state_after (bkz false 4) s_keep_twice) = RED_SUCCESS
      /\ exists l, trace (state_after (bkz false 4) s_keep_twice) = trace s0 ++ l
                   /\ Forall (fun c => is_row_edit c = false) l.
Proof.
  split; [run|].
  apply (success_ends_with_a_clean_tour false scripted_lll_fails
           scripted_sizeReduction_fails 4 s_keep_twice).
  - vm_compute. repeat split; discriminate.
  - reflexivity.
  - run.
Defined.

End MoreRuns.

(** ** A run on the collaborators with nothing to do *)

Module StillRuns.

Import Scripted.
Import Still.

Local Abbreviation State := (@State Z float).

(** Four rows, block size 2, no flag. *)
Definition s_still : State := BKZReduction (4 : Z) (default_param 2 0).

Lemma still_lll_quiet :
  forall a k b (w : Z), fst (lll a k b w) = true /\ lll_nSwaps (snd (lll a k b w)) <= 0.
Proof. intros a k b w. split; [reflexivity | cbn; lia]. Qed.

Lemma still_enum_quiet :
  forall kappa last p (w : Z),
    kappa < last ->
    snd (enum_answer kappa last p w) <> []
    /\ last - kappa <= Z.of_nat (List.length (snd (enum_answer kappa last p w)))
    /\ 0 < nonzero_count (block_coords (last - kappa) (snd (enum_answer kappa last p w)))
    /\ FT_ge (fst (enum_answer kappa last p w))
             (FT_mul (delta s_still) (fst (getRExp kappa kappa w))) = true.
Proof.
  intros kappa last p w H.
  unfold enum_answer. cbn [enumerate getRExp Collaborators_still still_enumerate fst snd].
  split; [discriminate|]. split.
  - cbn [List.length]. rewrite repeat_length. lia.
  - split; [|vm_compute; reflexivity].
    unfold block_coords. destruct (Z.to_nat (last - kappa)) as [|n] eqn:E; [lia|].
    cbn [firstn]. rewrite nonzero_count_cons.
    change (is_zero 1%float) with false. cbn iota.
    pose proof (nonzero_count_bounds (firstn n (repeat 0%float (S n)))). lia.
Qed.

Lemma steady_basis_one_tour_witness :
  exists s',
    bkz false 5 s_still = Ok (true, s')
    /\ status s' = RED_SUCCESS
    /\ reduction_calls (trace s')
       = [C_lll 0 0 2; C_enumerate 0 2; C_lll 0 1 3; C_enumerate 1 3;
          C_lll 0 2 4; C_enumerate 2 4].
Proof.
  apply (steady_basis_one_tour false (delta s_still) still_lll_quiet still_enum_quiet
           4 s_still);
    first [reflexivity | simpl; lia | vm_compute; lia | vm_compute; split; discriminate].
Defined.

Lemma still_enum_coords :
  forall r e first last p (w : Z),
    snd (fst (enumerate r e first last p w)) = []
    \/ last - first <= Z.of_nat (List.length (snd (fst (enumerate r e first last p w)))).
Proof.
  intros r e first last p w. right.
  cbn [enumerate Collaborators_still still_enumerate fst snd List.length].
  rewrite repeat_length. lia.
Qed.

Lemma still_status : forall w : Z, 0 <= lll_status w < RED_STATUS_MAX.
Proof. intros w. cbn. lia. Qed.

(** Four rows, block size 2, with BKZ_VERBOSE and BKZ_AUTO_ABORT: the
    slope is computed before each tour and the messages are written. *)
Definition s_loud : State :=
  BKZReduction (4 : Z) (default_param 2 (Z.lor BKZ_VERBOSE BKZ_AUTO_ABORT)).

Lemma driver_reads_in_range_witness :
  0 <= numRows s_loud <= Int32.max_signed
  /\ in_range (bkz false 5 s_loud)
  /\ value (bkz false 5 s_loud) = Some true
  /\ option_map (fun s => filter is_reduction_call (trace s)) (final (bkz false 5 s_loud))
     = Some [C_lll 0 0 2; C_enumerate 0 2; C_lll 0 1 3; C_enumerate 1 3;
             C_lll 0 2 4; C_enumerate 2 4].
Proof.
  assert (H : 0 <= numRows s_loud <= Int32.max_signed)
    by (vm_compute; split; discriminate).
  split; [exact H|]. split.
  - exact (proj2 (proj2 (driver_reads_in_range false eq_refl still_enum_coords
                           still_status 5 s_loud)) H).
  - split; vm_compute; reflexivity.
Defined.

(** Four rows, block size 2, BKZ_MAX_LOOPS with maxLoops = 2. *)
Definition s_cap : State :=
  BKZReduction (4 : Z)
    (BKZParam.Build 2 0x1.fae147ae147aep-1%float BKZ_MAX_LOOPS 2 0%float 1%float 5 [] None
                    EmptyString).

Lemma bkz_returns_under_loop_cap_witness :
  has_flag (BKZParam.flags (param s_cap)) BKZ_MAX_LOOPS = true
  /\ exists b s', bkz false 7 s_cap = Ok (b, s').
Proof.
  split; [reflexivity|].
  apply (bkz_returns_under_loop_cap false eq_refl still_enum_coords still_status 7 s_cap).
  - reflexivity.
  - vm_compute. discriminate.
  - left. reflexivity.
  - vm_compute. split; discriminate.
  - vm_compute. lia.
Defined.

End StillRuns.
